(** * Network command handlers of azure-cli: model and properties

    A shallow embedding of the handlers of
    [azure/cli/command_modules/network/custom.py] that the properties
    below talk about.  Python objects with dynamically named attributes
    are finite maps from attribute names to values, Python exceptions
    are the [Raise] branch of a result type, and a handler that calls
    the management SDK returns the request it issues. *)

From Stdlib Require Import ZArith List String Ascii Bool Lia Floats DecimalString.
From stdpp Require Import gmap gmultiset strings list.
From Equations Require Import Equations.

Open Scope string_scope.

(** ** Python values, exceptions and string primitives *)

Module Py.

(** The exception classes the handlers raise or let through.  Message
    texts are not modelled. *)
Inductive exn : Type :=
| CLIError
| RequiredArgumentMissingError
| MutuallyExclusiveArgumentError
| InvalidArgumentValueError
| ResourceNotFoundError
| HttpResponseError
| AttributeError
| TypeError
| KeyError
| IndexError
| ValueError
| UnboundLocalError
| AssertionError.

Inductive result (A : Type) : Type :=
| Ok (a : A)
| Raise (e : exn).
Arguments Ok {A} a.
Arguments Raise {A} e.

#[global] Instance result_ret : MRet result := fun A a => Ok a.
#[global] Instance result_bind : MBind result := fun A B k r =>
  match r with
  | Ok a => k a
  | Raise e => Raise e
  end.

(** Scalar attribute values: [None], an [int], a [str] or a list of [str]. *)
Inductive pyval : Type :=
| VNone
| VInt (z : Z)
| VStr (s : string)
| VStrs (l : list string).

#[global] Instance pyval_eq_dec : EqDecision pyval.
Proof. solve_decision. Defined.

(** [bool(v)] *)
Definition truthy (v : pyval) : bool :=
  match v with
  | VNone => false
  | VInt z => negb (Z.eqb z 0)
  | VStr s => negb (String.eqb s "")
  | VStrs l => match l with [] => false | _ => true end
  end.

(** [a == b] on scalar values *)
Definition py_eqb (a b : pyval) : bool := bool_decide (a = b).

(** [l[i]] on a list *)
Definition index {A : Type} (l : list A) (i : nat) : result A :=
  match nth_error l i with
  | Some x => Ok x
  | None => Raise IndexError
  end.

(** [''.join(l)] *)
Definition join_empty (l : list string) : string :=
  fold_right String.append "" l.

(** Position-free view of [s.rsplit(c, 1)] when [c] occurs in [s]: the
    text before and after the last occurrence. *)
Fixpoint rsplit_last (c : ascii) (s : string) : option (string * string) :=
  match s with
  | EmptyString => None
  | String a r =>
      match rsplit_last c r with
      | Some (p, q) => Some (String a p, q)
      | None => if Ascii.eqb a c then Some (EmptyString, r) else None
      end
  end.

(** [s.rsplit(c, 1)] *)
Definition rsplit1 (c : ascii) (s : string) : list string :=
  match rsplit_last c s with
  | Some (p, q) => [p; q]
  | None => [s]
  end.

(** [c in s] for a one-character [c] *)
Fixpoint contains (c : ascii) (s : string) : bool :=
  match s with
  | EmptyString => false
  | String a r => Ascii.eqb a c || contains c r
  end.

(** [s.split(c)] with an explicit one-character separator: every
    occurrence splits, empty pieces are kept. *)
Fixpoint split (c : ascii) (s : string) : list string :=
  match s with
  | EmptyString => [EmptyString]
  | String a r =>
      if Ascii.eqb a c then EmptyString :: split c r
      else match split c r with
           | p :: ps => String a p :: ps
           | [] => [String a EmptyString]
           end
  end.

(** [s.lower()] on ASCII letters *)
Definition lower_ascii (a : ascii) : ascii :=
  let n := nat_of_ascii a in
  if (65 <=? n)%nat && (n <=? 90)%nat then ascii_of_nat (n + 32) else a.

Fixpoint lower (s : string) : string :=
  match s with
  | EmptyString => EmptyString
  | String a r => String (lower_ascii a) (lower r)
  end.

(** [s[:n]] and [s[n:]] for a non-negative [n] *)
Fixpoint slice_to (n : nat) (s : string) : string :=
  match n, s with
  | S k, String a r => String a (slice_to k r)
  | _, _ => EmptyString
  end.

Fixpoint slice_from (n : nat) (s : string) : string :=
  match n, s with
  | S k, String _ r => slice_from k r
  | _, _ => s
  end.

End Py.

Import Py.

(** ** Utility methods (custom.py, region "Utility methods") *)

Module Util.

(** A child resource of a load balancer or gateway; only its [id] is read. *)
Record SubResource : Type := { id : string }.

(** [getattr(balancer, property_name)] on an object whose attributes are
    collections of child resources. *)
Definition getattr (balancer : gmap string (list SubResource))
    (property_name : string) : result (list SubResource) :=
  match balancer !! property_name with
  | Some l => Ok l
  | None => Raise AttributeError
  end.

Definition _get_default_value (balancer : gmap string (list SubResource))
    (property_name option_name : string) (return_name : bool) : result string :=
  collection ← getattr balancer property_name;
  let values := map id collection in
  if (1 <? length values)%nat then Raise CLIError
  else if bool_decide (values = []) then Raise CLIError
  else
    v0 ← index values 0;
    if return_name then index (rsplit1 "/" v0) 1 else Ok v0.

Definition _get_default_name (balancer : gmap string (list SubResource))
    (property_name option_name : string) : result string :=
  _get_default_value balancer property_name option_name true.

Definition _get_default_id (balancer : gmap string (list SubResource))
    (property_name option_name : string) : result string :=
  _get_default_value balancer property_name option_name false.

End Util.

(** ** Application gateways *)

Module AppGateway.

(** An attribute of a gateway: a scalar or a collection of sub-resource
    objects, each sub-resource being a map from attribute names to values. *)
Inductive attr : Type :=
| AVal (v : pyval)
| AColl (l : list (gmap string pyval)).

#[global] Instance attr_eq_dec : EqDecision attr.
Proof. solve_decision. Defined.

(** [getattr(x, key_name, None)] *)
Definition key_of (key_name : string) (x : gmap string pyval) : pyval :=
  default VNone (x !! key_name).

(** The elements of the named collection; a missing or [None]
    collection counts as empty. *)
Definition collection_of (parent : gmap string attr) (collection_name : string)
    : list (gmap string pyval) :=
  match parent !! collection_name with
  | Some (AColl l) => l
  | _ => []
  end.

(** Drops the first element whose key equals [value]. *)
Fixpoint remove_match (key_name : string) (value : pyval)
    (collection : list (gmap string pyval)) : list (gmap string pyval) :=
  match collection with
  | [] => []
  | x :: rest =>
      if py_eqb (key_of key_name x) value then rest
      else x :: remove_match key_name value rest
  end.

(** Modelled from the spec: [upsert_to_collection] is imported from
    [azure.cli.core.commands], which is not among the sources.  The spec
    describes a sub-resource collection as a named list property of the
    parent, manipulated by find-or-replace-by-name: the collection is
    searched for an element carrying the key of the new object; the
    element found, the first such one, gives way to the new object, and
    when none is found the new object is inserted.  No other attribute
    of the parent is touched. *)
Definition upsert_to_collection (parent : gmap string attr) (collection_name : string)
    (obj_to_add : gmap string pyval) (key_name : string) : gmap string attr :=
  let collection := collection_of parent collection_name in
  let value := key_of key_name obj_to_add in
  <[collection_name := AColl (remove_match key_name value collection ++ [obj_to_add])]> parent.

(** The request a handler hands to the SDK client. *)
Inductive request : Type :=
| begin_create_or_update (resource_group_name application_gateway_name : string)
    (parameters : gmap string attr).

(** An issued SDK call: the request, and whether the long-running
    operation is polled to completion. *)
Record sdk_call : Type := { operation : request; polling : bool }.

(** Modelled from the spec: [sdk_no_wait] is imported from
    [azure.cli.core.util], which is not among the sources.  The spec
    describes it as the no-wait escape hatch of a long-running operation:
    the operation is invoked with the arguments given, and [no_wait]
    decides only whether its completion is waited for or the poller is
    returned at once. *)
Definition sdk_no_wait (no_wait : bool) (func : request) : sdk_call :=
  {| operation := func; polling := negb no_wait |}.

(** The [application_gateways] operations group: [get] answers with the
    stored gateway or lets the service's error through. *)
Record ApplicationGatewaysOperations : Type :=
  { get : string -> string -> result (gmap string attr) }.

(** The model classes, built from keyword arguments. *)
Definition AuthCert (data : pyval) (name : string) : gmap string pyval :=
  <["data" := data]> (<["name" := VStr name]> ∅).

Definition ApplicationGatewayBackendAddressPool (name : string) (backend_addresses : pyval)
    : gmap string pyval :=
  <["name" := VStr name]> (<["backend_addresses" := backend_addresses]> ∅).

Definition create_ag_authentication_certificate (ncf : ApplicationGatewaysOperations)
    (resource_group_name application_gateway_name item_name : string)
    (cert_data : pyval) (no_wait : bool) : result sdk_call :=
  ag ← get ncf resource_group_name application_gateway_name;
  let new_cert := AuthCert cert_data item_name in
  let ag := upsert_to_collection ag "authentication_certificates" new_cert "name" in
  Ok (sdk_no_wait no_wait
        (begin_create_or_update resource_group_name application_gateway_name ag)).

Definition create_ag_backend_address_pool (ncf : ApplicationGatewaysOperations)
    (resource_group_name application_gateway_name item_name : string)
    (servers : pyval) (no_wait : bool) : result sdk_call :=
  ag ← get ncf resource_group_name application_gateway_name;
  let new_pool := ApplicationGatewayBackendAddressPool item_name servers in
  let ag := upsert_to_collection ag "backend_address_pools" new_pool "name" in
  Ok (sdk_no_wait no_wait
        (begin_create_or_update resource_group_name application_gateway_name ag)).

End AppGateway.

(** ** Network watcher flow logs *)

Module FlowLog.

Record RetentionPolicyParameters : Type :=
  { days : Z; retention_enabled : bool }.

Record FlowLogFormatParameters : Type :=
  { format_type : option string; format_version : option string }.

Record TrafficAnalyticsConfigurationProperties : Type :=
  { analytics_enabled : option bool;
    workspace_id : string;
    workspace_region : string;
    workspace_resource_id : string;
    analytics_interval : Z }.

(** [TrafficAnalyticsProperties] wraps one configuration. *)
Record TrafficAnalyticsProperties : Type :=
  { network_watcher_flow_analytics_configuration : TrafficAnalyticsConfigurationProperties }.

Record FlowLog : Type :=
  { location : string;
    target_resource_id : option string;
    storage_id : option string;
    enabled : option bool;
    tags : option (gmap string string);
    retention_policy : option RetentionPolicyParameters;
    format : option FlowLogFormatParameters;
    flow_analytics_configuration : option TrafficAnalyticsProperties }.

(** What [get_arm_resource_by_id] answers for a workspace. *)
Record GenericResource : Type :=
  { properties : gmap string string;
    resource_location : string;
    resource_id : string }.

(** The keyword arguments of [create_nw_flow_log]; [default_args] holds
    the defaults of the signature. *)
Record Args : Type :=
  { nsg : option string;
    vnet : option string;
    subnet : option string;
    nic : option string;
    storage_account : option string;
    arg_enabled : option bool;
    retention : Z;
    log_format : option string;
    log_version : option string;
    traffic_analytics_workspace : option string;
    traffic_analytics_interval : Z;
    traffic_analytics_enabled : option bool;
    arg_tags : option (gmap string string) }.

Definition default_args : Args :=
  {| nsg := None; vnet := None; subnet := None; nic := None;
     storage_account := None; arg_enabled := None; retention := 0;
     log_format := None; log_version := None;
     traffic_analytics_workspace := None; traffic_analytics_interval := 60;
     traffic_analytics_enabled := None; arg_tags := None |}.

Inductive request : Type :=
| begin_create_or_update (watcher_rg watcher_name flow_log_name : string)
    (parameters : FlowLog).

(** [bool(x)] for an argument that is [None] or a [str] *)
Definition arg_bool (x : option string) : bool :=
  match x with
  | None => false
  | Some s => negb (String.eqb s "")
  end.

(** [x is not None] *)
Definition is_not_None {A : Type} (x : option A) : bool :=
  match x with
  | None => false
  | Some _ => true
  end.

(** [sum(map(bool, xs))] *)
Definition sum_bool (xs : list (option string)) : nat :=
  length (List.filter arg_bool xs).

(** Reading a local variable that no branch has assigned. *)
Definition bound (flow_log : option FlowLog) : result FlowLog :=
  match flow_log with
  | Some fl => Ok fl
  | None => Raise UnboundLocalError
  end.

Definition set_retention_policy (p : RetentionPolicyParameters) (fl : FlowLog) : FlowLog :=
  {| location := location fl; target_resource_id := target_resource_id fl;
     storage_id := storage_id fl; enabled := enabled fl; tags := tags fl;
     retention_policy := Some p; format := format fl;
     flow_analytics_configuration := flow_analytics_configuration fl |}.

Definition set_format (f : FlowLogFormatParameters) (fl : FlowLog) : FlowLog :=
  {| location := location fl; target_resource_id := target_resource_id fl;
     storage_id := storage_id fl; enabled := enabled fl; tags := tags fl;
     retention_policy := retention_policy fl; format := Some f;
     flow_analytics_configuration := flow_analytics_configuration fl |}.

Definition set_flow_analytics_configuration (t : TrafficAnalyticsProperties) (fl : FlowLog)
    : FlowLog :=
  {| location := location fl; target_resource_id := target_resource_id fl;
     storage_id := storage_id fl; enabled := enabled fl; tags := tags fl;
     retention_policy := retention_policy fl; format := format fl;
     flow_analytics_configuration := Some t |}.

Section CreateFlowLog.

(** [azure.cli.core.commands.arm.get_arm_resource_by_id]: the service's
    answer for an id, [None] when it yields no resource. *)
Variable get_arm_resource_by_id : string -> result (option GenericResource).

Definition create_nw_flow_log (location watcher_rg watcher_name flow_log_name : string)
    (a : Args) : result request :=
  let new_flow_log (target : option string) : FlowLog :=
    {| location := location; target_resource_id := target;
       storage_id := storage_account a; enabled := arg_enabled a; tags := arg_tags a;
       retention_policy := None; format := None;
       flow_analytics_configuration := None |} in
  if (sum_bool [vnet a; subnet a; nic a; nsg a] =? 0)%nat
  then Raise RequiredArgumentMissingError
  else if (1 <? sum_bool [vnet a; nic a; nsg a])%nat
  then Raise MutuallyExclusiveArgumentError
  else
    let flow_log : option FlowLog :=
      if is_not_None (subnet a) then Some (new_flow_log (subnet a))
      else if is_not_None (vnet a) && negb (is_not_None (subnet a))
      then Some (new_flow_log (vnet a))
      else if is_not_None (nic a) then Some (new_flow_log (nic a))
      else if is_not_None (nsg a) then Some (new_flow_log (nsg a))
      else None in
    flow_log ←
      (if (0 <? retention a)%Z
       then fl ← bound flow_log;
            Ok (Some (set_retention_policy
                        {| days := retention a;
                           retention_enabled := (0 <? retention a)%Z |} fl))
       else Ok flow_log);
    flow_log ←
      (if is_not_None (log_format a) || is_not_None (log_version a)
       then fl ← bound flow_log;
            Ok (Some (set_format
                        {| format_type := log_format a;
                           format_version := log_version a |} fl))
       else Ok flow_log);
    flow_log ←
      (match traffic_analytics_workspace a with
       | Some w =>
           workspace ← get_arm_resource_by_id w;
           match workspace with
           | None => Raise CLIError
           | Some ws =>
               customer_id ← (match properties ws !! "customerId" with
                              | Some c => Ok c
                              | None => Raise KeyError
                              end);
               let traffic_analytics_config :=
                 {| analytics_enabled := traffic_analytics_enabled a;
                    workspace_id := customer_id;
                    workspace_region := resource_location ws;
                    workspace_resource_id := resource_id ws;
                    analytics_interval := traffic_analytics_interval a |} in
               fl ← bound flow_log;
               Ok (Some (set_flow_analytics_configuration
                           {| network_watcher_flow_analytics_configuration :=
                                traffic_analytics_config |} fl))
           end
       | None => Ok flow_log
       end);
    fl ← bound flow_log;
    Ok (begin_create_or_update watcher_rg watcher_name flow_log_name fl).

End CreateFlowLog.

End FlowLog.

(** ** Managed rule sets of a WAF policy *)

Module Waf.

Record RuleGroupOverride : Type :=
  { rule_group_name : string; rules : list string }.

Record ManagedRuleSet : Type :=
  { rule_set_type : string;
    rule_set_version : string;
    rule_group_overrides : list RuleGroupOverride }.

#[global] Instance RuleGroupOverride_eq_dec : EqDecision RuleGroupOverride.
Proof. solve_decision. Defined.

#[global] Instance ManagedRuleSet_eq_dec : EqDecision ManagedRuleSet.
Proof. solve_decision. Defined.

Section Remove.

Variables rule_set_type_arg rule_set_version_arg : string.
Variable rule_group_name_arg : option string.

(** The inner loop over [rule_set.rule_group_overrides]: skips the first
    group of the given name and reports whether one was skipped. *)
Fixpoint remove_rule_group (name : string) (is_removed : bool)
    (overrides : list RuleGroupOverride) : list RuleGroupOverride * bool :=
  match overrides with
  | [] => ([], is_removed)
  | rg :: rest =>
      if String.eqb (rule_group_name rg) name && negb is_removed
      then remove_rule_group name true rest
      else let '(kept, removed) := remove_rule_group name is_removed rest in
           (rg :: kept, removed)
  end.

(** The first loop of [pre_instance_update]: yields [delete_rule_set] and
    the rule sets as the loop leaves them. *)
Fixpoint scan_rule_sets (rule_sets : list ManagedRuleSet)
    : result (option ManagedRuleSet * list ManagedRuleSet) :=
  match rule_sets with
  | [] => Ok (None, [])
  | rule_set :: rest =>
      if String.eqb (rule_set_type rule_set) rule_set_type_arg
         || String.eqb (rule_set_version rule_set) rule_set_version_arg
      then
        match rule_group_name_arg with
        | None => Ok (Some rule_set, rule_set :: rest)
        | Some name =>
            let '(new_rule_group_overrides, is_removed) :=
              remove_rule_group name false (rule_group_overrides rule_set) in
            if negb is_removed then Raise ResourceNotFoundError
            else
              let rule_set' :=
                {| rule_set_type := rule_set_type rule_set;
                   rule_set_version := rule_set_version rule_set;
                   rule_group_overrides := new_rule_group_overrides |} in
              '(delete_rule_set, rest') ← scan_rule_sets rest;
              Ok (delete_rule_set, rule_set' :: rest')
        end
      else
        '(delete_rule_set, rest') ← scan_rule_sets rest;
        Ok (delete_rule_set, rule_set :: rest')
  end.

(** [pre_instance_update] of [WAFManagedRuleSetRemove], as a function of
    [instance.properties.managed_rules.managed_rule_sets]; the result is
    the list the update submits. *)
Definition pre_instance_update (managed_rule_sets : list ManagedRuleSet)
    : result (list ManagedRuleSet) :=
  '(delete_rule_set, managed_rule_sets) ← scan_rule_sets managed_rule_sets;
  match delete_rule_set with
  | Some d =>
      Ok (List.filter (fun rule_set => negb (bool_decide (rule_set = d))) managed_rule_sets)
  | None => Ok managed_rule_sets
  end.

End Remove.

(** [remove_waf_managed_rule_set]: the managed rule sets of the updated
    policy, given those of the fetched one. *)
Definition remove_waf_managed_rule_set (managed_rule_sets : list ManagedRuleSet)
    (rule_set_type rule_set_version : string) (rule_group_name : option string)
    : result (list ManagedRuleSet) :=
  pre_instance_update rule_set_type rule_set_version rule_group_name managed_rule_sets.

End Waf.

(** ** DNS record sets *)

Module Dns.

(** A record object is the map of its attributes, which is also its
    [__dict__].  The model classes set the attributes they are given. *)
Definition ARecord (ipv4_address : pyval) : gmap string pyval :=
  {[ "ipv4_address" := ipv4_address ]}.
Definition AaaaRecord (ipv6_address : pyval) : gmap string pyval :=
  {[ "ipv6_address" := ipv6_address ]}.
Definition CaaRecord (flags tag value : pyval) : gmap string pyval :=
  <["flags" := flags]> (<["tag" := tag]> {[ "value" := value ]}).
Definition CnameRecord (cname : pyval) : gmap string pyval :=
  {[ "cname" := cname ]}.
Definition MxRecord (preference exchange : pyval) : gmap string pyval :=
  <["preference" := preference]> {[ "exchange" := exchange ]}.
Definition NsRecord (nsdname : pyval) : gmap string pyval :=
  {[ "nsdname" := nsdname ]}.
Definition PtrRecord (ptrdname : pyval) : gmap string pyval :=
  {[ "ptrdname" := ptrdname ]}.
Definition SrvRecord (priority weight port target : pyval) : gmap string pyval :=
  <["priority" := priority]>
    (<["weight" := weight]> (<["port" := port]> {[ "target" := target ]})).
Definition TxtRecord (value : pyval) : gmap string pyval :=
  {[ "value" := value ]}.

(** An attribute of a record set: [None], an [int] (the ttl), one record
    or a list of records. *)
Inductive rs_attr : Type :=
| RNone
| RInt (z : Z)
| ROne (r : gmap string pyval)
| RList (l : list (gmap string pyval)).

#[global] Instance rs_attr_eq_dec : EqDecision rs_attr.
Proof. solve_decision. Defined.

(** [RecordSet(ttl=...)]: every record property starts out as [None]. *)
Definition RecordSet (ttl : Z) : gmap string rs_attr :=
  <["ttl" := RInt ttl]>
    (list_to_map
       (map (fun p => (p, RNone))
          ["a_records"; "aaaa_records"; "caa_records"; "cname_record"; "mx_records";
           "ns_records"; "ptr_records"; "soa_record"; "srv_records"; "txt_records";
           "target_resource"])).

(** [r.name] on a record *)
Definition attribute (r : gmap string pyval) (name : string) : result pyval :=
  match r !! name with
  | Some v => Ok v
  | None => Raise AttributeError
  end.

(** [getattr(record_set, record_property)] *)
Definition getattr (record_set : gmap string rs_attr) (record_property : string)
    : result rs_attr :=
  match record_set !! record_property with
  | Some v => Ok v
  | None => Raise AttributeError
  end.

(** [setattr(record_set, record_property, v)] *)
Definition setattr (record_set : gmap string rs_attr) (record_property : string)
    (v : rs_attr) : gmap string rs_attr :=
  <[record_property := v]> record_set.

Definition type_dict : list (string * string) :=
  [("a", "a_records"); ("aaaa", "aaaa_records"); ("caa", "caa_records");
   ("cname", "cname_record"); ("mx", "mx_records"); ("ns", "ns_records");
   ("ptr", "ptr_records"); ("soa", "soa_record"); ("spf", "txt_records");
   ("srv", "srv_records"); ("txt", "txt_records"); ("alias", "target_resource")].

Fixpoint assoc (key : string) (d : list (string * string)) : result string :=
  match d with
  | [] => Raise KeyError
  | (k, v) :: rest => if String.eqb k key then Ok v else assoc key rest
  end.

Definition _type_to_property_name (key : string) : result string :=
  assoc (lower key) type_dict.

(** The test [r.f1 == record.f1 and r.f2 == record.f2 and ...] of the
    [_check_*_record_exist] loops, left to right. *)
Fixpoint fields_equal (fields : list string) (r record : gmap string pyval) : result bool :=
  match fields with
  | [] => Ok true
  | f :: rest =>
      a ← attribute r f;
      b ← attribute record f;
      if py_eqb a b then fields_equal rest r record else Ok false
  end.

(** [for r in exist_list: if <test>: return True] and [return False] after. *)
Fixpoint check_record_exist (fields : list string) (record : gmap string pyval)
    (exist_list : list (gmap string pyval)) : result bool :=
  match exist_list with
  | [] => Ok false
  | r :: rest =>
      same ← fields_equal fields r record;
      if (same : bool) then Ok true else check_record_exist fields record rest
  end.

Definition _check_a_record_exist := check_record_exist ["ipv4_address"].
Definition _check_aaaa_record_exist := check_record_exist ["ipv6_address"].
Definition _check_caa_record_exist := check_record_exist ["flags"; "tag"; "value"].
Definition _check_cname_record_exist := check_record_exist ["cname"].
Definition _check_mx_record_exist := check_record_exist ["preference"; "exchange"].
Definition _check_ns_record_exist := check_record_exist ["nsdname"].
Definition _check_ptr_record_exist := check_record_exist ["ptrdname"].
Definition _check_srv_record_exist :=
  check_record_exist ["priority"; "weight"; "port"; "target"].
Definition _check_txt_record_exist := check_record_exist ["value"].

(** [globals()["_check_{}_record_exist".format(record_type)]] *)
Definition _record_exist_func (record_type : string)
    : result (gmap string pyval -> list (gmap string pyval) -> result bool) :=
  if String.eqb record_type "a" then Ok _check_a_record_exist
  else if String.eqb record_type "aaaa" then Ok _check_aaaa_record_exist
  else if String.eqb record_type "caa" then Ok _check_caa_record_exist
  else if String.eqb record_type "cname" then Ok _check_cname_record_exist
  else if String.eqb record_type "mx" then Ok _check_mx_record_exist
  else if String.eqb record_type "ns" then Ok _check_ns_record_exist
  else if String.eqb record_type "ptr" then Ok _check_ptr_record_exist
  else if String.eqb record_type "srv" then Ok _check_srv_record_exist
  else if String.eqb record_type "txt" then Ok _check_txt_record_exist
  else Raise KeyError.

(** The attributes the existence check of a record type reads. *)
Definition identifying_fields (record_type : string) : list string :=
  if String.eqb record_type "a" then ["ipv4_address"]
  else if String.eqb record_type "aaaa" then ["ipv6_address"]
  else if String.eqb record_type "caa" then ["flags"; "tag"; "value"]
  else if String.eqb record_type "cname" then ["cname"]
  else if String.eqb record_type "mx" then ["preference"; "exchange"]
  else if String.eqb record_type "ns" then ["nsdname"]
  else if String.eqb record_type "ptr" then ["ptrdname"]
  else if String.eqb record_type "srv" then ["priority"; "weight"; "port"; "target"]
  else if String.eqb record_type "txt" then ["value"]
  else [].

Definition _add_record (record_set : gmap string rs_attr) (record : gmap string pyval)
    (record_type : string) (is_list : bool) : result (gmap string rs_attr) :=
  record_property ← _type_to_property_name record_type;
  if is_list then
    record_list ← getattr record_set record_property;
    '(record_set, record_list) ←
      (match record_list with
       | RNone => Ok (setattr record_set record_property (RList []), [])
       | RList l => Ok (record_set, l)
       | RInt _ | ROne _ => Raise TypeError
       end);
    _record_exist ← _record_exist_func record_type;
    found ← _record_exist record record_list;
    if negb (found : bool)
    then Ok (setattr record_set record_property (RList (record_list ++ [record])))
    else Ok record_set
  else Ok (setattr record_set record_property (ROne record)).

(** The calls of the [record_sets] operations group a handler ends with. *)
Inductive request : Type :=
| create_or_update (resource_group_name zone_name record_set_name record_type : string)
    (parameters : gmap string rs_attr) (if_none_match : option string)
| delete (resource_group_name zone_name record_set_name record_type : string).

Record RecordSetsOperations : Type :=
  { get : string -> string -> string -> string -> result (gmap string rs_attr) }.

Definition _add_save_record (ncf : RecordSetsOperations) (record : gmap string pyval)
    (record_type record_set_name resource_group_name zone_name : string)
    (is_list : bool) (ttl : option Z) (if_none_match : bool) : result request :=
  record_set ←
    (match get ncf resource_group_name zone_name record_set_name record_type with
     | Raise HttpResponseError => Ok (RecordSet 3600)
     | r => r
     end);
  let record_set :=
    match ttl with
    | Some t => setattr record_set "ttl" (RInt t)
    | None => record_set
    end in
  record_set ← _add_record record_set record record_type is_list;
  Ok (create_or_update resource_group_name zone_name record_set_name record_type record_set
        (if if_none_match then Some "*" else None)).

(** The [while len(long_text) > 255] loop of [add_dns_txt_record];
    [value] is [record.value] as built so far. *)
Equations? split_long_text (long_text : string) (value : list string)
    : list string * string by wf (String.length long_text) lt :=
  split_long_text long_text value with Logic.inspect (255 <? String.length long_text)%nat := {
    | exist _ true Hlen =>
        split_long_text (slice_from 255 long_text) (value ++ [slice_to 255 long_text])%list
    | exist _ false Hlen => (value, long_text) }.
Proof.
  apply Nat.ltb_lt in Hlen.
  assert (Hdrop : forall n s, (n <= String.length s ->
            String.length (slice_from n s) = String.length s - n)%nat).
  { induction n as [|n IH]; intros [|a s]; simpl; intros; try lia.
    rewrite IH; lia. }
  change (String.length (slice_from 255 long_text) < String.length long_text)%nat.
  rewrite Hdrop; lia.
Defined.

(** [add_dns_txt_record] up to the hand-over to [_add_save_record]: the
    rewritten [record.value], or the failure of the [assert]. *)
Definition txt_record_value (value : list string) : result (list string) :=
  let long_text := join_empty value in
  let original_len := String.length long_text in
  let '(chunks, long_text) := split_long_text long_text [] in
  let record_value := (chunks ++ [long_text])%list in
  let final_str := join_empty record_value in
  let final_len := String.length final_str in
  if (original_len =? final_len)%nat then Ok record_value else Raise AssertionError.

Definition add_dns_txt_record (ncf : RecordSetsOperations)
    (resource_group_name zone_name record_set_name : string) (value : list string)
    (if_none_match : bool) : result request :=
  record_value ← txt_record_value value;
  let record := TxtRecord (VStrs record_value) in
  _add_save_record ncf record "txt" record_set_name resource_group_name zone_name
    true None if_none_match.

(** [str(v)].  A [str] is taken to hold printable text: in the [repr] of
    a list element only the backslash, the quote and the ASCII control
    characters are escaped. *)
Definition squote : ascii := ascii_of_nat 39.
Definition dquote : ascii := ascii_of_nat 34.
Definition backslash : ascii := ascii_of_nat 92.

Definition hex_digit (n : nat) : ascii :=
  if (n <? 10)%nat then ascii_of_nat (48 + n) else ascii_of_nat (87 + n).

Definition repr_char (quote a : ascii) : string :=
  let n := nat_of_ascii a in
  if Ascii.eqb a backslash then String backslash (String backslash "")
  else if Ascii.eqb a quote then String backslash (String quote "")
  else if (n =? 10)%nat then String backslash "n"
  else if (n =? 13)%nat then String backslash "r"
  else if (n =? 9)%nat then String backslash "t"
  else if (n <? 32)%nat || (n =? 127)%nat
       then String backslash
              (String "x" (String (hex_digit (n / 16)) (String (hex_digit (n mod 16)) "")))
  else String a "".

Fixpoint repr_body (quote : ascii) (s : string) : string :=
  match s with
  | EmptyString => EmptyString
  | String a r => repr_char quote a ++ repr_body quote r
  end.

(** [repr(s)]: double quotes when [s] holds a single quote and no double
    quote, single quotes otherwise. *)
Definition repr_str (s : string) : string :=
  let quote := if contains squote s && negb (contains dquote s) then dquote else squote in
  String quote (repr_body quote s ++ String quote "").

Fixpoint join_comma (l : list string) : string :=
  match l with
  | [] => ""
  | [x] => x
  | x :: rest => x ++ ", " ++ join_comma rest
  end.

Definition py_str (v : pyval) : string :=
  match v with
  | VNone => "None"
  | VInt z => NilZero.string_of_int (Z.to_int z)
  | VStr s => s
  | VStrs l => "[" ++ join_comma (map repr_str l) ++ "]"
  end.

(** The elements [Counter(v)] counts: nothing for [None], the
    characters of a [str], the elements of a list; an [int] is not
    iterable. *)
Fixpoint characters (s : string) : list string :=
  match s with
  | EmptyString => []
  | String a r => String a "" :: characters r
  end.

Definition Counter (v : pyval) : result (gmultiset string) :=
  match v with
  | VNone => Ok ∅
  | VInt _ => Raise TypeError
  | VStr s => Ok (list_to_set_disj (characters s))
  | VStrs l => Ok (list_to_set_disj l)
  end.

Definition lists_match (l1 l2 : pyval) : bool :=
  match Counter l1 with
  | Ok c1 =>
      match Counter l2 with
      | Ok c2 => bool_decide (c1 = c2)
      | Raise _ => false
      end
  | Raise _ => false
  end.

(** One conjunct of [dict_matches_filter], for a key of [filter_dict]
    and its value.  The text of the [sentinel] object that stands in for
    a key missing from [d] equals the text of no field value. *)
Definition key_matches (d : gmap string pyval) (key : string) (filter_value : pyval) : bool :=
  negb (truthy filter_value)
  || match d !! key with
     | Some v => String.eqb (py_str filter_value) (py_str v)
     | None => false
     end
  || lists_match filter_value (default (VStrs []) (d !! key)).

Definition dict_matches_filter (d filter_dict : gmap string pyval) : bool :=
  forallb (fun kv => key_matches d (fst kv) (snd kv)) (map_to_list filter_dict).

Definition _remove_record (ncf : RecordSetsOperations) (record : gmap string pyval)
    (record_type record_set_name resource_group_name zone_name : string)
    (keep_empty_record_set is_list : bool) : result request :=
  record_set ← get ncf resource_group_name zone_name record_set_name record_type;
  record_property ← _type_to_property_name record_type;
  record_set ←
    (if is_list then
       record_list ← getattr record_set record_property;
       match record_list with
       | RNone => Ok record_set
       | RList record_list =>
           let keep_list :=
             List.filter (fun r => negb (dict_matches_filter r record)) record_list in
           if (length keep_list =? length record_list)%nat then Raise CLIError
           else Ok (setattr record_set record_property (RList keep_list))
       | RInt _ | ROne _ => Raise TypeError
       end
     else Ok (setattr record_set record_property RNone));
  records_remaining ←
    (if is_list then
       remaining ← getattr record_set record_property;
       match remaining with
       | RList l => Ok (length l)
       | RNone | RInt _ | ROne _ => Raise TypeError
       end
     else
       remaining ← getattr record_set record_property;
       Ok (if bool_decide (remaining = RNone) then 0%nat else 1%nat));
  if (records_remaining =? 0)%nat && negb keep_empty_record_set
  then Ok (delete resource_group_name zone_name record_set_name record_type)
  else Ok (create_or_update resource_group_name zone_name record_set_name record_type
             record_set None).

Definition remove_dns_a_record (ncf : RecordSetsOperations)
    (resource_group_name zone_name record_set_name : string) (ipv4_address : pyval)
    (keep_empty_record_set : bool) : result request :=
  _remove_record ncf (ARecord ipv4_address) "a" record_set_name resource_group_name
    zone_name keep_empty_record_set true.

Definition remove_dns_mx_record (ncf : RecordSetsOperations)
    (resource_group_name zone_name record_set_name : string) (preference : Z)
    (exchange : pyval) (keep_empty_record_set : bool) : result request :=
  _remove_record ncf (MxRecord (VInt preference) exchange) "mx" record_set_name
    resource_group_name zone_name keep_empty_record_set true.

End Dns.

(** ** ExpressRoute circuits *)

Module ExpressRoute.

Section Bandwidth.

(** Python's [float(s)]; [None] stands for its [ValueError]. *)
Variable float : string -> option PrimFloat.float.

(** [bool(x)] for a float: anything but zero. *)
Definition float_bool (x : PrimFloat.float) : bool := negb (PrimFloat.eqb x 0%float).

Definition to_float (s : string) : result PrimFloat.float :=
  match float s with
  | Some x => Ok x
  | None => Raise ValueError
  end.

(** [bandwidth] is the parsed list argument ([None] when absent), each
    element being the text the user typed. *)
Definition _validate_bandwidth (bandwidth : option (list string)) (mbps : bool)
    : result (option PrimFloat.float) :=
  let unit := if mbps then "mbps" else "gbps" in
  match bandwidth with
  | None => Ok None
  | Some bandwidth =>
      bandwidth_comps ←
        (if (length bandwidth =? 1)%nat
         then b0 ← index bandwidth 0; Ok (split " " b0)
         else Ok bandwidth);
      let bandwidth_comps :=
        if (length bandwidth_comps =? 1)%nat then (bandwidth_comps ++ [unit])%list
        else bandwidth_comps in
      if (2 <? length bandwidth_comps)%nat then Raise InvalidArgumentValueError
      else
        input_value ← index bandwidth_comps 0;
        unit_text ← index bandwidth_comps 1;
        let input_unit := lower unit_text in
        x ← to_float input_value;
        if float_bool x && (String.eqb input_unit "mbps" || String.eqb input_unit "gbps")
        then
          if String.eqb input_unit unit then Ok (Some x)
          else if String.eqb input_unit "gbps" then Ok (Some (PrimFloat.mul x 1000%float))
          else Ok (Some (PrimFloat.div x 1000%float))
        else Raise InvalidArgumentValueError
  end.

End Bandwidth.

End ExpressRoute.

(** ** Concrete inputs used by the examples below *)

Module Examples.

Import Util.

Definition one_pool : gmap string (list SubResource) :=
  {[ "backend_address_pools" :=
       [ {| id := "/subscriptions/s/resourceGroups/rg/providers/Microsoft.Network/loadBalancers/lb/backendAddressPools/pool1" |} ] ]}.

Definition two_pools : gmap string (list SubResource) :=
  {[ "backend_address_pools" := [ {| id := "/lb/pools/p1" |}; {| id := "/lb/pools/p2" |} ] ]}.

Definition no_pools : gmap string (list SubResource) :=
  {[ "backend_address_pools" := [] ]}.

(** A gateway as the service stores it, and a client that answers with it. *)
Definition client_of (ag : gmap string AppGateway.attr)
    : AppGateway.ApplicationGatewaysOperations :=
  {| AppGateway.get := fun _ _ => Ok ag |}.

Definition gateway : gmap string AppGateway.attr :=
  <["authentication_certificates" :=
      AppGateway.AColl [AppGateway.AuthCert (VStr "MIIC") "cert1";
                        AppGateway.AuthCert (VStr "MIID") "cert2"]]>
    (<["backend_address_pools" :=
         AppGateway.AColl
           [AppGateway.ApplicationGatewayBackendAddressPool "pool1" (VStrs ["10.0.0.4"])]]>
       {[ "location" := AppGateway.AVal (VStr "westus") ]}).

(** A workspace lookup that finds nothing. *)
Definition no_workspace : string -> result (option FlowLog.GenericResource) :=
  fun _ => Ok None.

Definition nsg1 : string :=
  "/subscriptions/s/resourceGroups/rg/providers/Microsoft.Network/networkSecurityGroups/nsg1".
Definition vnet1 : string :=
  "/subscriptions/s/resourceGroups/rg/providers/Microsoft.Network/virtualNetworks/vnet1".

Definition args_with (nsg vnet subnet nic : option string) : FlowLog.Args :=
  {| FlowLog.nsg := nsg; FlowLog.vnet := vnet; FlowLog.subnet := subnet;
     FlowLog.nic := nic;
     FlowLog.storage_account := Some "sa1"; FlowLog.arg_enabled := Some true;
     FlowLog.retention := 7; FlowLog.log_format := None; FlowLog.log_version := None;
     FlowLog.traffic_analytics_workspace := None;
     FlowLog.traffic_analytics_interval := 60;
     FlowLog.traffic_analytics_enabled := None; FlowLog.arg_tags := None |}.

(** A WAF policy with two managed rule sets. *)
Definition owasp_3_2 : Waf.ManagedRuleSet :=
  {| Waf.rule_set_type := "OWASP"; Waf.rule_set_version := "3.2";
     Waf.rule_group_overrides := [] |}.
Definition bot_manager_1_0 : Waf.ManagedRuleSet :=
  {| Waf.rule_set_type := "Microsoft_BotManagerRuleSet"; Waf.rule_set_version := "1.0";
     Waf.rule_group_overrides := [] |}.

(** A DNS client whose record set [www] of type A holds one address. *)
Definition a_record_set : gmap string Dns.rs_attr :=
  <["a_records" := Dns.RList [Dns.ARecord (VStr "10.0.0.21")]]> (Dns.RecordSet 3600).

Definition dns_client_of (record_set : gmap string Dns.rs_attr) : Dns.RecordSetsOperations :=
  {| Dns.get := fun _ _ _ _ => Ok record_set |}.

(** [float] on texts made of decimal digits only; other texts are left
    out here. *)
Fixpoint digits_value (s : string) (acc : Z) : option Z :=
  match s with
  | EmptyString => Some acc
  | String a r =>
      let n := nat_of_ascii a in
      if (48 <=? n)%nat && (n <=? 57)%nat
      then digits_value r (10 * acc + Z.of_nat (n - 48))
      else None
  end.

Definition float_of_digits (s : string) : option PrimFloat.float :=
  match s with
  | EmptyString => None
  | _ =>
      match digits_value s 0 with
      | Some z => Some (PrimFloat.of_uint63 (Uint63.of_Z z))
      | None => None
      end
  end.

(** A record set of type SRV with one record. *)
Definition srv_record : gmap string pyval :=
  Dns.SrvRecord (VInt 10) (VInt 5) (VInt 5060) (VStr "sip.contoso.com").

Definition srv_record_set : gmap string Dns.rs_attr :=
  <["srv_records" := Dns.RList [srv_record]]> (Dns.RecordSet 3600).

End Examples.

(** ** Vocabulary of the statements *)

Module Statements.

Import AppGateway.

(** The sub-resource [x] carries the name [item_name]. *)
Definition named (item_name : string) (x : gmap string pyval) : bool :=
  py_eqb (key_of "name" x) (VStr item_name).

(** Find-or-replace-by-name as an outcome: among the elements of [new]
    exactly [obj] carries [item_name], and the elements of other names
    are those of [old], in their order. *)
Definition find_or_replace_outcome (old new : list (gmap string pyval))
    (item_name : string) (obj : gmap string pyval) : Prop :=
  List.filter (named item_name) new = [obj]
  /\ List.filter (fun x => negb (named item_name x)) new
     = List.filter (fun x => negb (named item_name x)) old.

(** The first of [subnet], [vnet], [nic], [nsg] that is not [None]. *)
Definition first_given (a : FlowLog.Args) : option string :=
  match FlowLog.subnet a, FlowLog.vnet a, FlowLog.nic a with
  | Some s, _, _ => Some s
  | None, Some v, _ => Some v
  | None, None, Some n => Some n
  | None, None, None => FlowLog.nsg a
  end.

(** What is said of [create_nw_flow_log], for a reading [supplied] of
    "the argument is supplied", and without a traffic-analytics
    workspace: the missing-argument error exactly when no target is
    supplied, the exclusivity error when more than one of [vnet], [nic],
    [nsg] is, and otherwise a flow log on a supplied target, which is
    [subnet] whenever [subnet] is supplied. *)
Definition flow_log_claim (supplied : option string -> bool) : Prop :=
  forall get_arm_resource_by_id location watcher_rg watcher_name flow_log_name a,
    FlowLog.traffic_analytics_workspace a = None ->
    let r := FlowLog.create_nw_flow_log get_arm_resource_by_id
               location watcher_rg watcher_name flow_log_name a in
    (r = Raise RequiredArgumentMissingError <->
       List.filter supplied
         [FlowLog.nsg a; FlowLog.vnet a; FlowLog.subnet a; FlowLog.nic a] = [])
    /\ ((1 < length (List.filter supplied
                       [FlowLog.vnet a; FlowLog.nic a; FlowLog.nsg a]))%nat ->
        r = Raise MutuallyExclusiveArgumentError)
    /\ (forall fl,
          r = Ok (FlowLog.begin_create_or_update watcher_rg watcher_name flow_log_name fl) ->
          (supplied (FlowLog.subnet a) = true ->
             FlowLog.target_resource_id fl = FlowLog.subnet a)
          /\ exists x,
               In x [FlowLog.subnet a; FlowLog.vnet a; FlowLog.nic a; FlowLog.nsg a]
               /\ supplied x = true /\ FlowLog.target_resource_id fl = x).

(** The components of a bandwidth argument: the pieces of its only
    element, split at the spaces, or its elements when there are several. *)
Definition bandwidth_components (bandwidth : list string) : list string :=
  match bandwidth with
  | [b0] => split " " b0
  | _ => bandwidth
  end.

(** What is said of [_validate_bandwidth], for the numbers [accepted]:
    [None] for no bandwidth, the usage error for more than two
    components or an unknown unit, and for a number [x] followed by a
    unit (the expected one when it is missing) [x * 1000] from Gbps to
    Mbps, [x / 1000] from Mbps to Gbps and [x] itself when the unit is
    the expected one. *)
Definition bandwidth_claim (float : string -> option PrimFloat.float)
    (accepted : PrimFloat.float -> Prop) : Prop :=
  forall (bandwidth : list string) (mbps : bool),
    let expected := if mbps then "mbps" else "gbps" in
    let r := ExpressRoute._validate_bandwidth float (Some bandwidth) mbps in
    ExpressRoute._validate_bandwidth float None mbps = Ok None
    /\ ((2 < length (bandwidth_components bandwidth))%nat ->
        r = Raise InvalidArgumentValueError)
    /\ forall v u x,
         bandwidth_components bandwidth = [v; u]
         \/ (bandwidth_components bandwidth = [v] /\ u = expected) ->
         float v = Some x ->
         (accepted x -> lower u = "gbps" -> mbps = true ->
            r = Ok (Some (PrimFloat.mul x 1000%float)))
         /\ (accepted x -> lower u = "mbps" -> mbps = false ->
             r = Ok (Some (PrimFloat.div x 1000%float)))
         /\ (accepted x -> lower u = expected -> r = Ok (Some x))
         /\ (lower u <> "mbps" -> lower u <> "gbps" ->
             r = Raise InvalidArgumentValueError).

(** The record types that have an existence check. *)
Definition list_record_types : list string :=
  ["a"; "aaaa"; "caa"; "cname"; "mx"; "ns"; "ptr"; "srv"; "txt"].

(** The record [r] has each of the attributes [fields]. *)
Definition has_fields (fields : list string) (r : gmap string pyval) : Prop :=
  Forall (fun f => is_Some (r !! f)) fields.

(** [record] is an instance of the model class of [record_type]. *)
Inductive record_of_type : string -> gmap string pyval -> Prop :=
| a_record ipv4_address : record_of_type "a" (Dns.ARecord ipv4_address)
| aaaa_record ipv6_address : record_of_type "aaaa" (Dns.AaaaRecord ipv6_address)
| caa_record flags tag value : record_of_type "caa" (Dns.CaaRecord flags tag value)
| cname_record cname : record_of_type "cname" (Dns.CnameRecord cname)
| mx_record preference exchange : record_of_type "mx" (Dns.MxRecord preference exchange)
| ns_record nsdname : record_of_type "ns" (Dns.NsRecord nsdname)
| ptr_record ptrdname : record_of_type "ptr" (Dns.PtrRecord ptrdname)
| srv_record priority weight port target :
    record_of_type "srv" (Dns.SrvRecord priority weight port target)
| txt_record value : record_of_type "txt" (Dns.TxtRecord value).

(** The records [r] and [record] agree on each of the attributes [fields]. *)
Definition same_identity (fields : list string) (r record : gmap string pyval) : Prop :=
  Forall (fun f => r !! f = record !! f) fields.

End Statements.

(** ** DNS record handlers *)

Module DnsHandlers.

Import Dns.

(** The [ttl=3600] default of the [add_dns_*_record] signatures that
    have a [ttl] parameter. *)
Definition default_ttl : option Z := Some 3600%Z.

Definition add_dns_a_record (ncf : RecordSetsOperations)
    (resource_group_name zone_name record_set_name : string) (ipv4_address : pyval)
    (ttl : option Z) (if_none_match : bool) : result request :=
  _add_save_record ncf (ARecord ipv4_address) "a" record_set_name resource_group_name
    zone_name true ttl if_none_match.

Definition add_dns_cname_record (ncf : RecordSetsOperations)
    (resource_group_name zone_name record_set_name : string) (cname : pyval)
    (ttl : option Z) (if_none_match : bool) : result request :=
  _add_save_record ncf (CnameRecord cname) "cname" record_set_name resource_group_name
    zone_name false ttl if_none_match.

Definition add_dns_mx_record (ncf : RecordSetsOperations)
    (resource_group_name zone_name record_set_name : string) (preference : Z)
    (exchange : pyval) (ttl : option Z) (if_none_match : bool) : result request :=
  _add_save_record ncf (MxRecord (VInt preference) exchange) "mx" record_set_name
    resource_group_name zone_name true ttl if_none_match.

Definition add_dns_srv_record (ncf : RecordSetsOperations)
    (resource_group_name zone_name record_set_name : string)
    (priority weight port target : pyval) (if_none_match : bool) : result request :=
  _add_save_record ncf (SrvRecord priority weight port target) "srv" record_set_name
    resource_group_name zone_name true None if_none_match.

Definition remove_dns_cname_record (ncf : RecordSetsOperations)
    (resource_group_name zone_name record_set_name : string) (cname : pyval)
    (keep_empty_record_set : bool) : result request :=
  _remove_record ncf (CnameRecord cname) "cname" record_set_name resource_group_name
    zone_name keep_empty_record_set false.

Definition remove_dns_srv_record (ncf : RecordSetsOperations)
    (resource_group_name zone_name record_set_name : string)
    (priority weight port target : pyval) (keep_empty_record_set : bool) : result request :=
  _remove_record ncf (SrvRecord priority weight port target) "srv" record_set_name
    resource_group_name zone_name keep_empty_record_set true.

Definition remove_dns_txt_record (ncf : RecordSetsOperations)
    (resource_group_name zone_name record_set_name : string) (value : list string)
    (keep_empty_record_set : bool) : result request :=
  _remove_record ncf (TxtRecord (VStrs value)) "txt" record_set_name resource_group_name
    zone_name keep_empty_record_set true.

(** [arg or record.field]: the attribute is read only when [arg] is falsy. *)
Definition or_attribute (arg : pyval) (record : gmap string pyval) (field : string)
    : result pyval :=
  if truthy arg then Ok arg else attribute record field.

(** [record.field = arg or record.field] *)
Definition keep_or_set (field : string) (arg : pyval) (record : gmap string pyval)
    : result (gmap string pyval) :=
  v ← or_attribute arg record field;
  Ok (<[field := v]> record).

(** The [minimum_ttl=3600] default of [update_dns_soa_record]. *)
Definition default_minimum_ttl : pyval := VInt 3600.

Definition update_dns_soa_record (ncf : RecordSetsOperations)
    (resource_group_name zone_name : string)
    (host email serial_number refresh_time retry_time expire_time minimum_ttl : pyval)
    (if_none_match : bool) : result request :=
  let record_set_name := "@" in
  let record_type := "soa" in
  record_set ← get ncf resource_group_name zone_name record_set_name record_type;
  soa_record ← getattr record_set "soa_record";
  record ← (match soa_record with
            | ROne r => Ok r
            | RNone | RInt _ | RList _ => Raise AttributeError
            end);
  record ← keep_or_set "host" host record;
  record ← keep_or_set "email" email record;
  record ← keep_or_set "serial_number" serial_number record;
  record ← keep_or_set "refresh_time" refresh_time record;
  record ← keep_or_set "retry_time" retry_time record;
  record ← keep_or_set "expire_time" expire_time record;
  record ← keep_or_set "minimum_ttl" minimum_ttl record;
  _add_save_record ncf record record_type record_set_name resource_group_name zone_name
    false None if_none_match.

End DnsHandlers.

(** ** Adding a managed rule set to a WAF policy *)

Module WafAdd.

Import Waf.

Section Add.

Variables rule_set_type_arg rule_set_version_arg : string.
Variable rule_group_name_arg : option string.
Variable rules_arg : option (list string).

Definition managed_rule_overrides : list string :=
  match rules_arg with
  | None => []
  | Some rules => rules
  end.

Definition rule_group_override : option RuleGroupOverride :=
  match rule_group_name_arg with
  | Some name => Some {| rule_group_name := name; rules := managed_rule_overrides |}
  | None => None
  end.

Definition new_managed_rule_set : ManagedRuleSet :=
  {| rule_set_type := rule_set_type_arg;
     rule_set_version := rule_set_version_arg;
     rule_group_overrides :=
       match rule_group_override with
       | None => []
       | Some g => [g]
       end |}.

(** [rule_override.rule_group_name == rule_group_name]; a name never
    equals [None]. *)
Definition group_named (rule_override : RuleGroupOverride) : bool :=
  match rule_group_name_arg with
  | Some name => String.eqb (rule_group_name rule_override) name
  | None => false
  end.

(** The loop over [rule_set.rule_group_overrides]: the overrides after
    the [extend] when the loop left through [break], [None] when it ran
    to its [else]. *)
Fixpoint extend_rule_group (overrides : list RuleGroupOverride)
    : option (list RuleGroupOverride) :=
  match overrides with
  | [] => None
  | rule_override :: rest =>
      if group_named rule_override
      then Some ({| rule_group_name := rule_group_name rule_override;
                    rules := (rules rule_override ++ managed_rule_overrides)%list |}
                   :: rest)
      else match extend_rule_group rest with
           | Some rest' => Some (rule_override :: rest')
           | None => None
           end
  end.

(** What the two inner branches make of the rule set that matches. *)
Definition add_to_rule_set (rule_set : ManagedRuleSet) : ManagedRuleSet :=
  {| rule_set_type := rule_set_type rule_set;
     rule_set_version := rule_set_version rule_set;
     rule_group_overrides :=
       match extend_rule_group (rule_group_overrides rule_set) with
       | Some overrides => overrides
       | None =>
           match rule_group_override with
           | Some g => (rule_group_overrides rule_set ++ [g])%list
           | None => rule_group_overrides rule_set
           end
       end |}.

(** The outer loop: the rule sets after the [break], [None] when the
    loop ran to its [else]. *)
Fixpoint add_to_rule_sets (rule_sets : list ManagedRuleSet)
    : option (list ManagedRuleSet) :=
  match rule_sets with
  | [] => None
  | rule_set :: rest =>
      if String.eqb (rule_set_type rule_set) rule_set_type_arg
         && String.eqb (rule_set_version rule_set) rule_set_version_arg
      then Some (add_to_rule_set rule_set :: rest)
      else match add_to_rule_sets rest with
           | Some rest' => Some (rule_set :: rest')
           | None => None
           end
  end.

(** [pre_instance_update] of [WAFManagedRuleSetAdd], as a function of
    [instance.properties.managed_rules.managed_rule_sets]. *)
Definition pre_instance_update (managed_rule_sets : list ManagedRuleSet)
    : list ManagedRuleSet :=
  match add_to_rule_sets managed_rule_sets with
  | Some rule_sets => rule_sets
  | None => (managed_rule_sets ++ [new_managed_rule_set])%list
  end.

End Add.

(** [add_waf_managed_rule_set]: the managed rule sets of the updated
    policy, given those of the fetched one. *)
Definition add_waf_managed_rule_set (managed_rule_sets : list ManagedRuleSet)
    (rule_set_type rule_set_version : string) (rule_group_name : option string)
    (rules : option (list string)) : list ManagedRuleSet :=
  pre_instance_update rule_set_type rule_set_version rule_group_name rules
    managed_rule_sets.

End WafAdd.

(** ** Trusted client certificates of an application gateway *)

Module TrustedClientCertificates.

Record ApplicationGatewayTrustedClientCertificate : Type :=
  { name : string; data : pyval }.

#[global] Instance certificate_eq_dec : EqDecision ApplicationGatewayTrustedClientCertificate.
Proof. solve_decision. Defined.

(** The gateway as these handlers see it: the certificate list, [None]
    when the gateway has none, and the attributes they do not touch. *)
Record ApplicationGateway : Type :=
  { trusted_client_certificates : option (list ApplicationGatewayTrustedClientCertificate);
    other_attributes : gmap string AppGateway.attr }.

Definition set_trusted_client_certificates
    (certs : list ApplicationGatewayTrustedClientCertificate) (appgw : ApplicationGateway)
    : ApplicationGateway :=
  {| trusted_client_certificates := Some certs;
     other_attributes := other_attributes appgw |}.

Inductive request : Type :=
| begin_create_or_update (resource_group_name application_gateway_name : string)
    (parameters : ApplicationGateway).

Record sdk_call : Type := { operation : request; polling : bool }.

(** Modelled from the spec: [sdk_no_wait] of [azure.cli.core.util], as
    [AppGateway.sdk_no_wait], for the requests of these handlers: the
    operation is invoked with the arguments given and [no_wait] decides
    only whether its completion is waited for. *)
Definition sdk_no_wait (no_wait : bool) (func : request) : sdk_call :=
  {| operation := func; polling := negb no_wait |}.

Record ApplicationGatewaysOperations : Type :=
  { get : string -> string -> result ApplicationGateway }.

(** [for cert in certs: if cert.name == client_cert_name: ... break]:
    the first certificate of the name, [None] when the loop reaches its
    [else]. *)
Fixpoint find_certificate (client_cert_name : string)
    (certs : list ApplicationGatewayTrustedClientCertificate)
    : option ApplicationGatewayTrustedClientCertificate :=
  match certs with
  | [] => None
  | cert :: rest =>
      if String.eqb (name cert) client_cert_name then Some cert
      else find_certificate client_cert_name rest
  end.

(** The same loop with [cert.data = client_cert_data] before the
    [break]: the list with the first certificate of the name updated. *)
Fixpoint set_certificate_data (client_cert_name : string) (client_cert_data : pyval)
    (certs : list ApplicationGatewayTrustedClientCertificate)
    : option (list ApplicationGatewayTrustedClientCertificate) :=
  match certs with
  | [] => None
  | cert :: rest =>
      if String.eqb (name cert) client_cert_name
      then Some ({| name := name cert; data := client_cert_data |} :: rest)
      else match set_certificate_data client_cert_name client_cert_data rest with
           | Some rest' => Some (cert :: rest')
           | None => None
           end
  end.

(** [certs.remove(cert)]: drops the first element equal to [cert]. *)
Fixpoint list_remove (cert : ApplicationGatewayTrustedClientCertificate)
    (certs : list ApplicationGatewayTrustedClientCertificate)
    : list ApplicationGatewayTrustedClientCertificate :=
  match certs with
  | [] => []
  | c :: rest => if bool_decide (c = cert) then rest else c :: list_remove cert rest
  end.

Definition add_trusted_client_certificate (ncf : ApplicationGatewaysOperations)
    (resource_group_name application_gateway_name client_cert_name : string)
    (client_cert_data : pyval) (no_wait : bool) : result sdk_call :=
  appgw ← get ncf resource_group_name application_gateway_name;
  let cert := {| name := client_cert_name; data := client_cert_data |} in
  match trusted_client_certificates appgw with
  | None => Raise AttributeError
  | Some certs =>
      let appgw := set_trusted_client_certificates (certs ++ [cert]) appgw in
      Ok (sdk_no_wait no_wait
            (begin_create_or_update resource_group_name application_gateway_name appgw))
  end.

Definition update_trusted_client_certificate (ncf : ApplicationGatewaysOperations)
    (resource_group_name application_gateway_name client_cert_name : string)
    (client_cert_data : pyval) (no_wait : bool) : result sdk_call :=
  appgw ← get ncf resource_group_name application_gateway_name;
  match trusted_client_certificates appgw with
  | None => Raise TypeError
  | Some certs =>
      match set_certificate_data client_cert_name client_cert_data certs with
      | None => Raise ResourceNotFoundError
      | Some certs' =>
          let appgw := set_trusted_client_certificates certs' appgw in
          Ok (sdk_no_wait no_wait
                (begin_create_or_update resource_group_name application_gateway_name appgw))
      end
  end.

Definition list_trusted_client_certificate (ncf : ApplicationGatewaysOperations)
    (resource_group_name application_gateway_name : string)
    : result (option (list ApplicationGatewayTrustedClientCertificate)) :=
  appgw ← get ncf resource_group_name application_gateway_name;
  Ok (trusted_client_certificates appgw).

Definition remove_trusted_client_certificate (ncf : ApplicationGatewaysOperations)
    (resource_group_name application_gateway_name client_cert_name : string)
    (no_wait : bool) : result sdk_call :=
  appgw ← get ncf resource_group_name application_gateway_name;
  match trusted_client_certificates appgw with
  | None => Raise TypeError
  | Some certs =>
      match find_certificate client_cert_name certs with
      | None => Raise ResourceNotFoundError
      | Some cert =>
          let appgw := set_trusted_client_certificates (list_remove cert certs) appgw in
          Ok (sdk_no_wait no_wait
                (begin_create_or_update resource_group_name application_gateway_name appgw))
      end
  end.

Definition show_trusted_client_certificate (ncf : ApplicationGatewaysOperations)
    (resource_group_name application_gateway_name client_cert_name : string)
    : result ApplicationGatewayTrustedClientCertificate :=
  appgw ← get ncf resource_group_name application_gateway_name;
  match trusted_client_certificates appgw with
  | None => Raise TypeError
  | Some certs =>
      match find_certificate client_cert_name certs with
      | None => Raise ResourceNotFoundError
      | Some cert => Ok cert
      end
  end.

End TrustedClientCertificates.

(** ** IP configurations of a network interface *)

Module Nic.

Import Util.

Record IPConfiguration : Type :=
  { name : string;
    load_balancer_backend_address_pools : option (list SubResource);
    application_gateway_backend_address_pools : option (list SubResource);
    load_balancer_inbound_nat_rules : option (list SubResource) }.

Record NetworkInterface : Type :=
  { ip_configurations : option (list IPConfiguration) }.

Inductive request : Type :=
| begin_create_or_update (resource_group_name network_interface_name : string)
    (parameters : NetworkInterface).

Record NetworkInterfacesOperations : Type :=
  { get : string -> string -> result NetworkInterface }.

(** [x.name.lower() == name.lower()] *)
Definition same_name (name_arg : string) (x : IPConfiguration) : bool :=
  String.eqb (lower (name x)) (lower name_arg).

Definition _get_nic_ip_config (nic : NetworkInterface) (name_arg : string)
    : result IPConfiguration :=
  let ip_config :=
    match ip_configurations nic with
    | Some (x :: rest) => List.find (same_name name_arg) (x :: rest)
    | Some [] | None => None
    end in
  match ip_config with
  | None => Raise CLIError
  | Some ip_config => Ok ip_config
  end.

(** The configuration that [_get_nic_ip_config] returns is an element of
    [nic.ip_configurations]; an assignment to one of its attributes shows
    in the interface.  [update_ip_config] rewrites that element, the
    first one of the name, in its place. *)
Fixpoint update_first (name_arg : string) (f : IPConfiguration -> IPConfiguration)
    (configs : list IPConfiguration) : list IPConfiguration :=
  match configs with
  | [] => []
  | x :: rest =>
      if same_name name_arg x then f x :: rest
      else x :: update_first name_arg f rest
  end.

Definition update_ip_config (name_arg : string) (f : IPConfiguration -> IPConfiguration)
    (nic : NetworkInterface) : NetworkInterface :=
  {| ip_configurations :=
       match ip_configurations nic with
       | Some configs => Some (update_first name_arg f configs)
       | None => None
       end |}.

(** [[x for x in items or [] if x.id != value]] *)
Definition keep_items (items : option (list SubResource)) (value : string)
    : list SubResource :=
  List.filter (fun x => negb (String.eqb (id x) value)) (default [] items).

Definition set_load_balancer_backend_address_pools (items : list SubResource)
    (c : IPConfiguration) : IPConfiguration :=
  {| name := name c;
     load_balancer_backend_address_pools := Some items;
     application_gateway_backend_address_pools := application_gateway_backend_address_pools c;
     load_balancer_inbound_nat_rules := load_balancer_inbound_nat_rules c |}.

Definition set_application_gateway_backend_address_pools (items : list SubResource)
    (c : IPConfiguration) : IPConfiguration :=
  {| name := name c;
     load_balancer_backend_address_pools := load_balancer_backend_address_pools c;
     application_gateway_backend_address_pools := Some items;
     load_balancer_inbound_nat_rules := load_balancer_inbound_nat_rules c |}.

Definition set_load_balancer_inbound_nat_rules (items : list SubResource)
    (c : IPConfiguration) : IPConfiguration :=
  {| name := name c;
     load_balancer_backend_address_pools := load_balancer_backend_address_pools c;
     application_gateway_backend_address_pools := application_gateway_backend_address_pools c;
     load_balancer_inbound_nat_rules := Some items |}.

(** [bool(x)] for a name that is [None] or a [str] *)
Definition given (x : option string) : bool :=
  match x with
  | None => false
  | Some s => negb (String.eqb s "")
  end.

(** The handlers end with [get_property] on the poller's result; the
    model stops at the request they submit. *)
Definition remove_nic_ip_config_address_pool (client : NetworkInterfacesOperations)
    (resource_group_name network_interface_name ip_config_name backend_address_pool : string)
    (load_balancer_name application_gateway_name : option string) : result request :=
  nic ← get client resource_group_name network_interface_name;
  ip_config ← _get_nic_ip_config nic ip_config_name;
  let nic :=
    if given load_balancer_name then
      update_ip_config ip_config_name
        (set_load_balancer_backend_address_pools
           (keep_items (load_balancer_backend_address_pools ip_config) backend_address_pool))
        nic
    else if given application_gateway_name then
      update_ip_config ip_config_name
        (set_application_gateway_backend_address_pools
           (keep_items (application_gateway_backend_address_pools ip_config)
              backend_address_pool))
        nic
    else nic in
  Ok (begin_create_or_update resource_group_name network_interface_name nic).

Definition remove_nic_ip_config_inbound_nat_rule (client : NetworkInterfacesOperations)
    (resource_group_name network_interface_name ip_config_name inbound_nat_rule : string)
    (load_balancer_name : option string) : result request :=
  nic ← get client resource_group_name network_interface_name;
  ip_config ← _get_nic_ip_config nic ip_config_name;
  let nic :=
    update_ip_config ip_config_name
      (set_load_balancer_inbound_nat_rules
         (keep_items (load_balancer_inbound_nat_rules ip_config) inbound_nat_rule))
      nic in
  Ok (begin_create_or_update resource_group_name network_interface_name nic).

End Nic.

(** ** Client certificates of a virtual network gateway *)

Module VnetGateway.

Record VpnClientRootCertificate : Type :=
  { root_name : string; public_cert_data : pyval }.

Record VpnClientRevokedCertificate : Type :=
  { revoked_name : string; thumbprint : pyval }.

#[global] Instance root_certificate_eq_dec : EqDecision VpnClientRootCertificate.
Proof. solve_decision. Defined.

#[global] Instance revoked_certificate_eq_dec : EqDecision VpnClientRevokedCertificate.
Proof. solve_decision. Defined.

Record VpnClientConfiguration : Type :=
  { vpn_client_root_certificates : option (list VpnClientRootCertificate);
    vpn_client_revoked_certificates : option (list VpnClientRevokedCertificate) }.

Record VirtualNetworkGateway : Type :=
  { vpn_client_configuration : option VpnClientConfiguration }.

Inductive request : Type :=
| begin_create_or_update (resource_group_name gateway_name : string)
    (parameters : VirtualNetworkGateway).

Record VirtualNetworkGatewaysOperations : Type :=
  { get : string -> string -> result VirtualNetworkGateway }.

(** [l.remove(x)]: drops the first element equal to [x]. *)
Fixpoint list_remove {A : Type} `{EqDecision A} (x : A) (l : list A) : list A :=
  match l with
  | [] => []
  | y :: rest => if bool_decide (y = x) then rest else y :: list_remove x rest
  end.

(** The [try] block looks for the first certificate of the name:
    [AttributeError] (the configuration is [None]) and [StopIteration]
    (no such certificate) become [CLIError]; iterating a list that is
    [None] is a [TypeError], which the [except] clause does not catch.
    The certificate found is then removed from the list. *)
Definition delete_vnet_gateway_root_cert (ncf : VirtualNetworkGatewaysOperations)
    (resource_group_name gateway_name cert_name : string) : result request :=
  gateway ← get ncf resource_group_name gateway_name;
  match vpn_client_configuration gateway with
  | None => Raise CLIError
  | Some config =>
      match vpn_client_root_certificates config with
      | None => Raise TypeError
      | Some roots =>
          match List.find (fun c => String.eqb (root_name c) cert_name) roots with
          | None => Raise CLIError
          | Some cert =>
              let config :=
                {| vpn_client_root_certificates := Some (list_remove cert roots);
                   vpn_client_revoked_certificates := vpn_client_revoked_certificates config |} in
              Ok (begin_create_or_update resource_group_name gateway_name
                    {| vpn_client_configuration := Some config |})
          end
      end
  end.

Definition delete_vnet_gateway_revoked_cert (ncf : VirtualNetworkGatewaysOperations)
    (resource_group_name gateway_name cert_name : string) : result request :=
  gateway ← get ncf resource_group_name gateway_name;
  match vpn_client_configuration gateway with
  | None => Raise CLIError
  | Some config =>
      match vpn_client_revoked_certificates config with
      | None => Raise TypeError
      | Some revoked =>
          match List.find (fun c => String.eqb (revoked_name c) cert_name) revoked with
          | None => Raise CLIError
          | Some cert =>
              let config :=
                {| vpn_client_root_certificates := vpn_client_root_certificates config;
                   vpn_client_revoked_certificates := Some (list_remove cert revoked) |} in
              Ok (begin_create_or_update resource_group_name gateway_name
                    {| vpn_client_configuration := Some config |})
          end
      end
  end.

End VnetGateway.

(** ** Address prefixes *)

Module Prefixes.

(** The class of the network [ip_network] returns. *)
Inductive network_class : Type := IPv4Network | IPv6Network.

#[global] Instance network_class_eq_dec : EqDecision network_class.
Proof. solve_decision. Defined.

Section Validate.

(** [ipaddress.ip_network], by the class of its result; [None] stands
    for its [ValueError]. *)
Variable ip_network : string -> option network_class.

(** The [for] loop, from a given [version]. *)
Fixpoint scan_prefixes (version : option network_class) (prefixes : list string)
    : result (option network_class) :=
  match prefixes with
  | [] => Ok version
  | prefix :: rest =>
      match ip_network prefix with
      | None => Raise CLIError
      | Some network =>
          match version with
          | None => scan_prefixes (Some network) rest
          | Some v =>
              if negb (bool_decide (network = v)) then Raise CLIError
              else scan_prefixes version rest
          end
      end
  end.

(** [prefixes] is a list, or a single prefix that is wrapped in one. *)
Definition _validate_ipv6_address_prefixes (prefixes : string + list string) : result bool :=
  let prefixes :=
    match prefixes with
    | inl prefix => [prefix]
    | inr l => l
    end in
  version ← scan_prefixes None prefixes;
  Ok (bool_decide (version = Some IPv6Network)).

End Validate.

End Prefixes.

(** ** Vocabulary of the further properties *)

Module Outcomes.

(** The arguments of [update_dns_soa_record], each with the field of
    the SOA record it is for. *)
Definition soa_arguments
    (host email serial_number refresh_time retry_time expire_time minimum_ttl : pyval)
    : list (string * pyval) :=
  [("host", host); ("email", email); ("serial_number", serial_number);
   ("refresh_time", refresh_time); ("retry_time", retry_time);
   ("expire_time", expire_time); ("minimum_ttl", minimum_ttl)].

(** The rule set has both the type and the version asked for. *)
Definition same_rule_set (rule_set_type_arg rule_set_version_arg : string)
    (rule_set : Waf.ManagedRuleSet) : bool :=
  String.eqb (Waf.rule_set_type rule_set) rule_set_type_arg
  && String.eqb (Waf.rule_set_version rule_set) rule_set_version_arg.

(** The test of the removal loop: the type or the version is the given one. *)
Definition type_or_version (rule_set_type_arg rule_set_version_arg : string)
    (rule_set : Waf.ManagedRuleSet) : bool :=
  String.eqb (Waf.rule_set_type rule_set) rule_set_type_arg
  || String.eqb (Waf.rule_set_version rule_set) rule_set_version_arg.

(** The type and the version of a rule set. *)
Definition rule_set_key (rule_set : Waf.ManagedRuleSet) : string * string :=
  (Waf.rule_set_type rule_set, Waf.rule_set_version rule_set).

(** Every group of [before] is still there in [after], at its place and
    under its name, with its rules at the front of the rules it has now. *)
Definition groups_kept (before after : list Waf.RuleGroupOverride) : Prop :=
  Forall2 (fun g g' => Waf.rule_group_name g' = Waf.rule_group_name g
                       /\ Waf.rules g `prefix_of` Waf.rules g')
    before (take (length before) after).

(** [after] is [before] without its first group of the name. *)
Definition first_group_removed (name : string) (before after : list Waf.RuleGroupOverride)
    : Prop :=
  exists front group back,
    before = (front ++ group :: back)%list
    /\ Waf.rule_group_name group = name
    /\ Forall (fun g => Waf.rule_group_name g <> name) front
    /\ after = (front ++ back)%list.

(** [certs] holds [cert] as its first certificate of the name:
    [certs = front ++ cert :: back] with no certificate of the name in
    [front]. *)
Definition first_named (client_cert_name : string)
    (certs front : list TrustedClientCertificates.ApplicationGatewayTrustedClientCertificate)
    (cert : TrustedClientCertificates.ApplicationGatewayTrustedClientCertificate)
    (back : list TrustedClientCertificates.ApplicationGatewayTrustedClientCertificate)
    : Prop :=
  certs = (front ++ cert :: back)%list
  /\ TrustedClientCertificates.name cert = client_cert_name
  /\ Forall (fun c => TrustedClientCertificates.name c <> client_cert_name) front.

(** [configs] holds [config] as its first configuration of the name,
    letter case aside. *)
Definition first_config (name_arg : string) (configs front : list Nic.IPConfiguration)
    (config : Nic.IPConfiguration) (back : list Nic.IPConfiguration) : Prop :=
  configs = (front ++ config :: back)%list
  /\ lower (Nic.name config) = lower name_arg
  /\ Forall (fun x => lower (Nic.name x) <> lower name_arg) front.

(** How often the character [c] occurs in [s]. *)
Fixpoint occurrences (c : ascii) (s : string) : nat :=
  match s with
  | EmptyString => 0
  | String a r => ((if Ascii.eqb a c then 1 else 0) + occurrences c r)%nat
  end.

End Outcomes.

(** ** Further concrete inputs *)

Module Samples.

(** A DNS client for a zone in which the record set does not exist yet. *)
Definition dns_client_without : Dns.RecordSetsOperations :=
  {| Dns.get := fun _ _ _ _ => Raise HttpResponseError |}.

Definition mx_record_set : gmap string Dns.rs_attr :=
  <["mx_records" := Dns.RList [Dns.MxRecord (VInt 10) (VStr "mail.contoso.com")]]>
    (Dns.RecordSet 3600).

Definition cname_record_set : gmap string Dns.rs_attr :=
  <["cname_record" := Dns.ROne (Dns.CnameRecord (VStr "www.contoso.com"))]>
    (Dns.RecordSet 3600).

Definition soa_record : gmap string pyval :=
  list_to_map
    [("host", VStr "ns1-01.azure-dns.com"); ("email", VStr "azuredns-hostmaster.microsoft.com");
     ("serial_number", VInt 1); ("refresh_time", VInt 3600); ("retry_time", VInt 300);
     ("expire_time", VInt 2419200); ("minimum_ttl", VInt 300)].

Definition soa_record_set : gmap string Dns.rs_attr :=
  <["soa_record" := Dns.ROne soa_record]> (Dns.RecordSet 3600).

(** An application gateway with two trusted client certificates. *)
Definition client_cert1 : TrustedClientCertificates.ApplicationGatewayTrustedClientCertificate :=
  {| TrustedClientCertificates.name := "cert1";
     TrustedClientCertificates.data := VStr "MIIC" |}.
Definition client_cert2 : TrustedClientCertificates.ApplicationGatewayTrustedClientCertificate :=
  {| TrustedClientCertificates.name := "cert2";
     TrustedClientCertificates.data := VStr "MIID" |}.

Definition appgw : TrustedClientCertificates.ApplicationGateway :=
  {| TrustedClientCertificates.trusted_client_certificates :=
       Some [client_cert1; client_cert2];
     TrustedClientCertificates.other_attributes :=
       {[ "location" := AppGateway.AVal (VStr "westus") ]} |}.

Definition appgw_client_of (appgw : TrustedClientCertificates.ApplicationGateway)
    : TrustedClientCertificates.ApplicationGatewaysOperations :=
  {| TrustedClientCertificates.get := fun _ _ => Ok appgw |}.

(** A network interface with two IP configurations. *)
Definition ipconfig1 : Nic.IPConfiguration :=
  {| Nic.name := "ipconfig1";
     Nic.load_balancer_backend_address_pools := Some [ {| Util.id := "/lb/pools/p1" |} ];
     Nic.application_gateway_backend_address_pools := None;
     Nic.load_balancer_inbound_nat_rules :=
       Some [ {| Util.id := "/lb/rules/r1" |}; {| Util.id := "/lb/rules/r2" |} ] |}.
Definition ipconfig2 : Nic.IPConfiguration :=
  {| Nic.name := "ipconfig2";
     Nic.load_balancer_backend_address_pools := None;
     Nic.application_gateway_backend_address_pools := None;
     Nic.load_balancer_inbound_nat_rules := None |}.

Definition nic1 : Nic.NetworkInterface :=
  {| Nic.ip_configurations := Some [ipconfig1; ipconfig2] |}.

Definition nic_client_of (nic : Nic.NetworkInterface) : Nic.NetworkInterfacesOperations :=
  {| Nic.get := fun _ _ => Ok nic |}.

(** A virtual network gateway with two root certificates. *)
Definition root1 : VnetGateway.VpnClientRootCertificate :=
  {| VnetGateway.root_name := "root1"; VnetGateway.public_cert_data := VStr "MIIC" |}.
Definition root2 : VnetGateway.VpnClientRootCertificate :=
  {| VnetGateway.root_name := "root2"; VnetGateway.public_cert_data := VStr "MIID" |}.

Definition vnet_gateway : VnetGateway.VirtualNetworkGateway :=
  {| VnetGateway.vpn_client_configuration :=
       Some {| VnetGateway.vpn_client_root_certificates := Some [root1; root2];
               VnetGateway.vpn_client_revoked_certificates := Some [] |} |}.

Definition vnet_gateway_client_of (gateway : VnetGateway.VirtualNetworkGateway)
    : VnetGateway.VirtualNetworkGatewaysOperations :=
  {| VnetGateway.get := fun _ _ => Ok gateway |}.

End Samples.

(** * Properties *)

Import Util AppGateway Statements.

(** ** Strings *)

Lemma rsplit_last_absent (c : ascii) (s : string) :
  contains c s = false -> rsplit_last c s = None.
Proof.
  induction s as [|a s IH]; simpl; [reflexivity|].
  intros H. apply orb_false_iff in H as [Ha Hs].
  rewrite (IH Hs), Ha. reflexivity.
Qed.

Lemma rsplit_last_app (c : ascii) (p n : string) :
  contains c n = false -> rsplit_last c (p ++ String c n) = Some (p, n).
Proof.
  intros Hn. induction p as [|a p IH]; simpl.
  - rewrite (rsplit_last_absent c n Hn), Ascii.eqb_refl. reflexivity.
  - rewrite IH. reflexivity.
Qed.

Lemma rsplit1_name (p n : string) :
  contains "/" n = false -> index (rsplit1 "/" (p ++ "/" ++ n)) 1 = Ok n.
Proof.
  intros Hn. unfold rsplit1.
  change (p ++ "/" ++ n)%string with (p ++ String "/" n)%string.
  rewrite (rsplit_last_app "/" p n Hn). reflexivity.
Qed.

(** ** Default name and id of a balancer's only child *)

(** C6: when the named collection holds more than one element, or none,
    [_get_default_value] and both of its wrappers raise [CLIError]; when
    it holds exactly one, the id variant returns that element's id and
    the name variant returns the text after the last ['/'] of that id. *)
Theorem get_default_value_singleton_or_error
    (balancer : gmap string (list SubResource)) (property_name option_name : string)
    (collection : list SubResource) :
  balancer !! property_name = Some collection ->
  ((1 < length collection)%nat \/ collection = [] ->
     (forall return_name,
        _get_default_value balancer property_name option_name return_name = Raise CLIError)
     /\ _get_default_name balancer property_name option_name = Raise CLIError
     /\ _get_default_id balancer property_name option_name = Raise CLIError)
  /\ (forall x, collection = [x] ->
        _get_default_value balancer property_name option_name false = Ok (id x)
        /\ _get_default_id balancer property_name option_name = Ok (id x)
        /\ (forall p n, id x = (p ++ "/" ++ n)%string -> contains "/" n = false ->
              _get_default_value balancer property_name option_name true = Ok n
              /\ _get_default_name balancer property_name option_name = Ok n)).
Proof.
  intros Hget.
  assert (Hval : forall return_name,
    _get_default_value balancer property_name option_name return_name =
    match collection with
    | [] => Raise CLIError
    | [x] => if return_name then index (rsplit1 "/" (id x)) 1 else Ok (id x)
    | _ :: _ :: _ => Raise CLIError
    end).
  { intros return_name. unfold _get_default_value, Util.getattr. rewrite Hget.
    destruct collection as [|x [|y rest]]; reflexivity. }
  split.
  - intros Hbad.
    assert (Hall : forall return_name,
      _get_default_value balancer property_name option_name return_name = Raise CLIError).
    { intros return_name. rewrite Hval.
      destruct Hbad as [Hlen | ->]; [|reflexivity].
      destruct collection as [|x [|y rest]]; simpl in Hlen; try lia; reflexivity. }
    split; [exact Hall|]. split; apply Hall.
  - intros x ->. split; [apply Hval|]. split; [apply Hval|].
    intros p n Hid Hn.
    assert (Hname : _get_default_value balancer property_name option_name true = Ok n).
    { rewrite Hval, Hid. apply rsplit1_name, Hn. }
    split; exact Hname.
Qed.

Lemma get_default_value_singleton_or_error_witness :
  _get_default_name Examples.two_pools "backend_address_pools" "--backend-pool-name"
    = Raise CLIError
  /\ _get_default_id Examples.no_pools "backend_address_pools" "--address-pool"
    = Raise CLIError
  /\ _get_default_name Examples.one_pool "backend_address_pools" "--backend-pool-name"
    = Ok "pool1".
Proof.
  split; [|split].
  - apply (get_default_value_singleton_or_error Examples.two_pools
             "backend_address_pools" "--backend-pool-name" _ eq_refl).
    left. simpl. lia.
  - apply (get_default_value_singleton_or_error Examples.no_pools
             "backend_address_pools" "--address-pool" _ eq_refl).
    right. reflexivity.
  - eapply (get_default_value_singleton_or_error Examples.one_pool
              "backend_address_pools" "--backend-pool-name" _ eq_refl).
    + reflexivity.
    + instantiate (1 := "/subscriptions/s/resourceGroups/rg/providers/Microsoft.Network/loadBalancers/lb/backendAddressPools").
      reflexivity.
    + reflexivity.
Defined.

(** ** Sub-resource collections of an application gateway *)

Lemma key_of_AuthCert_name (data : pyval) (name : string) :
  key_of "name" (AuthCert data name) = VStr name.
Proof. reflexivity. Qed.

Lemma key_of_AuthCert_data (data : pyval) (name : string) :
  key_of "data" (AuthCert data name) = data.
Proof. reflexivity. Qed.

Lemma collection_of_upsert (parent : gmap string attr) (collection_name key_name : string)
    (obj : gmap string pyval) :
  collection_of (upsert_to_collection parent collection_name obj key_name) collection_name
  = (remove_match key_name (key_of key_name obj) (collection_of parent collection_name)
       ++ [obj])%list.
Proof.
  unfold upsert_to_collection, collection_of at 1.
  rewrite lookup_insert_eq. reflexivity.
Qed.

Lemma upsert_frame (parent : gmap string attr) (collection_name key_name : string)
    (obj : gmap string pyval) (p : string) :
  p <> collection_name ->
  upsert_to_collection parent collection_name obj key_name !! p = parent !! p.
Proof.
  intros Hp. unfold upsert_to_collection. rewrite lookup_insert_ne; [reflexivity | congruence].
Qed.

Lemma filter_none {A : Type} (f : A -> bool) (l : list A) :
  List.filter f l = [] -> List.filter (fun x => negb (f x)) l = l.
Proof.
  induction l as [|x l IH]; simpl; [reflexivity|].
  destruct (f x); simpl; [discriminate|]. intros H. rewrite (IH H). reflexivity.
Qed.

Lemma filter_negb_idem {A : Type} (f : A -> bool) (l : list A) :
  List.filter f (List.filter (fun x => negb (f x)) l) = [].
Proof.
  induction l as [|x l IH]; simpl; [reflexivity|].
  destruct (f x) eqn:Hx; simpl; [exact IH|]. rewrite Hx. exact IH.
Qed.

Lemma filter_negb_twice {A : Type} (f : A -> bool) (l : list A) :
  List.filter (fun x => negb (f x)) (List.filter (fun x => negb (f x)) l)
  = List.filter (fun x => negb (f x)) l.
Proof.
  induction l as [|x l IH]; simpl; [reflexivity|].
  destruct (f x) eqn:Hx; simpl; [exact IH|]. rewrite Hx. simpl. rewrite IH. reflexivity.
Qed.

(** With at most one element of the name, dropping the first match
    drops every match. *)
Lemma remove_match_filter (item_name : string) (l : list (gmap string pyval)) :
  (length (List.filter (named item_name) l) <= 1)%nat ->
  remove_match "name" (VStr item_name) l
  = List.filter (fun x => negb (named item_name x)) l.
Proof.
  induction l as [|x l IH]; simpl; [reflexivity|].
  change (py_eqb (key_of "name" x) (VStr item_name)) with (named item_name x).
  destruct (named item_name x); simpl.
  - intros Hlen. symmetry. apply filter_none.
    destruct (List.filter (named item_name) l); [reflexivity | simpl in Hlen; lia].
  - intros Hlen. rewrite (IH Hlen). reflexivity.
Qed.

(** The service keeps the names of a collection unique, so a gateway
    that [get] answers with holds at most one certificate of any name. *)
Lemma unique_names_at_most_one (item_name : string) (l : list (gmap string pyval)) :
  NoDup (map (key_of "name") l) ->
  (length (List.filter (named item_name) l) <= 1)%nat.
Proof.
  induction l as [|x l IH]; intros Hnames; [simpl; lia|].
  apply NoDup_cons in Hnames as [Hx Hrest]. specialize (IH Hrest).
  cbn [List.filter]. destruct (named item_name x) eqn:Hnamed; [|exact IH].
  unfold named, py_eqb in Hnamed. apply bool_decide_eq_true_1 in Hnamed.
  assert (Hnone : List.filter (named item_name) l = []).
  { destruct (List.filter (named item_name) l) as [|y rest] eqn:Hfilter; [reflexivity|].
    assert (Hy : In y (List.filter (named item_name) l))
      by (rewrite Hfilter; left; reflexivity).
    apply filter_In in Hy as [Hin Hy].
    unfold named, py_eqb in Hy. apply bool_decide_eq_true_1 in Hy.
    exfalso. apply Hx. rewrite Hnamed, <- Hy.
    apply list_elem_of_In, in_map, Hin. }
  rewrite Hnone. simpl. lia.
Qed.

(** C1: for every gateway that [get] can answer with, one that holds at
    most one certificate of the name [item_name] (the service keeps
    names unique), the gateway that
    [create_ag_authentication_certificate] submits has exactly one
    certificate of that name, the new one with the given [cert_data],
    and its certificates of other names are those fetched. *)
Theorem create_ag_authentication_certificate_find_or_replace
    (ncf : ApplicationGatewaysOperations)
    (resource_group_name application_gateway_name item_name : string)
    (cert_data : pyval) (no_wait : bool) (fetched : gmap string attr) :
  get ncf resource_group_name application_gateway_name = Ok fetched ->
  (length (List.filter (named item_name)
             (collection_of fetched "authentication_certificates")) <= 1)%nat ->
  exists ag,
    create_ag_authentication_certificate ncf resource_group_name application_gateway_name
      item_name cert_data no_wait
    = Ok (sdk_no_wait no_wait
            (begin_create_or_update resource_group_name application_gateway_name ag))
    /\ find_or_replace_outcome
         (collection_of fetched "authentication_certificates")
         (collection_of ag "authentication_certificates")
         item_name (AuthCert cert_data item_name)
    /\ key_of "name" (AuthCert cert_data item_name) = VStr item_name
    /\ key_of "data" (AuthCert cert_data item_name) = cert_data.
Proof.
  intros Hget Hone.
  exists (upsert_to_collection fetched "authentication_certificates"
            (AuthCert cert_data item_name) "name").
  split.
  { unfold create_ag_authentication_certificate. rewrite Hget. reflexivity. }
  split; [|split; reflexivity].
  unfold find_or_replace_outcome.
  rewrite collection_of_upsert, key_of_AuthCert_name, (remove_match_filter _ _ Hone).
  rewrite !List.filter_app, filter_negb_idem, filter_negb_twice. simpl.
  assert (Hnew : named item_name (AuthCert cert_data item_name) = true).
  { unfold named. rewrite key_of_AuthCert_name. unfold py_eqb.
    apply bool_decide_eq_true_2. reflexivity. }
  rewrite Hnew. simpl. split; [reflexivity | apply app_nil_r].
Qed.

Lemma create_ag_authentication_certificate_find_or_replace_witness :
  exists ag,
    create_ag_authentication_certificate (Examples.client_of Examples.gateway)
      "rg" "gw" "cert1" (VStr "MIIE") false
    = Ok (sdk_no_wait false (begin_create_or_update "rg" "gw" ag))
    /\ find_or_replace_outcome
         (collection_of Examples.gateway "authentication_certificates")
         (collection_of ag "authentication_certificates")
         "cert1" (AuthCert (VStr "MIIE") "cert1")
    /\ key_of "name" (AuthCert (VStr "MIIE") "cert1") = VStr "cert1"
    /\ key_of "data" (AuthCert (VStr "MIIE") "cert1") = VStr "MIIE".
Proof.
  apply (create_ag_authentication_certificate_find_or_replace
           (Examples.client_of Examples.gateway) "rg" "gw" "cert1" (VStr "MIIE") false
           Examples.gateway eq_refl).
  vm_compute. lia.
Defined.

(** C2: the gateway that [create_ag_backend_address_pool] submits agrees
    with the fetched one on every attribute other than
    [backend_address_pools]. *)
Theorem create_ag_backend_address_pool_frame
    (ncf : ApplicationGatewaysOperations)
    (resource_group_name application_gateway_name item_name : string)
    (servers : pyval) (no_wait : bool) (fetched : gmap string attr) :
  get ncf resource_group_name application_gateway_name = Ok fetched ->
  exists ag,
    create_ag_backend_address_pool ncf resource_group_name application_gateway_name
      item_name servers no_wait
    = Ok (sdk_no_wait no_wait
            (begin_create_or_update resource_group_name application_gateway_name ag))
    /\ forall property_name,
         property_name <> "backend_address_pools" ->
         ag !! property_name = fetched !! property_name.
Proof.
  intros Hget.
  exists (upsert_to_collection fetched "backend_address_pools"
            (ApplicationGatewayBackendAddressPool item_name servers) "name").
  split.
  - unfold create_ag_backend_address_pool. rewrite Hget. reflexivity.
  - intros property_name Hne. apply upsert_frame, Hne.
Qed.

Lemma create_ag_backend_address_pool_frame_witness :
  exists ag,
    create_ag_backend_address_pool (Examples.client_of Examples.gateway)
      "rg" "gw" "pool2" (VStrs ["10.0.0.5"]) false
    = Ok (sdk_no_wait false (begin_create_or_update "rg" "gw" ag))
    /\ forall property_name,
         property_name <> "backend_address_pools" ->
         ag !! property_name = Examples.gateway !! property_name.
Proof.
  exact (create_ag_backend_address_pool_frame (Examples.client_of Examples.gateway)
           "rg" "gw" "pool2" (VStrs ["10.0.0.5"]) false Examples.gateway eq_refl).
Defined.

(** C3: the request that [create_ag_authentication_certificate] (and
    likewise [create_ag_backend_address_pool]) passes to the SDK is the
    same with and without [no_wait]; the flag decides only whether the
    operation is polled, and an error of the initial get is the same
    either way. *)
Theorem no_wait_same_request
    (ncf : ApplicationGatewaysOperations)
    (resource_group_name application_gateway_name item_name : string)
    (cert_data servers : pyval) :
  match create_ag_authentication_certificate ncf resource_group_name
          application_gateway_name item_name cert_data true,
        create_ag_authentication_certificate ncf resource_group_name
          application_gateway_name item_name cert_data false with
  | Ok returned_at_once, Ok waited_for =>
      operation returned_at_once = operation waited_for
      /\ polling returned_at_once = false /\ polling waited_for = true
  | Raise e1, Raise e2 => e1 = e2
  | _, _ => False
  end
  /\ match create_ag_backend_address_pool ncf resource_group_name
             application_gateway_name item_name servers true,
           create_ag_backend_address_pool ncf resource_group_name
             application_gateway_name item_name servers false with
     | Ok returned_at_once, Ok waited_for =>
         operation returned_at_once = operation waited_for
         /\ polling returned_at_once = false /\ polling waited_for = true
     | Raise e1, Raise e2 => e1 = e2
     | _, _ => False
     end.
Proof.
  unfold create_ag_authentication_certificate, create_ag_backend_address_pool.
  destruct (get ncf resource_group_name application_gateway_name) as [ag|e]; simpl.
  - repeat split.
  - split; reflexivity.
Qed.

(** ** Target of a flow log *)

Import FlowLog.

Lemma sum_bool_cons (x : option string) (xs : list (option string)) :
  sum_bool (x :: xs) = ((if arg_bool x then 1 else 0) + sum_bool xs)%nat.
Proof. unfold sum_bool. simpl. destruct (arg_bool x); reflexivity. Qed.

(** Past the two checks some branch assigns [flow_log]. *)
Lemma first_given_bound (a : Args) :
  sum_bool [vnet a; subnet a; nic a; nsg a] <> 0%nat ->
  exists target, first_given a = Some target.
Proof.
  unfold first_given. rewrite !sum_bool_cons.
  destruct (subnet a), (vnet a), (nic a), (nsg a); simpl; eauto.
  intros H. exfalso. apply H. reflexivity.
Qed.

(** What the function does once both checks have passed. *)
Lemma create_nw_flow_log_past_checks
    (g : string -> result (option GenericResource))
    (location watcher_rg watcher_name flow_log_name : string) (a : Args) (target : string) :
  sum_bool [vnet a; subnet a; nic a; nsg a] <> 0%nat ->
  (sum_bool [vnet a; nic a; nsg a] <= 1)%nat ->
  first_given a = Some target ->
  match traffic_analytics_workspace a with
  | None =>
      exists fl,
        create_nw_flow_log g location watcher_rg watcher_name flow_log_name a
        = Ok (begin_create_or_update watcher_rg watcher_name flow_log_name fl)
        /\ target_resource_id fl = Some target
  | Some w =>
      match g w with
      | Raise e =>
          create_nw_flow_log g location watcher_rg watcher_name flow_log_name a = Raise e
      | Ok None =>
          create_nw_flow_log g location watcher_rg watcher_name flow_log_name a
          = Raise CLIError
      | Ok (Some ws) =>
          match properties ws !! "customerId" with
          | None =>
              create_nw_flow_log g location watcher_rg watcher_name flow_log_name a
              = Raise KeyError
          | Some _ =>
              exists fl,
                create_nw_flow_log g location watcher_rg watcher_name flow_log_name a
                = Ok (begin_create_or_update watcher_rg watcher_name flow_log_name fl)
                /\ target_resource_id fl = Some target
          end
      end
  end.
Proof.
  intros Hsome Hone Htarget. unfold create_nw_flow_log.
  destruct (Nat.eqb_spec (sum_bool [vnet a; subnet a; nic a; nsg a]) 0) as [H0|_];
    [contradiction|].
  destruct (Nat.ltb_spec 1 (sum_bool [vnet a; nic a; nsg a])) as [H1|_]; [lia|].
  set (fl0 := {| location := location; target_resource_id := Some target;
                 storage_id := storage_account a; enabled := arg_enabled a;
                 tags := arg_tags a; retention_policy := None; format := None;
                 flow_analytics_configuration := None |}).
  assert (Hsel :
    (if is_not_None (subnet a)
     then Some {| location := location; target_resource_id := subnet a;
                  storage_id := storage_account a; enabled := arg_enabled a;
                  tags := arg_tags a; retention_policy := None; format := None;
                  flow_analytics_configuration := None |}
     else if is_not_None (vnet a) && negb (is_not_None (subnet a))
     then Some {| location := location; target_resource_id := vnet a;
                  storage_id := storage_account a; enabled := arg_enabled a;
                  tags := arg_tags a; retention_policy := None; format := None;
                  flow_analytics_configuration := None |}
     else if is_not_None (nic a)
     then Some {| location := location; target_resource_id := nic a;
                  storage_id := storage_account a; enabled := arg_enabled a;
                  tags := arg_tags a; retention_policy := None; format := None;
                  flow_analytics_configuration := None |}
     else if is_not_None (nsg a)
     then Some {| location := location; target_resource_id := nsg a;
                  storage_id := storage_account a; enabled := arg_enabled a;
                  tags := arg_tags a; retention_policy := None; format := None;
                  flow_analytics_configuration := None |}
     else None) = Some fl0).
  { unfold first_given in Htarget. subst fl0.
    destruct (subnet a), (vnet a), (nic a), (nsg a); simpl in *;
      try discriminate; injection Htarget as ->; reflexivity. }
  cbv zeta. rewrite Hsel. clear Hsel.
  destruct (0 <? retention a)%Z, (is_not_None (log_format a) || is_not_None (log_version a)),
    (traffic_analytics_workspace a) as [w|]; simpl;
    try (destruct (g w) as [[ws|]|e]; simpl; [destruct (properties ws !! "customerId")|..];
         simpl);
    try reflexivity; eexists; split; reflexivity.
Qed.

(** C4, as amended: taking an argument as supplied when it is a
    non-empty value, [create_nw_flow_log] raises
    [RequiredArgumentMissingError] when none of [nsg], [vnet], [subnet],
    [nic] is supplied and [MutuallyExclusiveArgumentError] when more than
    one of [vnet], [nic], [nsg] is; otherwise the flow log it submits
    targets the first of [subnet], [vnet], [nic], [nsg] that is not
    [None], unless the lookup of a traffic-analytics workspace fails.
    Without such a workspace these two are the only errors and each is
    raised in no other case; when no argument is an empty string the
    target is a supplied one. *)
Theorem create_nw_flow_log_checks_and_target
    (g : string -> result (option GenericResource))
    (location watcher_rg watcher_name flow_log_name : string) (a : Args) :
  let r := create_nw_flow_log g location watcher_rg watcher_name flow_log_name a in
  (sum_bool [vnet a; subnet a; nic a; nsg a] = 0%nat ->
     r = Raise RequiredArgumentMissingError)
  /\ ((1 < sum_bool [vnet a; nic a; nsg a])%nat ->
      r = Raise MutuallyExclusiveArgumentError)
  /\ (sum_bool [vnet a; subnet a; nic a; nsg a] <> 0%nat ->
      (sum_bool [vnet a; nic a; nsg a] <= 1)%nat ->
      exists target,
        first_given a = Some target
        /\ (is_not_None (subnet a) = true -> subnet a = Some target)
        /\ (Forall (fun x => x <> Some "") [subnet a; vnet a; nic a; nsg a] ->
            arg_bool (Some target) = true)
        /\ match traffic_analytics_workspace a with
           | None =>
               exists fl,
                 r = Ok (begin_create_or_update watcher_rg watcher_name flow_log_name fl)
                 /\ target_resource_id fl = Some target
           | Some w =>
               match g w with
               | Raise e => r = Raise e
               | Ok None => r = Raise CLIError
               | Ok (Some ws) =>
                   match properties ws !! "customerId" with
                   | None => r = Raise KeyError
                   | Some _ =>
                       exists fl,
                         r = Ok (begin_create_or_update watcher_rg watcher_name
                                   flow_log_name fl)
                         /\ target_resource_id fl = Some target
                   end
               end
           end)
  /\ (traffic_analytics_workspace a = None ->
      (r = Raise RequiredArgumentMissingError <->
         sum_bool [vnet a; subnet a; nic a; nsg a] = 0%nat)
      /\ (r = Raise MutuallyExclusiveArgumentError <->
            (1 < sum_bool [vnet a; nic a; nsg a])%nat)
      /\ (forall e, r = Raise e ->
            e = RequiredArgumentMissingError \/ e = MutuallyExclusiveArgumentError)).
Proof.
  intros r.
  assert (Hle : (sum_bool [vnet a; nic a; nsg a]
                 <= sum_bool [vnet a; subnet a; nic a; nsg a])%nat).
  { rewrite !sum_bool_cons. lia. }
  assert (Hreq : sum_bool [vnet a; subnet a; nic a; nsg a] = 0%nat ->
                 r = Raise RequiredArgumentMissingError).
  { intros H0. subst r. unfold create_nw_flow_log. rewrite H0. reflexivity. }
  assert (Hmut : (1 < sum_bool [vnet a; nic a; nsg a])%nat ->
                 r = Raise MutuallyExclusiveArgumentError).
  { intros H1. subst r. unfold create_nw_flow_log.
    destruct (Nat.eqb_spec (sum_bool [vnet a; subnet a; nic a; nsg a]) 0); [lia|].
    destruct (Nat.ltb_spec 1 (sum_bool [vnet a; nic a; nsg a])); [reflexivity | lia]. }
  assert (Hpast : sum_bool [vnet a; subnet a; nic a; nsg a] <> 0%nat ->
                  (sum_bool [vnet a; nic a; nsg a] <= 1)%nat ->
                  exists target, first_given a = Some target
                    /\ (is_not_None (subnet a) = true -> subnet a = Some target)
                    /\ (Forall (fun x => x <> Some "") [subnet a; vnet a; nic a; nsg a] ->
                        arg_bool (Some target) = true)).
  { intros Hsome _. destruct (first_given_bound a Hsome) as [target Htarget].
    exists target. split; [exact Htarget|]. split.
    - unfold first_given in Htarget. destruct (subnet a); [|discriminate].
      intros _. exact Htarget.
    - intros Hne. simpl. destruct (String.eqb_spec target "") as [->|]; [|reflexivity].
      exfalso. rewrite !Forall_cons in Hne. destruct Hne as (Hs & Hv & Hn & Hg & _).
      unfold first_given in Htarget.
      destruct (subnet a); [congruence|]. destruct (vnet a); [congruence|].
      destruct (nic a); congruence. }
  split; [exact Hreq|]. split; [exact Hmut|]. split.
  - intros Hsome Hone. destruct (Hpast Hsome Hone) as (target & Htarget & Hsub & Hne).
    exists target. repeat (split; [assumption|]).
    apply (create_nw_flow_log_past_checks g location watcher_rg watcher_name
             flow_log_name a target Hsome Hone Htarget).
  - intros Hws.
    assert (Hok : sum_bool [vnet a; subnet a; nic a; nsg a] <> 0%nat ->
                  (sum_bool [vnet a; nic a; nsg a] <= 1)%nat -> exists req, r = Ok req).
    { intros Hsome Hone. destruct (Hpast Hsome Hone) as (target & Htarget & _).
      pose proof (create_nw_flow_log_past_checks g location watcher_rg watcher_name
                    flow_log_name a target Hsome Hone Htarget) as Hrun.
      rewrite Hws in Hrun. destruct Hrun as (fl & Hr & _). eexists. exact Hr. }
    destruct (Nat.eq_dec (sum_bool [vnet a; subnet a; nic a; nsg a]) 0) as [H0|H0].
    + pose proof (Hreq H0) as Hr. repeat split; intros; try lia; try congruence.
      left. congruence.
    + destruct (le_lt_dec (sum_bool [vnet a; nic a; nsg a]) 1) as [H1|H1].
      * destruct (Hok H0 H1) as [req Hr].
        repeat split; intros; try lia; try congruence.
      * pose proof (Hmut H1) as Hr. repeat split; intros; try lia; try congruence.
        right. congruence.
Qed.

Lemma create_nw_flow_log_checks_and_target_witness :
  create_nw_flow_log Examples.no_workspace "westus" "rg" "watcher" "log1"
    (Examples.args_with None None None None) = Raise RequiredArgumentMissingError
  /\ create_nw_flow_log Examples.no_workspace "westus" "rg" "watcher" "log1"
       (Examples.args_with (Some Examples.nsg1) (Some Examples.vnet1) None None)
     = Raise MutuallyExclusiveArgumentError
  /\ exists fl,
       create_nw_flow_log Examples.no_workspace "westus" "rg" "watcher" "log1"
         (Examples.args_with None (Some Examples.vnet1) (Some "subnet1") None)
       = Ok (begin_create_or_update "rg" "watcher" "log1" fl)
       /\ target_resource_id fl = Some "subnet1".
Proof.
  split; [|split].
  - destruct (create_nw_flow_log_checks_and_target Examples.no_workspace
                "westus" "rg" "watcher" "log1" (Examples.args_with None None None None))
      as (Hreq & _).
    exact (Hreq eq_refl).
  - destruct (create_nw_flow_log_checks_and_target Examples.no_workspace
                "westus" "rg" "watcher" "log1"
                (Examples.args_with (Some Examples.nsg1) (Some Examples.vnet1) None None))
      as (_ & Hmut & _).
    apply Hmut. vm_compute. lia.
  - destruct (create_nw_flow_log_checks_and_target Examples.no_workspace
                "westus" "rg" "watcher" "log1"
                (Examples.args_with None (Some Examples.vnet1) (Some "subnet1") None))
      as (_ & _ & Hpast & _).
    destruct Hpast as (target & Htarget & _ & _ & Hrun).
    + vm_compute. lia.
    + vm_compute. lia.
    + injection Htarget as <-. exact Hrun.
Defined.

(** C4, as stated, fails on an empty-string argument under both readings
    of "supplied".  Read as "not [None]": with [nsg] the empty string
    and nothing else the missing-argument error is raised although an
    argument was passed.  Read as "non-empty": with [subnet] the empty
    string next to a [vnet], the flow log targets the empty string, not
    the supplied [vnet]. *)
Lemma create_nw_flow_log_empty_string :
  ~ flow_log_claim is_not_None /\ ~ flow_log_claim arg_bool.
Proof.
  split; intros Hclaim.
  - destruct (Hclaim Examples.no_workspace "westus" "rg" "watcher" "log1"
                (Examples.args_with (Some "") None None None) eq_refl)
      as ([Hraised _] & _).
    specialize (Hraised eq_refl). discriminate Hraised.
  - destruct (Hclaim Examples.no_workspace "westus" "rg" "watcher" "log1"
                (Examples.args_with None (Some Examples.vnet1) (Some "") None) eq_refl)
      as (_ & _ & Htarget).
    destruct (Htarget _ eq_refl) as (_ & x & Hin & Hsupplied & Hx).
    simpl in Hx. subst x. discriminate Hsupplied.
Qed.

(** ** Removal of a managed rule set *)

Import Waf.

(** Without a rule group name the loop stops at the first rule set whose
    type or version is the given one, and the update drops every rule
    set equal to it. *)
Lemma remove_waf_managed_rule_set_first_match
    (managed_rule_sets : list ManagedRuleSet) (rule_set_type_arg rule_set_version_arg : string) :
  remove_waf_managed_rule_set managed_rule_sets rule_set_type_arg rule_set_version_arg None
  = Ok match List.find (fun rule_set =>
                          String.eqb (rule_set_type rule_set) rule_set_type_arg
                          || String.eqb (rule_set_version rule_set) rule_set_version_arg)
               managed_rule_sets with
       | Some d =>
           List.filter (fun rule_set => negb (bool_decide (rule_set = d))) managed_rule_sets
       | None => managed_rule_sets
       end.
Proof.
  unfold remove_waf_managed_rule_set, pre_instance_update.
  assert (Hscan :
    scan_rule_sets rule_set_type_arg rule_set_version_arg None managed_rule_sets
    = Ok (List.find (fun rule_set =>
                       String.eqb (rule_set_type rule_set) rule_set_type_arg
                       || String.eqb (rule_set_version rule_set) rule_set_version_arg)
            managed_rule_sets, managed_rule_sets)).
  { induction managed_rule_sets as [|rule_set rest IH]; simpl; [reflexivity|].
    destruct (String.eqb (rule_set_type rule_set) rule_set_type_arg
              || String.eqb (rule_set_version rule_set) rule_set_version_arg);
      [reflexivity|].
    rewrite IH. reflexivity. }
  rewrite Hscan. simpl.
  destruct (List.find _ managed_rule_sets); reflexivity.
Qed.

(** C5 does not hold of the code: asked to remove the rule set of type
    OWASP and version 3.1 from a policy that holds OWASP 3.2, the update
    removes OWASP 3.2, a rule set of a different version; the test joins
    the two comparisons with [or]. *)
Theorem remove_waf_managed_rule_set_other_version :
  remove_waf_managed_rule_set [Examples.owasp_3_2; Examples.bot_manager_1_0]
    "OWASP" "3.1" None
  = Ok [Examples.bot_manager_1_0]
  /\ rule_set_version Examples.owasp_3_2 <> "3.1"
  /\ remove_waf_managed_rule_set [Examples.owasp_3_2; Examples.bot_manager_1_0]
       "Microsoft_DefaultRuleSet" "1.0" None
     = Ok [Examples.owasp_3_2]
  /\ rule_set_type Examples.bot_manager_1_0 <> "Microsoft_DefaultRuleSet".
Proof.
  split; [reflexivity|]. split; [discriminate|]. split; [reflexivity | discriminate].
Qed.

(** ** Removal of a DNS record *)

Import Dns.

Lemma filter_length_all {A : Type} (f : A -> bool) (l : list A) :
  length (List.filter f l) = length l <-> forallb f l = true.
Proof.
  induction l as [|x l IH]; simpl; [tauto|].
  pose proof (List.filter_length_le f l) as Hle.
  destruct (f x); simpl.
  - rewrite <- IH. lia.
  - split; [lia | discriminate].
Qed.

Lemma getattr_lookup (record_set : gmap string rs_attr) (record_property : string)
    (v : rs_attr) :
  record_set !! record_property = Some v -> getattr record_set record_property = Ok v.
Proof. intros H. unfold getattr. rewrite H. reflexivity. Qed.

(** The control flow of [_remove_record] on a list-typed record set,
    with matching as [dict_matches_filter] decides it. *)
Lemma remove_record_flow (ncf : RecordSetsOperations) (record : gmap string pyval)
    (record_type record_set_name resource_group_name zone_name record_property : string)
    (keep_empty_record_set : bool) (record_set : gmap string rs_attr)
    (record_list : list (gmap string pyval)) :
  get ncf resource_group_name zone_name record_set_name record_type = Ok record_set ->
  _type_to_property_name record_type = Ok record_property ->
  record_set !! record_property = Some (RList record_list) ->
  let keep_list :=
    List.filter (fun r => negb (dict_matches_filter r record)) record_list in
  _remove_record ncf record record_type record_set_name resource_group_name zone_name
    keep_empty_record_set true
  = if forallb (fun r => negb (dict_matches_filter r record)) record_list
    then Raise CLIError
    else if (length keep_list =? 0)%nat && negb keep_empty_record_set
    then Ok (delete resource_group_name zone_name record_set_name record_type)
    else Ok (create_or_update resource_group_name zone_name record_set_name record_type
               (setattr record_set record_property (RList keep_list)) None).
Proof.
  intros Hget Hprop Hlist keep_list.
  unfold _remove_record. rewrite Hget. cbn [mbind result_bind]. rewrite Hprop.
  cbn [mbind result_bind]. rewrite (getattr_lookup _ _ _ Hlist).
  cbn [mbind result_bind]. fold keep_list.
  destruct (forallb _ record_list) eqn:Hall.
  - apply filter_length_all in Hall. fold keep_list in Hall.
    rewrite Hall, Nat.eqb_refl. reflexivity.
  - destruct (Nat.eqb_spec (length keep_list) (length record_list)) as [Hlen|_].
    + apply filter_length_all in Hlen. congruence.
    + cbn [mbind result_bind]. unfold setattr.
      rewrite (getattr_lookup _ _ (RList keep_list)) by apply lookup_insert_eq.
      reflexivity.
Qed.

(** C7 does not hold of the code: removing the address 10.0.0.12 from a
    record set whose only record is 10.0.0.21 raises no [CLIError]; the
    record is taken to match, because [lists_match] compares the two
    strings as bags of characters, and the record set is deleted. *)
Theorem remove_dns_a_record_other_address :
  remove_dns_a_record (Examples.dns_client_of Examples.a_record_set)
    "rg" "contoso.com" "www" (VStr "10.0.0.12") false
  = Ok (delete "rg" "contoso.com" "www" "a")
  /\ Examples.a_record_set !! "a_records" = Some (RList [ARecord (VStr "10.0.0.21")])
  /\ attribute (ARecord (VStr "10.0.0.21")) "ipv4_address" = Ok (VStr "10.0.0.21")
  /\ lists_match (VStr "10.0.0.12") (VStr "10.0.0.21") = true
  /\ dict_matches_filter (ARecord (VStr "10.0.0.21")) (ARecord (VStr "10.0.0.12")) = true.
Proof.
  repeat split; vm_compute; reflexivity.
Qed.

(** ** Bandwidth of an ExpressRoute circuit *)

Import ExpressRoute.

Section BandwidthProperties.

Variable float : string -> option PrimFloat.float.

Lemma validate_bandwidth_components (bandwidth : list string) (mbps : bool) :
  _validate_bandwidth float (Some bandwidth) mbps
  = let unit := if mbps then "mbps" else "gbps" in
    let bandwidth_comps :=
      if (length (bandwidth_components bandwidth) =? 1)%nat
      then (bandwidth_components bandwidth ++ [unit])%list
      else bandwidth_components bandwidth in
    if (2 <? length bandwidth_comps)%nat then Raise InvalidArgumentValueError
    else
      input_value ← index bandwidth_comps 0;
      unit_text ← index bandwidth_comps 1;
      x ← to_float float input_value;
      if float_bool x
         && (String.eqb (lower unit_text) "mbps" || String.eqb (lower unit_text) "gbps")
      then
        if String.eqb (lower unit_text) unit then Ok (Some x)
        else if String.eqb (lower unit_text) "gbps"
             then Ok (Some (PrimFloat.mul x 1000%float))
             else Ok (Some (PrimFloat.div x 1000%float))
      else Raise InvalidArgumentValueError.
Proof.
  unfold _validate_bandwidth, bandwidth_components.
  destruct bandwidth as [|b0 [|b1 rest]]; reflexivity.
Qed.

(** Two components: a number and a unit, the unit in any letter case. *)
Lemma validate_bandwidth_two (bandwidth : list string) (mbps : bool)
    (v u : string) (x : PrimFloat.float) :
  bandwidth_components bandwidth = [v; u] \/
    (bandwidth_components bandwidth = [v] /\ u = if mbps then "mbps" else "gbps") ->
  float v = Some x ->
  _validate_bandwidth float (Some bandwidth) mbps
  = if float_bool x && (String.eqb (lower u) "mbps" || String.eqb (lower u) "gbps")
    then
      if String.eqb (lower u) (if mbps then "mbps" else "gbps") then Ok (Some x)
      else if String.eqb (lower u) "gbps" then Ok (Some (PrimFloat.mul x 1000%float))
           else Ok (Some (PrimFloat.div x 1000%float))
    else Raise InvalidArgumentValueError.
Proof.
  intros Hcomps Hfloat. rewrite validate_bandwidth_components.
  destruct Hcomps as [-> | [-> ->]]; cbn [length Nat.eqb Nat.ltb Nat.leb app index nth_error];
    cbn [mbind result_bind]; unfold to_float; rewrite Hfloat; reflexivity.
Qed.

(** C8, as amended: for a number other than zero the claim holds as
    stated; a zero number raises [InvalidArgumentValueError] whatever
    its unit. *)
Theorem validate_bandwidth_conversion :
  bandwidth_claim float (fun x => float_bool x = true)
  /\ forall (bandwidth : list string) (mbps : bool) (v u : string) (x : PrimFloat.float),
       bandwidth_components bandwidth = [v; u]
       \/ (bandwidth_components bandwidth = [v] /\ u = if mbps then "mbps" else "gbps") ->
       float v = Some x ->
       float_bool x = false ->
       _validate_bandwidth float (Some bandwidth) mbps = Raise InvalidArgumentValueError.
Proof.
  split.
  - intros bandwidth mbps expected r. split; [reflexivity|]. split.
    + intros Hlen. subst r. rewrite validate_bandwidth_components. cbv zeta.
      destruct (Nat.eqb_spec (length (bandwidth_components bandwidth)) 1) as [H1|_];
        [lia|].
      destruct (Nat.ltb_spec 2 (length (bandwidth_components bandwidth)));
        [reflexivity | lia].
    + intros v u x Hcomps Hfloat.
      pose proof (validate_bandwidth_two bandwidth mbps v u x Hcomps Hfloat) as Hr.
      fold r in Hr. rewrite Hr. clear Hr. subst expected.
      repeat split.
      * intros -> -> ->. reflexivity.
      * intros -> -> ->. reflexivity.
      * intros -> ->. rewrite String.eqb_refl. destruct mbps; reflexivity.
      * intros Hm Hg. apply String.eqb_neq in Hm, Hg. rewrite Hm, Hg.
        rewrite andb_false_r. reflexivity.
  - intros bandwidth mbps v u x Hcomps Hfloat Hzero.
    rewrite (validate_bandwidth_two bandwidth mbps v u x Hcomps Hfloat), Hzero.
    reflexivity.
Qed.

End BandwidthProperties.

Lemma validate_bandwidth_conversion_witness :
  _validate_bandwidth Examples.float_of_digits (Some ["5 Gbps"]) true
    = Ok (Some 5000%float)
  /\ _validate_bandwidth Examples.float_of_digits (Some ["500"; "mbps"]) false
    = Ok (Some 0.5%float)
  /\ _validate_bandwidth Examples.float_of_digits (Some ["200"]) true
    = Ok (Some 200%float)
  /\ _validate_bandwidth Examples.float_of_digits (Some ["0"; "Gbps"]) true
    = Raise InvalidArgumentValueError.
Proof.
  destruct (validate_bandwidth_conversion Examples.float_of_digits) as [Hclaim Hzero].
  split; [|split; [|split]].
  - destruct (Hclaim ["5 Gbps"] true) as (_ & _ & Hconv).
    destruct (Hconv "5" "Gbps" 5%float) as (Hmul & _); [left; reflexivity | reflexivity |].
    apply Hmul; reflexivity.
  - destruct (Hclaim ["500"; "mbps"] false) as (_ & _ & Hconv).
    destruct (Hconv "500" "mbps" 500%float) as (_ & Hdiv & _);
      [left; reflexivity | reflexivity |].
    apply Hdiv; reflexivity.
  - destruct (Hclaim ["200"] true) as (_ & _ & Hconv).
    destruct (Hconv "200" "mbps" 200%float) as (_ & _ & Hsame & _);
      [right; split; reflexivity | reflexivity |].
    apply Hsame; reflexivity.
  - apply (Hzero ["0"; "Gbps"] true "0" "Gbps" 0%float);
      [left; reflexivity | reflexivity | reflexivity].
Defined.

(** C8, as stated, fails for the number zero: with the expected unit the
    claim has the number returned unchanged, the code raises
    [InvalidArgumentValueError]. *)
Lemma validate_bandwidth_zero :
  ~ bandwidth_claim Examples.float_of_digits (fun _ => True).
Proof.
  intros Hclaim.
  destruct (Hclaim ["0 Mbps"] true) as (_ & _ & Hconv).
  destruct (Hconv "0" "Mbps" 0%float) as (_ & _ & Hsame & _);
    [left; reflexivity | reflexivity |].
  specialize (Hsame I eq_refl). vm_compute in Hsame. discriminate Hsame.
Qed.

(** ** Adding a DNS record *)

Lemma record_exist_func_fields (record_type : string)
    (f : gmap string pyval -> list (gmap string pyval) -> result bool) :
  _record_exist_func record_type = Ok f ->
  f = check_record_exist (identifying_fields record_type).
Proof.
  unfold _record_exist_func, identifying_fields.
  repeat (destruct (String.eqb record_type _); [intros [= <-]; reflexivity|]).
  discriminate.
Qed.

Lemma record_exist_func_known (record_type : string) :
  In record_type list_record_types ->
  _record_exist_func record_type
  = Ok (check_record_exist (identifying_fields record_type))
  /\ exists record_property, _type_to_property_name record_type = Ok record_property.
Proof.
  unfold list_record_types. simpl.
  intros H. repeat (destruct H as [<-|H]; [split; [reflexivity | eexists; reflexivity]|]).
  contradiction.
Qed.

Lemma attribute_lookup (r : gmap string pyval) (f : string) (v : pyval) :
  r !! f = Some v -> attribute r f = Ok v.
Proof. intros H. unfold attribute. rewrite H. reflexivity. Qed.

Lemma py_eqb_refl (v : pyval) : py_eqb v v = true.
Proof. unfold py_eqb. apply bool_decide_eq_true_2. reflexivity. Qed.

Lemma fields_equal_same (fields : list string) (r record : gmap string pyval) :
  has_fields fields r -> same_identity fields r record ->
  fields_equal fields r record = Ok true.
Proof.
  unfold has_fields, same_identity.
  induction fields as [|f fields IH]; [reflexivity|].
  rewrite !Forall_cons. intros [[v Hv] Hrest] [Hsame Hsames]. simpl.
  rewrite (attribute_lookup r f v Hv).
  rewrite Hsame in Hv. rewrite (attribute_lookup record f v Hv).
  cbn [mbind result_bind]. rewrite py_eqb_refl. apply IH; assumption.
Qed.

Lemma fields_equal_total (fields : list string) (r record : gmap string pyval) :
  has_fields fields r -> has_fields fields record ->
  exists b, fields_equal fields r record = Ok b.
Proof.
  unfold has_fields.
  induction fields as [|f fields IH]; [eexists; reflexivity|].
  rewrite !Forall_cons. intros [[v Hv] Hr] [[w Hw] Hrecord]. simpl.
  rewrite (attribute_lookup r f v Hv), (attribute_lookup record f w Hw).
  cbn [mbind result_bind]. destruct (py_eqb v w); [apply IH; assumption|].
  eexists; reflexivity.
Qed.

Lemma same_identity_fields (fields : list string) (r record : gmap string pyval) :
  has_fields fields r -> same_identity fields r record -> has_fields fields record.
Proof.
  unfold has_fields, same_identity. rewrite !Forall_forall.
  intros Hr Hsame f Hf. rewrite <- (Hsame f Hf). apply Hr, Hf.
Qed.

Lemma same_identity_refl (fields : list string) (record : gmap string pyval) :
  same_identity fields record record.
Proof. unfold same_identity. apply Forall_forall. reflexivity. Qed.

(** A list of well-formed records that holds a record equal on the
    identifying fields passes the existence check. *)
Lemma check_record_exist_found (fields : list string) (record : gmap string pyval)
    (exist_list : list (gmap string pyval)) :
  Forall (has_fields fields) exist_list ->
  Exists (fun r => same_identity fields r record) exist_list ->
  check_record_exist fields record exist_list = Ok true.
Proof.
  intros Hwf Hex.
  assert (Hrecord : has_fields fields record).
  { apply Exists_exists in Hex as (r & Hin & Hsame).
    rewrite Forall_forall in Hwf. exact (same_identity_fields _ _ _ (Hwf r Hin) Hsame). }
  induction exist_list as [|r rest IH]; [inversion Hex|].
  apply Forall_cons in Hwf as [Hr Hrest]. simpl.
  destruct (fields_equal_total fields r record Hr Hrecord) as [b Hb].
  rewrite Hb. cbn [mbind result_bind]. destruct b; [reflexivity|].
  apply IH; [exact Hrest|].
  inversion Hex as [? ? Hsame | ? ? Hlater]; subst; [|exact Hlater].
  rewrite (fields_equal_same fields r record Hr Hsame) in Hb. discriminate Hb.
Qed.

(** Once a record has been appended the check finds it. *)
Lemma check_record_exist_appended (fields : list string) (record : gmap string pyval)
    (exist_list : list (gmap string pyval)) :
  has_fields fields record ->
  check_record_exist fields record exist_list = Ok false ->
  check_record_exist fields record (exist_list ++ [record]) = Ok true.
Proof.
  intros Hrecord. induction exist_list as [|r rest IH]; simpl.
  - intros _. rewrite (fields_equal_same fields record record Hrecord
                         (same_identity_refl fields record)).
    reflexivity.
  - destruct (fields_equal fields r record) as [[|]|e]; cbn [mbind result_bind];
      [discriminate | exact IH | discriminate].
Qed.

(** An instance of a model class has the attributes the existence check
    of its record type reads. *)
Lemma record_of_type_fields (record_type : string) (record : gmap string pyval) :
  record_of_type record_type record ->
  has_fields (identifying_fields record_type) record.
Proof.
  intros Htype. unfold has_fields.
  destruct Htype;
    match goal with
    | |- Forall _ (identifying_fields ?t) =>
        let fields := eval vm_compute in (identifying_fields t) in
        change (identifying_fields t) with fields
    end;
    repeat (constructor; [eexists; reflexivity|]); constructor.
Qed.

(** C9: a record set whose list holds a record equal to the given one on
    the identifying fields of the record type (the address of an A
    record, all of priority, weight, port and target of an SRV record,
    and so on) is left as it is by [_add_record]; and whatever the record
    set, a second [_add_record] of a record leaves the result of the
    first unchanged. *)
Theorem add_record_idempotent
    (record_set : gmap string rs_attr) (record : gmap string pyval) (record_type : string) :
  (forall record_property record_list,
     In record_type list_record_types ->
     _type_to_property_name record_type = Ok record_property ->
     record_set !! record_property = Some (RList record_list) ->
     Forall (has_fields (identifying_fields record_type)) record_list ->
     Exists (fun r => same_identity (identifying_fields record_type) r record) record_list ->
     _add_record record_set record record_type true = Ok record_set)
  /\ (forall is_list once,
        record_of_type record_type record ->
        _add_record record_set record record_type is_list = Ok once ->
        _add_record once record record_type is_list = Ok once).
Proof.
  split.
  - intros record_property record_list Hknown Hprop Hlist Hwf Hex.
    destruct (record_exist_func_known record_type Hknown) as [Hfunc _].
    unfold _add_record. rewrite Hprop. cbn [mbind result_bind].
    rewrite (getattr_lookup _ _ _ Hlist). cbn [mbind result_bind].
    rewrite Hfunc. cbn [mbind result_bind].
    rewrite (check_record_exist_found _ _ _ Hwf Hex). reflexivity.
  - intros is_list once Htype Hfirst.
    pose proof (record_of_type_fields record_type record Htype) as Hrecord.
    clear Htype. unfold _add_record in *.
    destruct (_type_to_property_name record_type) as [record_property|e];
      cbn [mbind result_bind] in *; [|discriminate].
    destruct is_list.
    + destruct (getattr record_set record_property) as [[| z | r | record_list]|e]
        eqn:Hattr;
        cbn [mbind result_bind] in *; try discriminate;
        destruct (_record_exist_func record_type) as [f|e] eqn:Hfunc;
        cbn [mbind result_bind] in *; try discriminate;
        apply record_exist_func_fields in Hfunc; subst f.
      * simpl in Hfirst. injection Hfirst as <-. unfold setattr.
        rewrite (getattr_lookup _ _ (RList ([] ++ [record])))
          by apply lookup_insert_eq.
        cbn [mbind result_bind].
        rewrite (check_record_exist_appended _ record [] Hrecord eq_refl).
        reflexivity.
      * destruct (check_record_exist _ record record_list) as [[|]|e] eqn:Hfound;
          cbn [mbind result_bind negb] in Hfirst; try discriminate;
          injection Hfirst as <-.
        -- rewrite Hattr. cbn [mbind result_bind]. rewrite Hfound. reflexivity.
        -- unfold setattr.
           rewrite (getattr_lookup _ _ (RList (record_list ++ [record])))
             by apply lookup_insert_eq.
           cbn [mbind result_bind].
           rewrite (check_record_exist_appended _ record record_list Hrecord Hfound).
           reflexivity.
    + injection Hfirst as <-. unfold setattr. rewrite insert_insert_eq. reflexivity.
Qed.

Lemma add_record_idempotent_witness :
  _add_record Examples.srv_record_set Examples.srv_record "srv" true
    = Ok Examples.srv_record_set
  /\ let once :=
       setattr (setattr (RecordSet 3600) "a_records" (RList []))
         "a_records" (RList [ARecord (VStr "10.0.0.4")]) in
     _add_record (RecordSet 3600) (ARecord (VStr "10.0.0.4")) "a" true = Ok once
     /\ _add_record once (ARecord (VStr "10.0.0.4")) "a" true = Ok once.
Proof.
  split.
  - destruct (add_record_idempotent Examples.srv_record_set Examples.srv_record "srv")
      as [Hkept _].
    apply (Hkept "srv_records" [Examples.srv_record]).
    + simpl. tauto.
    + reflexivity.
    + vm_compute. reflexivity.
    + constructor; [|constructor]. unfold has_fields.
      change (identifying_fields "srv") with ["priority"; "weight"; "port"; "target"].
      repeat (constructor; [eexists; vm_compute; reflexivity|]). constructor.
    + left. apply same_identity_refl.
  - intros once.
    assert (Hfirst : _add_record (RecordSet 3600) (ARecord (VStr "10.0.0.4")) "a" true
                     = Ok once) by (vm_compute; reflexivity).
    split; [exact Hfirst|].
    destruct (add_record_idempotent (RecordSet 3600) (ARecord (VStr "10.0.0.4")) "a")
      as [_ Hagain].
    apply (Hagain true once); [constructor | exact Hfirst].
Defined.

(** ** Chunks of a TXT record *)

Lemma length_slice_to (n : nat) (s : string) :
  (String.length (slice_to n s) <= n)%nat.
Proof.
  revert s. induction n as [|n IH]; intros [|a s]; simpl; try lia.
  specialize (IH s). lia.
Qed.

Lemma string_app_cons (a : ascii) (s1 s2 : string) :
  (String a s1 ++ s2)%string = String a (s1 ++ s2)%string.
Proof. reflexivity. Qed.

Lemma slice_to_from (n : nat) (s : string) :
  (slice_to n s ++ slice_from n s)%string = s.
Proof.
  revert s. induction n as [|n IH]; intros [|a s]; simpl; try reflexivity.
  rewrite string_app_cons, IH. reflexivity.
Qed.

Lemma string_app_nil_r (s : string) : (s ++ "")%string = s.
Proof.
  induction s as [|a s IH]; [reflexivity|]. rewrite string_app_cons, IH. reflexivity.
Qed.

Lemma string_app_assoc (s1 s2 s3 : string) :
  ((s1 ++ s2) ++ s3)%string = (s1 ++ (s2 ++ s3))%string.
Proof.
  induction s1 as [|a s1 IH]; [reflexivity|].
  rewrite !string_app_cons, IH. reflexivity.
Qed.

Lemma join_empty_app (l1 l2 : list string) :
  join_empty (l1 ++ l2) = (join_empty l1 ++ join_empty l2)%string.
Proof.
  induction l1 as [|x l1 IH]; simpl; [reflexivity|].
  rewrite IH, string_app_assoc. reflexivity.
Qed.

(** The loop appends chunks of at most 255 characters to [value] and
    leaves a rest of at most 255 characters; chunks and rest, in order,
    spell the text it started from. *)
Lemma split_long_text_chunks (long_text : string) (value : list string) :
  exists chunks rest,
    split_long_text long_text value = ((value ++ chunks)%list, rest)
    /\ Forall (fun c => (String.length c <= 255)%nat) chunks
    /\ (String.length rest <= 255)%nat
    /\ (join_empty chunks ++ rest)%string = long_text.
Proof.
  funelim (split_long_text long_text value).
  - match goal with
    | IH : exists chunks rest, split_long_text _ _ = _ /\ _ |- _ =>
        destruct IH as (chunks & rest & Hrun & Hshort & Hrest & Hjoin)
    end.
    exists (slice_to 255 long_text :: chunks), rest.
    split; [|split; [|split]].
    + rewrite Hrun, <- app_assoc. reflexivity.
    + constructor; [apply length_slice_to | exact Hshort].
    + exact Hrest.
    + cbn [join_empty fold_right]. fold (join_empty chunks).
      rewrite string_app_assoc, Hjoin. apply slice_to_from.
  - exists [], long_text. split; [|split; [|split]].
    + rewrite app_nil_r. reflexivity.
    + constructor.
    + apply Nat.ltb_ge. assumption.
    + reflexivity.
Qed.

(** C10: for every list of strings [add_dns_txt_record] passes its
    [assert] and hands to [_add_save_record] a TXT record whose value is
    a list of chunks of at most 255 characters each that, joined in
    order, spell the same text as the strings given. *)
Theorem add_dns_txt_record_chunks (ncf : RecordSetsOperations)
    (resource_group_name zone_name record_set_name : string) (value : list string)
    (if_none_match : bool) :
  exists chunks,
    txt_record_value value = Ok chunks
    /\ Forall (fun c => (String.length c <= 255)%nat) chunks
    /\ join_empty chunks = join_empty value
    /\ add_dns_txt_record ncf resource_group_name zone_name record_set_name value
         if_none_match
       = _add_save_record ncf (TxtRecord (VStrs chunks)) "txt" record_set_name
           resource_group_name zone_name true None if_none_match.
Proof.
  destruct (split_long_text_chunks (join_empty value) [])
    as (chunks & rest & Hrun & Hshort & Hrest & Hjoin).
  assert (Hvalue : txt_record_value value = Ok (chunks ++ [rest])%list).
  { unfold txt_record_value. rewrite Hrun. cbn [app].
    rewrite join_empty_app. cbn [join_empty fold_right].
    rewrite string_app_nil_r. fold (join_empty chunks). rewrite Hjoin.
    rewrite Nat.eqb_refl. reflexivity. }
  exists (chunks ++ [rest])%list. split; [exact Hvalue|]. split; [|split].
  - apply Forall_app. split; [exact Hshort|]. constructor; [exact Hrest | constructor].
  - rewrite join_empty_app. cbn [join_empty fold_right].
    rewrite string_app_nil_r. exact Hjoin.
  - unfold add_dns_txt_record. rewrite Hvalue. reflexivity.
Qed.

(** * Further properties of the handlers *)

Import Outcomes DnsHandlers.

(** ** Growth of a record list *)

Lemma type_to_property_name_not_ttl (record_type record_property : string) :
  _type_to_property_name record_type = Ok record_property -> record_property <> "ttl".
Proof.
  unfold _type_to_property_name, type_dict. generalize (lower record_type). intros key.
  cbn [assoc]. repeat (destruct (String.eqb _ key); [intros [= <-]; discriminate|]).
  discriminate.
Qed.

(** X1: [_add_record] on a list-typed record set touches the record
    list of the type and nothing else, and the list it leaves is the
    list it found (an empty one for [None]), or that list with the
    record appended at its end: nothing is dropped or reordered. *)
Theorem add_record_appends_at_most (record_set once : gmap string rs_attr)
    (record : gmap string pyval) (record_type : string) :
  _add_record record_set record record_type true = Ok once ->
  exists record_property record_list,
    _type_to_property_name record_type = Ok record_property
    /\ (record_set !! record_property = Some (RList record_list)
        \/ (record_set !! record_property = Some RNone /\ record_list = []))
    /\ (once !! record_property = Some (RList record_list)
        \/ once !! record_property = Some (RList (record_list ++ [record])))
    /\ forall other, other <> record_property -> once !! other = record_set !! other.
Proof.
  unfold _add_record.
  destruct (_type_to_property_name record_type) as [record_property|e];
    cbn [mbind result_bind]; [|discriminate].
  unfold getattr. destruct (record_set !! record_property) as [a|] eqn:Hattr;
    cbn [mbind result_bind]; [|discriminate].
  destruct a as [| z | r | record_list]; cbn [mbind result_bind]; try discriminate;
    destruct (_record_exist_func record_type) as [f|e]; cbn [mbind result_bind];
    try discriminate.
  - destruct (f record []) as [found|e]; cbn [mbind result_bind]; [|discriminate].
    intros Hrun. exists record_property, []. split; [reflexivity|].
    split; [right; split; [exact Hattr | reflexivity]|].
    destruct found; cbn [negb] in Hrun; injection Hrun as <-; unfold setattr.
    + split; [left; apply lookup_insert_eq|].
      intros other Hother. rewrite lookup_insert_ne by congruence. reflexivity.
    + split; [right; apply lookup_insert_eq|].
      intros other Hother. rewrite !lookup_insert_ne by congruence. reflexivity.
  - destruct (f record record_list) as [found|e]; cbn [mbind result_bind]; [|discriminate].
    intros Hrun. exists record_property, record_list. split; [reflexivity|].
    split; [left; exact Hattr|].
    destruct found; cbn [negb] in Hrun; injection Hrun as <-; unfold setattr.
    + split; [left; exact Hattr | reflexivity].
    + split; [right; apply lookup_insert_eq|].
      intros other Hother. rewrite lookup_insert_ne by congruence. reflexivity.
Qed.

Lemma add_record_appends_at_most_witness :
  exists record_property record_list,
    _type_to_property_name "a" = Ok record_property
    /\ (Examples.a_record_set !! record_property = Some (RList record_list)
        \/ (Examples.a_record_set !! record_property = Some RNone /\ record_list = []))
    /\ (setattr Examples.a_record_set "a_records"
          (RList [ARecord (VStr "10.0.0.21"); ARecord (VStr "10.0.0.4")])
          !! record_property = Some (RList record_list)
        \/ setattr Examples.a_record_set "a_records"
             (RList [ARecord (VStr "10.0.0.21"); ARecord (VStr "10.0.0.4")])
             !! record_property
           = Some (RList (record_list ++ [ARecord (VStr "10.0.0.4")])))
    /\ forall other, other <> record_property ->
         setattr Examples.a_record_set "a_records"
           (RList [ARecord (VStr "10.0.0.21"); ARecord (VStr "10.0.0.4")]) !! other
         = Examples.a_record_set !! other.
Proof.
  apply (add_record_appends_at_most Examples.a_record_set
           (setattr Examples.a_record_set "a_records"
              (RList [ARecord (VStr "10.0.0.21"); ARecord (VStr "10.0.0.4")]))
           (ARecord (VStr "10.0.0.4")) "a").
  reflexivity.
Defined.

(** ** A record set that does not exist yet *)

Lemma add_record_to_new_record_set (record_type : string) (record : gmap string pyval)
    (ttl : Z) :
  record_of_type record_type record ->
  exists record_property once,
    _type_to_property_name record_type = Ok record_property
    /\ _add_record (setattr (RecordSet 3600) "ttl" (RInt ttl)) record record_type true
       = Ok once
    /\ once !! record_property = Some (RList [record])
    /\ once !! "ttl" = Some (RInt ttl).
Proof.
  intros Htype.
  destruct Htype;
    (eexists; eexists; split; [reflexivity|]; split; [reflexivity|];
     split; reflexivity).
Qed.

(** X2: when the record set cannot be fetched because of an
    [HttpResponseError], [_add_save_record] starts from a fresh record
    set: what it submits holds the record alone and has the given ttl,
    3600 when none is given.  Any other error of the fetch is passed on. *)
Theorem add_save_record_new_record_set (ncf : RecordSetsOperations)
    (record : gmap string pyval)
    (record_type record_set_name resource_group_name zone_name : string)
    (ttl : option Z) (if_none_match : bool) :
  record_of_type record_type record ->
  (get ncf resource_group_name zone_name record_set_name record_type
   = Raise HttpResponseError ->
   exists record_property record_set,
     _type_to_property_name record_type = Ok record_property
     /\ _add_save_record ncf record record_type record_set_name resource_group_name
          zone_name true ttl if_none_match
        = Ok (create_or_update resource_group_name zone_name record_set_name record_type
                record_set (if if_none_match then Some "*" else None))
     /\ record_set !! record_property = Some (RList [record])
     /\ record_set !! "ttl" = Some (RInt (default 3600%Z ttl)))
  /\ (forall e, e <> HttpResponseError ->
        get ncf resource_group_name zone_name record_set_name record_type = Raise e ->
        _add_save_record ncf record record_type record_set_name resource_group_name
          zone_name true ttl if_none_match
        = Raise e).
Proof.
  intros Htype. split.
  - intros Hget.
    destruct (add_record_to_new_record_set record_type record (default 3600%Z ttl) Htype)
      as (record_property & once & Hprop & Hadd & Hlist & Httl).
    exists record_property, once. split; [exact Hprop|].
    split; [|split; assumption].
    unfold _add_save_record. rewrite Hget. cbn [mbind result_bind].
    assert (Hset : match ttl with
                   | Some t => setattr (RecordSet 3600) "ttl" (RInt t)
                   | None => RecordSet 3600
                   end = setattr (RecordSet 3600) "ttl" (RInt (default 3600%Z ttl))).
    { destruct ttl; [reflexivity|]. apply map_eq. intros k. unfold setattr.
      destruct (decide (k = "ttl")) as [->|Hk]; [reflexivity|].
      rewrite lookup_insert_ne by congruence. reflexivity. }
    rewrite Hset, Hadd. reflexivity.
  - intros e He Hget. unfold _add_save_record. rewrite Hget.
    destruct e; try reflexivity. contradiction.
Qed.

Lemma add_save_record_new_record_set_witness :
  exists record_property record_set,
    _type_to_property_name "a" = Ok record_property
    /\ _add_save_record Samples.dns_client_without (ARecord (VStr "10.0.0.4")) "a" "www"
         "rg" "contoso.com" true None false
       = Ok (create_or_update "rg" "contoso.com" "www" "a" record_set None)
    /\ record_set !! record_property = Some (RList [ARecord (VStr "10.0.0.4")])
    /\ record_set !! "ttl" = Some (RInt 3600).
Proof.
  destruct (add_save_record_new_record_set Samples.dns_client_without
              (ARecord (VStr "10.0.0.4")) "a" "www" "rg" "contoso.com" None false
              (a_record (VStr "10.0.0.4"))) as [Hnew _].
  exact (Hnew eq_refl).
Defined.

(** ** The ttl of a record set that exists *)

Lemma add_record_keeps_ttl (record_set once : gmap string rs_attr)
    (record : gmap string pyval) (record_type : string) (is_list : bool) :
  _add_record record_set record record_type is_list = Ok once ->
  once !! "ttl" = record_set !! "ttl".
Proof.
  unfold _add_record.
  destruct (_type_to_property_name record_type) as [record_property|e] eqn:Hprop;
    cbn [mbind result_bind]; [|discriminate].
  pose proof (type_to_property_name_not_ttl _ _ Hprop) as Hne.
  destruct is_list.
  - destruct (getattr record_set record_property) as [a|e]; cbn [mbind result_bind];
      [|discriminate].
    destruct a as [| z | r | record_list]; cbn [mbind result_bind]; try discriminate;
      destruct (_record_exist_func record_type) as [f|e]; cbn [mbind result_bind];
      try discriminate;
      match goal with
      | |- context [f record ?l] =>
          destruct (f record l) as [[|]|e]; cbn [mbind result_bind negb];
          try discriminate
      end;
      intros [= <-]; unfold setattr; rewrite ?lookup_insert_ne by exact Hne; reflexivity.
  - intros [= <-]. unfold setattr. rewrite lookup_insert_ne by exact Hne. reflexivity.
Qed.

Lemma add_save_record_ttl (ncf : RecordSetsOperations) (record : gmap string pyval)
    (record_type record_set_name resource_group_name zone_name : string)
    (is_list : bool) (ttl : option Z) (if_none_match : bool)
    (fetched submitted : gmap string rs_attr) (etag : option string) :
  get ncf resource_group_name zone_name record_set_name record_type = Ok fetched ->
  _add_save_record ncf record record_type record_set_name resource_group_name zone_name
    is_list ttl if_none_match
  = Ok (create_or_update resource_group_name zone_name record_set_name record_type
          submitted etag) ->
  submitted !! "ttl" = match ttl with
                       | Some t => Some (RInt t)
                       | None => fetched !! "ttl"
                       end.
Proof.
  intros Hget. unfold _add_save_record. rewrite Hget. cbn [mbind result_bind].
  destruct (_add_record _ record record_type is_list) as [once|e] eqn:Hadd;
    cbn [mbind result_bind]; [|discriminate].
  intros [= <- _]. rewrite (add_record_keeps_ttl _ _ _ _ _ Hadd).
  destruct ttl; [apply lookup_insert_eq | reflexivity].
Qed.

(** X3: on a record set that exists, [add_dns_a_record] submits it with
    the ttl it is given and keeps the fetched ttl only for a ttl of
    [None]; [add_dns_srv_record], which takes no ttl, always keeps the
    fetched one. *)
Theorem add_dns_record_ttl (ncf : RecordSetsOperations)
    (resource_group_name zone_name record_set_name : string)
    (fetched submitted : gmap string rs_attr) (etag : option string)
    (if_none_match : bool) :
  (forall ipv4_address ttl,
     get ncf resource_group_name zone_name record_set_name "a" = Ok fetched ->
     add_dns_a_record ncf resource_group_name zone_name record_set_name ipv4_address
       ttl if_none_match
     = Ok (create_or_update resource_group_name zone_name record_set_name "a"
             submitted etag) ->
     submitted !! "ttl" = match ttl with
                          | Some t => Some (RInt t)
                          | None => fetched !! "ttl"
                          end)
  /\ (forall priority weight port target,
        get ncf resource_group_name zone_name record_set_name "srv" = Ok fetched ->
        add_dns_srv_record ncf resource_group_name zone_name record_set_name
          priority weight port target if_none_match
        = Ok (create_or_update resource_group_name zone_name record_set_name "srv"
                submitted etag) ->
        submitted !! "ttl" = fetched !! "ttl").
Proof.
  split.
  - intros ipv4_address ttl Hget Hrun.
    exact (add_save_record_ttl _ _ _ _ _ _ _ _ _ _ _ _ Hget Hrun).
  - intros priority weight port target Hget Hrun.
    exact (add_save_record_ttl _ _ _ _ _ _ _ None _ _ _ _ Hget Hrun).
Qed.

Lemma add_dns_record_ttl_witness :
  setattr (setattr Examples.a_record_set "ttl" (RInt 60)) "a_records"
    (RList [ARecord (VStr "10.0.0.21"); ARecord (VStr "10.0.0.4")]) !! "ttl"
  = Some (RInt 60).
Proof.
  destruct (add_dns_record_ttl (Examples.dns_client_of Examples.a_record_set)
              "rg" "contoso.com" "www" Examples.a_record_set
              (setattr (setattr Examples.a_record_set "ttl" (RInt 60)) "a_records"
                 (RList [ARecord (VStr "10.0.0.21"); ARecord (VStr "10.0.0.4")]))
              None false) as [Ha _].
  apply (Ha (VStr "10.0.0.4") (Some 60%Z)).
  - reflexivity.
  - reflexivity.
Defined.

(** ** Matching of records *)

Lemma dict_matches_filter_forall (d filter_dict : gmap string pyval) :
  dict_matches_filter d filter_dict = true <->
  forall key v, filter_dict !! key = Some v -> key_matches d key v = true.
Proof.
  unfold dict_matches_filter. rewrite forallb_forall. split.
  - intros Hall key v Hkey.
    apply (Hall (key, v)). apply list_elem_of_In, elem_of_map_to_list. exact Hkey.
  - intros Hall [key v] Hin. apply list_elem_of_In, elem_of_map_to_list in Hin.
    exact (Hall key v Hin).
Qed.

Lemma key_matches_falsy (d : gmap string pyval) (key : string) (v : pyval) :
  truthy v = false -> key_matches d key v = true.
Proof. intros H. unfold key_matches. rewrite H. reflexivity. Qed.

Lemma key_matches_same (d : gmap string pyval) (key : string) (v : pyval) :
  d !! key = Some v -> key_matches d key v = true.
Proof.
  intros H. unfold key_matches. rewrite H, String.eqb_refl.
  rewrite orb_true_r. reflexivity.
Qed.

(** A record that carries every field of the filter matches it. *)
Lemma dict_matches_filter_included (d filter_dict : gmap string pyval) :
  (forall key v, filter_dict !! key = Some v -> d !! key = Some v) ->
  dict_matches_filter d filter_dict = true.
Proof.
  intros Hincl. apply dict_matches_filter_forall. intros key v Hkey.
  apply key_matches_same, Hincl, Hkey.
Qed.

Lemma filter_drops (f : gmap string pyval -> bool) (r : gmap string pyval)
    (l : list (gmap string pyval)) :
  f r = false -> ~ In r (List.filter f l).
Proof. intros Hr Hin. apply filter_In in Hin as [_ Hfr]. congruence. Qed.

(** What [_remove_record] does once some stored record matches. *)
Lemma remove_record_matching (ncf : RecordSetsOperations) (record : gmap string pyval)
    (record_type record_set_name resource_group_name zone_name record_property : string)
    (keep_empty_record_set : bool) (record_set : gmap string rs_attr)
    (record_list : list (gmap string pyval)) (stored : gmap string pyval) :
  get ncf resource_group_name zone_name record_set_name record_type = Ok record_set ->
  _type_to_property_name record_type = Ok record_property ->
  record_set !! record_property = Some (RList record_list) ->
  In stored record_list ->
  dict_matches_filter stored record = true ->
  exists keep_list,
    ~ In stored keep_list
    /\ (length keep_list < length record_list)%nat
    /\ _remove_record ncf record record_type record_set_name resource_group_name zone_name
         keep_empty_record_set true
       = if (length keep_list =? 0)%nat && negb keep_empty_record_set
         then Ok (delete resource_group_name zone_name record_set_name record_type)
         else Ok (create_or_update resource_group_name zone_name record_set_name
                    record_type (setattr record_set record_property (RList keep_list))
                    None).
Proof.
  intros Hget Hprop Hlist Hin Hmatch.
  exists (List.filter (fun r => negb (dict_matches_filter r record)) record_list).
  assert (Hall : forallb (fun r => negb (dict_matches_filter r record)) record_list = false).
  { apply not_true_is_false. intros Hall. rewrite forallb_forall in Hall.
    specialize (Hall stored Hin). rewrite Hmatch in Hall. discriminate Hall. }
  split; [|split].
  - apply filter_drops. rewrite Hmatch. reflexivity.
  - pose proof (List.filter_length_le (fun r => negb (dict_matches_filter r record))
                  record_list) as Hle.
    destruct (Nat.eq_dec
                (length (List.filter (fun r => negb (dict_matches_filter r record))
                           record_list))
                (length record_list)) as [Heq|Hne]; [|lia].
    apply filter_length_all in Heq. congruence.
  - rewrite (remove_record_flow ncf record record_type record_set_name resource_group_name
               zone_name record_property keep_empty_record_set record_set record_list
               Hget Hprop Hlist).
    cbv zeta. rewrite Hall. reflexivity.
Qed.



(** X5: the CNAME handler does not look at the [cname] it is given:
    whatever CNAME the record set holds, the record set is deleted, or
    resubmitted without a CNAME record when [keep_empty_record_set] is
    set. *)
Theorem remove_dns_cname_record_any_cname (ncf : RecordSetsOperations)
    (resource_group_name zone_name record_set_name : string) (cname : pyval)
    (keep_empty_record_set : bool) (record_set : gmap string rs_attr) :
  get ncf resource_group_name zone_name record_set_name "cname" = Ok record_set ->
  remove_dns_cname_record ncf resource_group_name zone_name record_set_name cname
    keep_empty_record_set
  = if keep_empty_record_set
    then Ok (create_or_update resource_group_name zone_name record_set_name "cname"
               (setattr record_set "cname_record" RNone) None)
    else Ok (delete resource_group_name zone_name record_set_name "cname").
Proof.
  intros Hget. unfold remove_dns_cname_record, _remove_record. rewrite Hget.
  cbn [mbind result_bind].
  change (_type_to_property_name "cname") with (Ok (A := string) "cname_record").
  cbn [mbind result_bind]. unfold setattr.
  rewrite (getattr_lookup _ _ RNone) by apply lookup_insert_eq.
  cbn [mbind result_bind]. destruct keep_empty_record_set; reflexivity.
Qed.

Lemma remove_dns_cname_record_any_cname_witness :
  remove_dns_cname_record (Examples.dns_client_of Samples.cname_record_set)
    "rg" "contoso.com" "www" (VStr "other.contoso.com") false
  = Ok (delete "rg" "contoso.com" "www" "cname").
Proof.
  exact (remove_dns_cname_record_any_cname
           (Examples.dns_client_of Samples.cname_record_set)
           "rg" "contoso.com" "www" (VStr "other.contoso.com") false
           Samples.cname_record_set eq_refl).
Defined.

(** X6: on a list-typed record set whose record list is [None] the
    search is skipped and [_remove_record] fails in [len] with a
    [TypeError], not with its "not found" error. *)
Theorem remove_record_list_none (ncf : RecordSetsOperations) (record : gmap string pyval)
    (record_type record_set_name resource_group_name zone_name record_property : string)
    (keep_empty_record_set : bool) (record_set : gmap string rs_attr) :
  get ncf resource_group_name zone_name record_set_name record_type = Ok record_set ->
  _type_to_property_name record_type = Ok record_property ->
  record_set !! record_property = Some RNone ->
  _remove_record ncf record record_type record_set_name resource_group_name zone_name
    keep_empty_record_set true
  = Raise TypeError.
Proof.
  intros Hget Hprop Hnone. unfold _remove_record. rewrite Hget.
  cbn [mbind result_bind]. rewrite Hprop. cbn [mbind result_bind].
  rewrite (getattr_lookup _ _ _ Hnone). cbn [mbind result_bind].
  rewrite (getattr_lookup _ _ _ Hnone). reflexivity.
Qed.

Lemma remove_record_list_none_witness :
  _remove_record (Examples.dns_client_of (RecordSet 3600)) (ARecord (VStr "10.0.0.4"))
    "a" "www" "rg" "contoso.com" false true
  = Raise TypeError.
Proof.
  apply (remove_record_list_none (Examples.dns_client_of (RecordSet 3600))
           (ARecord (VStr "10.0.0.4")) "a" "www" "rg" "contoso.com" "a_records" false
           (RecordSet 3600)).
  - reflexivity.
  - reflexivity.
  - reflexivity.
Defined.

Lemma mx_preference_zero_matches_any (preference : pyval) (exchange : pyval) :
  dict_matches_filter (MxRecord preference exchange) (MxRecord (VInt 0) exchange) = true.
Proof.
  apply dict_matches_filter_forall. intros key v. unfold MxRecord.
  rewrite lookup_insert_Some, lookup_singleton_Some.
  intros [[<- <-] | [Hne [<- <-]]].
  - apply key_matches_falsy. reflexivity.
  - apply key_matches_same. rewrite lookup_insert_ne by congruence.
    apply lookup_singleton_eq.
Qed.

(** X7: a zero preference is no criterion: [remove_dns_mx_record] with
    preference 0 drops a stored MX record of the given exchange
    whatever its preference. *)
Theorem remove_dns_mx_record_zero_preference (ncf : RecordSetsOperations)
    (resource_group_name zone_name record_set_name : string)
    (preference exchange : pyval) (keep_empty_record_set : bool)
    (record_set : gmap string rs_attr) (record_list : list (gmap string pyval)) :
  get ncf resource_group_name zone_name record_set_name "mx" = Ok record_set ->
  record_set !! "mx_records" = Some (RList record_list) ->
  In (MxRecord preference exchange) record_list ->
  exists keep_list,
    ~ In (MxRecord preference exchange) keep_list
    /\ (length keep_list < length record_list)%nat
    /\ remove_dns_mx_record ncf resource_group_name zone_name record_set_name 0 exchange
         keep_empty_record_set
       = if (length keep_list =? 0)%nat && negb keep_empty_record_set
         then Ok (delete resource_group_name zone_name record_set_name "mx")
         else Ok (create_or_update resource_group_name zone_name record_set_name "mx"
                    (setattr record_set "mx_records" (RList keep_list)) None).
Proof.
  intros Hget Hlist Hin.
  exact (remove_record_matching ncf (MxRecord (VInt 0) exchange) "mx" record_set_name
           resource_group_name zone_name "mx_records" keep_empty_record_set record_set
           record_list (MxRecord preference exchange) Hget eq_refl Hlist Hin
           (mx_preference_zero_matches_any preference exchange)).
Qed.

Lemma remove_dns_mx_record_zero_preference_witness :
  exists keep_list,
    ~ In (MxRecord (VInt 10) (VStr "mail.contoso.com")) keep_list
    /\ (length keep_list < 1)%nat
    /\ remove_dns_mx_record (Examples.dns_client_of Samples.mx_record_set)
         "rg" "contoso.com" "@" 0 (VStr "mail.contoso.com") true
       = if (length keep_list =? 0)%nat && negb true
         then Ok (delete "rg" "contoso.com" "@" "mx")
         else Ok (create_or_update "rg" "contoso.com" "@" "mx"
                    (setattr Samples.mx_record_set "mx_records" (RList keep_list)) None).
Proof.
  apply (remove_dns_mx_record_zero_preference
           (Examples.dns_client_of Samples.mx_record_set) "rg" "contoso.com" "@"
           (VInt 10) (VStr "mail.contoso.com") true Samples.mx_record_set
           [MxRecord (VInt 10) (VStr "mail.contoso.com")]).
  - reflexivity.
  - reflexivity.
  - left. reflexivity.
Defined.

(** ** TXT values as bags of strings *)

Lemma list_to_set_disj_eq_perm (l1 l2 : list string) :
  list_to_set_disj l1 =@{gmultiset string} list_to_set_disj l2 -> l1 ≡ₚ l2.
Proof.
  revert l2. induction l1 as [|x l1 IH]; intros l2 Heq.
  - destruct l2 as [|y l2]; [reflexivity|].
    rewrite list_to_set_disj_nil, list_to_set_disj_cons in Heq.
    assert (Hy : y ∈@{gmultiset string} ∅) by (rewrite Heq; multiset_solver).
    multiset_solver.
  - assert (Hx : x ∈ l2).
    { apply (elem_of_list_to_set_disj (A := string)). rewrite <- Heq.
      rewrite list_to_set_disj_cons. multiset_solver. }
    apply elem_of_Permutation in Hx as [l2' Hl2].
    rewrite Hl2. constructor. apply IH.
    rewrite Hl2, !list_to_set_disj_cons in Heq. multiset_solver.
Qed.

Lemma txt_record_rearranged_matches (l1 l2 : list string) :
  l1 ≡ₚ l2 ->
  dict_matches_filter (TxtRecord (VStrs l2)) (TxtRecord (VStrs l1)) = true.
Proof.
  intros Hperm. apply dict_matches_filter_forall. intros key v. unfold TxtRecord.
  rewrite lookup_singleton_Some. intros [<- <-].
  unfold key_matches. rewrite lookup_singleton_eq.
  change (default (VStrs []) (Some (VStrs l2))) with (VStrs l2).
  assert (Hmatch : lists_match (VStrs l1) (VStrs l2) = true).
  { unfold lists_match, Counter. rewrite bool_decide_eq_true, Hperm. reflexivity. }
  rewrite Hmatch. apply orb_true_r.
Qed.

(** X8: [lists_match] on two lists of strings holds exactly when one is
    a rearrangement of the other; so [remove_dns_txt_record] removes a
    stored TXT record whose strings are those given in another order. *)
Theorem remove_dns_txt_record_rearranged (l1 l2 : list string) :
  (lists_match (VStrs l1) (VStrs l2) = true <-> l1 ≡ₚ l2)
  /\ (l1 ≡ₚ l2 ->
      forall (ncf : RecordSetsOperations)
             (resource_group_name zone_name record_set_name : string)
             (keep_empty_record_set : bool) (record_set : gmap string rs_attr)
             (record_list : list (gmap string pyval)),
        get ncf resource_group_name zone_name record_set_name "txt" = Ok record_set ->
        record_set !! "txt_records" = Some (RList record_list) ->
        In (TxtRecord (VStrs l2)) record_list ->
        exists keep_list,
          ~ In (TxtRecord (VStrs l2)) keep_list
          /\ (length keep_list < length record_list)%nat
          /\ remove_dns_txt_record ncf resource_group_name zone_name record_set_name l1
               keep_empty_record_set
             = if (length keep_list =? 0)%nat && negb keep_empty_record_set
               then Ok (delete resource_group_name zone_name record_set_name "txt")
               else Ok (create_or_update resource_group_name zone_name record_set_name "txt"
                          (setattr record_set "txt_records" (RList keep_list)) None)).
Proof.
  split.
  - unfold lists_match, Counter. rewrite bool_decide_eq_true. split.
    + apply list_to_set_disj_eq_perm.
    + intros Hperm. rewrite Hperm. reflexivity.
  - intros Hperm ncf resource_group_name zone_name record_set_name keep_empty_record_set
      record_set record_list Hget Hlist Hin.
    exact (remove_record_matching ncf (TxtRecord (VStrs l1)) "txt" record_set_name
             resource_group_name zone_name "txt_records" keep_empty_record_set record_set
             record_list (TxtRecord (VStrs l2)) Hget eq_refl Hlist Hin
             (txt_record_rearranged_matches l1 l2 Hperm)).
Qed.

Lemma remove_dns_txt_record_rearranged_witness :
  remove_dns_txt_record
    (Examples.dns_client_of
       (setattr (RecordSet 3600) "txt_records"
          (RList [TxtRecord (VStrs ["v=spf1"; "include:contoso.com"])])))
    "rg" "contoso.com" "@" ["include:contoso.com"; "v=spf1"] false
  = Ok (delete "rg" "contoso.com" "@" "txt").
Proof.
  destruct (remove_dns_txt_record_rearranged ["include:contoso.com"; "v=spf1"]
              ["v=spf1"; "include:contoso.com"]) as [_ Hremove].
  destruct (Hremove (perm_swap _ _ _)
              (Examples.dns_client_of
                 (setattr (RecordSet 3600) "txt_records"
                    (RList [TxtRecord (VStrs ["v=spf1"; "include:contoso.com"])])))
              "rg" "contoso.com" "@" false
              (setattr (RecordSet 3600) "txt_records"
                 (RList [TxtRecord (VStrs ["v=spf1"; "include:contoso.com"])]))
              [TxtRecord (VStrs ["v=spf1"; "include:contoso.com"])]
              eq_refl eq_refl (or_introl eq_refl))
    as (keep_list & _ & Hlen & Hrun).
  destruct keep_list as [|r keep_list]; [exact Hrun|].
  cbn [length] in Hlen. lia.
Defined.

(** ** Removing what was added *)

Lemma fields_equal_true_inv (fields : list string) (r record : gmap string pyval) :
  fields_equal fields r record = Ok true ->
  forall f, In f fields -> exists v, r !! f = Some v /\ record !! f = Some v.
Proof.
  induction fields as [|f0 fields IH]; [intros _ f []|].
  cbn [fields_equal]. unfold attribute.
  destruct (r !! f0) as [a|] eqn:Ha; cbn [mbind result_bind]; [|discriminate].
  destruct (record !! f0) as [b|] eqn:Hb; cbn [mbind result_bind]; [|discriminate].
  unfold py_eqb. destruct (bool_decide_reflect (a = b)) as [<-|Hne]; [|discriminate].
  intros Hrest f [<-|Hin]; [exists a; split; assumption|].
  exact (IH Hrest f Hin).
Qed.

Lemma check_record_exist_true_inv (fields : list string) (record : gmap string pyval)
    (exist_list : list (gmap string pyval)) :
  check_record_exist fields record exist_list = Ok true ->
  exists r, In r exist_list /\ fields_equal fields r record = Ok true.
Proof.
  induction exist_list as [|r rest IH]; [discriminate|].
  cbn [check_record_exist].
  destruct (fields_equal fields r record) as [[|]|e] eqn:Hsame; cbn [mbind result_bind];
    [|intros Hrest|discriminate].
  - intros _. exists r. split; [left; reflexivity | exact Hsame].
  - destruct (IH Hrest) as (r' & Hin & Hr'). exists r'. split; [right; exact Hin | exact Hr'].
Qed.

Lemma record_of_type_keys (record_type : string) (record : gmap string pyval) :
  record_of_type record_type record ->
  forall key v, record !! key = Some v -> In key (identifying_fields record_type).
Proof.
  intros Htype key v.
  destruct Htype;
    match goal with
    | |- _ -> In _ (identifying_fields ?t) =>
        let fields := eval vm_compute in (identifying_fields t) in
        change (identifying_fields t) with fields
    end;
    unfold ARecord, AaaaRecord, CaaRecord, CnameRecord, MxRecord, NsRecord, PtrRecord,
      SrvRecord, TxtRecord;
    rewrite ?lookup_insert_Some, lookup_singleton_Some; cbn [In]; intuition.
Qed.

(** After [_add_record] the list holds a record that has the identifying
    fields of the given one. *)
Lemma add_record_holds_equal (record_set once : gmap string rs_attr)
    (record : gmap string pyval) (record_type : string) :
  record_of_type record_type record ->
  _add_record record_set record record_type true = Ok once ->
  exists record_property record_list stored,
    _type_to_property_name record_type = Ok record_property
    /\ once !! record_property = Some (RList record_list)
    /\ In stored record_list
    /\ dict_matches_filter stored record = true.
Proof.
  intros Htype.
  assert (Hself : dict_matches_filter record record = true)
    by (apply dict_matches_filter_included; auto).
  unfold _add_record.
  destruct (_type_to_property_name record_type) as [record_property|e];
    cbn [mbind result_bind]; [|discriminate].
  unfold getattr. destruct (record_set !! record_property) as [a|] eqn:Hattr;
    cbn [mbind result_bind]; [|discriminate].
  destruct a as [| z | r | record_list]; cbn [mbind result_bind]; try discriminate;
    destruct (_record_exist_func record_type) as [f|e] eqn:Hfunc;
    cbn [mbind result_bind]; try discriminate;
    apply record_exist_func_fields in Hfunc; subst f.
  - cbn [check_record_exist mbind result_bind negb]. intros [= <-].
    exists record_property, [record], record. unfold setattr.
    split; [reflexivity|]. split; [apply lookup_insert_eq|].
    split; [left; reflexivity | exact Hself].
  - destruct (check_record_exist _ record record_list) as [[|]|e] eqn:Hfound;
      cbn [mbind result_bind negb]; try discriminate; intros [= <-].
    + apply check_record_exist_true_inv in Hfound as (stored & Hin & Hsame).
      exists record_property, record_list, stored.
      split; [reflexivity|]. split; [exact Hattr|]. split; [exact Hin|].
      apply dict_matches_filter_included. intros key v Hkey.
      destruct (fields_equal_true_inv _ _ _ Hsame key
                  (record_of_type_keys _ _ Htype key v Hkey)) as (w & Hstored & Hrecord).
      congruence.
    + exists record_property, (record_list ++ [record])%list, record. unfold setattr.
      split; [reflexivity|]. split; [apply lookup_insert_eq|].
      split; [apply in_or_app; right; left; reflexivity | exact Hself].
Qed.

(** X9: removing a record from the record set that adding it has
    submitted never fails with "not found": the removal shortens the
    record list, and deletes the record set or resubmits it. *)
Theorem remove_after_add_finds_record (ncf : RecordSetsOperations)
    (record : gmap string pyval)
    (record_type record_set_name resource_group_name zone_name : string)
    (ttl : option Z) (if_none_match keep_empty_record_set : bool)
    (submitted : gmap string rs_attr) (etag : option string) :
  record_of_type record_type record ->
  _add_save_record ncf record record_type record_set_name resource_group_name zone_name
    true ttl if_none_match
  = Ok (create_or_update resource_group_name zone_name record_set_name record_type
          submitted etag) ->
  exists record_property record_list keep_list,
    submitted !! record_property = Some (RList record_list)
    /\ (length keep_list < length record_list)%nat
    /\ _remove_record {| get := fun _ _ _ _ => Ok submitted |} record record_type
         record_set_name resource_group_name zone_name keep_empty_record_set true
       = if (length keep_list =? 0)%nat && negb keep_empty_record_set
         then Ok (delete resource_group_name zone_name record_set_name record_type)
         else Ok (create_or_update resource_group_name zone_name record_set_name
                    record_type (setattr submitted record_property (RList keep_list))
                    None).
Proof.
  intros Htype. unfold _add_save_record.
  destruct (match get ncf resource_group_name zone_name record_set_name record_type with
            | Raise HttpResponseError => Ok (RecordSet 3600)
            | r => r
            end) as [fetched|e]; cbn [mbind result_bind]; [|discriminate].
  destruct (_add_record _ record record_type true) as [once|e] eqn:Hadd;
    cbn [mbind result_bind]; [|discriminate].
  intros [= <- _].
  destruct (add_record_holds_equal _ _ _ _ Htype Hadd)
    as (record_property & record_list & stored & Hprop & Hlist & Hin & Hmatch).
  destruct (remove_record_matching {| get := fun _ _ _ _ => Ok once |} record record_type
              record_set_name resource_group_name zone_name record_property
              keep_empty_record_set once record_list stored eq_refl Hprop Hlist Hin Hmatch)
    as (keep_list & _ & Hlen & Hrun).
  exists record_property, record_list, keep_list. repeat split; assumption.
Qed.

Lemma remove_after_add_finds_record_witness :
  let submitted :=
    setattr Examples.a_record_set "a_records"
      (RList [ARecord (VStr "10.0.0.21"); ARecord (VStr "10.0.0.4")]) in
  exists record_property record_list keep_list,
    submitted !! record_property = Some (RList record_list)
    /\ (length keep_list < length record_list)%nat
    /\ _remove_record {| get := fun _ _ _ _ => Ok submitted |} (ARecord (VStr "10.0.0.4"))
         "a" "www" "rg" "contoso.com" false true
       = if (length keep_list =? 0)%nat && negb false
         then Ok (delete "rg" "contoso.com" "www" "a")
         else Ok (create_or_update "rg" "contoso.com" "www" "a"
                    (setattr submitted record_property (RList keep_list)) None).
Proof.
  intros submitted.
  apply (remove_after_add_finds_record (Examples.dns_client_of Examples.a_record_set)
           (ARecord (VStr "10.0.0.4")) "a" "www" "rg" "contoso.com" None false false
           submitted None).
  - constructor.
  - reflexivity.
Defined.

(** ** Full chunks of a TXT record *)

Lemma length_slice_to_full (n : nat) (s : string) :
  (n <= String.length s)%nat -> String.length (slice_to n s) = n.
Proof.
  revert s. induction n as [|n IH]; intros [|a s]; simpl; intros H; try lia.
  rewrite IH; lia.
Qed.

Lemma length_slice_from (n : nat) (s : string) :
  (n <= String.length s)%nat ->
  String.length (slice_from n s) = (String.length s - n)%nat.
Proof.
  revert s. induction n as [|n IH]; intros [|a s]; simpl; intros H; try lia.
  rewrite IH; lia.
Qed.

Lemma split_long_text_full_chunks (long_text : string) (value : list string) :
  exists chunks rest,
    split_long_text long_text value = ((value ++ chunks)%list, rest)
    /\ Forall (fun c => String.length c = 255%nat) chunks
    /\ (String.length rest <= 255)%nat
    /\ String.length long_text = (255 * length chunks + String.length rest)%nat
    /\ ((String.length long_text <= 255)%nat -> chunks = [] /\ rest = long_text)
    /\ (chunks <> [] -> (0 < String.length rest)%nat).
Proof.
  funelim (split_long_text long_text value).
  - match goal with
    | IH : exists chunks rest, split_long_text _ _ = _ /\ _ |- _ =>
        destruct IH as (chunks & rest & Hrun & Hfull & Hrest & Hsum & _ & Hlast)
    end.
    match goal with
    | H : (255 <? String.length long_text)%nat = true |- _ =>
        pose proof (proj1 (Nat.ltb_lt _ _) H) as Hlong
    end.
    rewrite length_slice_from in Hsum by lia.
    exists (slice_to 255 long_text :: chunks), rest.
    split; [|split; [|split; [|split; [|split]]]].
    + rewrite Hrun, <- app_assoc. reflexivity.
    + constructor; [apply length_slice_to_full; lia | exact Hfull].
    + exact Hrest.
    + cbn [length]. lia.
    + intros Hshort. lia.
    + intros _. destruct chunks as [|c chunks'].
      * cbn [length] in Hsum. lia.
      * apply Hlast. discriminate.
  - match goal with
    | H : (255 <? String.length long_text)%nat = false |- _ =>
        pose proof (proj1 (Nat.ltb_ge _ _) H) as Hshort
    end.
    exists [], long_text. split; [|split; [|split; [|split; [|split]]]].
    + rewrite app_nil_r. reflexivity.
    + constructor.
    + exact Hshort.
    + cbn [length]. lia.
    + intros _. split; reflexivity.
    + intros Hne. contradiction.
Qed.

(** X10: [add_dns_txt_record] rewrites the value into full chunks of
    exactly 255 characters followed by one last string of at most 255;
    a value of at most 255 characters in all becomes that single text,
    and after a full chunk the last string is not empty. *)
Theorem txt_record_value_full_chunks (value : list string) :
  exists full last,
    txt_record_value value = Ok (full ++ [last])%list
    /\ Forall (fun c => String.length c = 255%nat) full
    /\ (String.length last <= 255)%nat
    /\ String.length (join_empty value) = (255 * length full + String.length last)%nat
    /\ ((String.length (join_empty value) <= 255)%nat ->
        full = [] /\ last = join_empty value)
    /\ (full <> [] -> (0 < String.length last)%nat).
Proof.
  destruct (split_long_text_full_chunks (join_empty value) [])
    as (full & last & Hrun & Hfull & Hlast & Hsum & Hshort & Hne).
  destruct (split_long_text_chunks (join_empty value) [])
    as (chunks & rest & Hrun' & _ & _ & Hjoin).
  rewrite Hrun in Hrun'. injection Hrun' as <- <-.
  exists full, last.
  split; [|split; [exact Hfull|split; [exact Hlast|split; [exact Hsum|split; assumption]]]].
  unfold txt_record_value. rewrite Hrun. cbn [app].
  rewrite join_empty_app. cbn [join_empty fold_right].
  rewrite string_app_nil_r. fold (join_empty full). rewrite Hjoin.
  rewrite Nat.eqb_refl. reflexivity.
Qed.

Lemma txt_record_value_full_chunks_witness :
  txt_record_value ["v=spf1 "; "-all"] = Ok ["v=spf1 -all"].
Proof.
  destruct (txt_record_value_full_chunks ["v=spf1 "; "-all"])
    as (full & last & Hrun & _ & _ & _ & Hshort & _).
  destruct Hshort as [-> ->]; [vm_compute; lia|].
  exact Hrun.
Defined.

(** ** Fields of the SOA record *)

Lemma keep_or_set_value (field : string) (arg : pyval) (record stored : gmap string pyval) :
  record !! field = stored !! field ->
  (truthy arg = false -> is_Some (stored !! field)) ->
  keep_or_set field arg record
  = Ok (<[field := if truthy arg then arg else default VNone (stored !! field)]> record).
Proof.
  intros Hsame Hstored. unfold keep_or_set, or_attribute, attribute.
  destruct (truthy arg); [reflexivity|].
  rewrite Hsame. destruct (Hstored eq_refl) as [v ->]. reflexivity.
Qed.

(** X11: [update_dns_soa_record] overwrites exactly the fields whose
    argument is truthy: an argument that is [None], zero or empty
    leaves the stored value, so no field can be set to zero or to the
    empty string; the other attributes of the record are kept. *)
Theorem update_dns_soa_record_fields (ncf : RecordSetsOperations)
    (resource_group_name zone_name : string)
    (host email serial_number refresh_time retry_time expire_time minimum_ttl : pyval)
    (if_none_match : bool) (record_set : gmap string rs_attr)
    (stored : gmap string pyval) :
  let arguments := soa_arguments host email serial_number refresh_time retry_time
                     expire_time minimum_ttl in
  get ncf resource_group_name zone_name "@" "soa" = Ok record_set ->
  record_set !! "soa_record" = Some (ROne stored) ->
  (forall field arg, In (field, arg) arguments -> truthy arg = false ->
     is_Some (stored !! field)) ->
  exists record,
    update_dns_soa_record ncf resource_group_name zone_name host email serial_number
      refresh_time retry_time expire_time minimum_ttl if_none_match
    = Ok (create_or_update resource_group_name zone_name "@" "soa"
            (setattr record_set "soa_record" (ROne record))
            (if if_none_match then Some "*" else None))
    /\ (forall field arg, In (field, arg) arguments ->
          record !! field = if truthy arg then Some arg else stored !! field)
    /\ (forall other, (forall arg, ~ In (other, arg) arguments) ->
          record !! other = stored !! other).
Proof.
  intros arguments Hget Hsoa Hstored.
  set (value := fun field arg =>
                  if truthy arg then arg else default VNone (stored !! field)).
  exists (<["minimum_ttl" := value "minimum_ttl" minimum_ttl]>
         (<["expire_time" := value "expire_time" expire_time]>
         (<["retry_time" := value "retry_time" retry_time]>
         (<["refresh_time" := value "refresh_time" refresh_time]>
         (<["serial_number" := value "serial_number" serial_number]>
         (<["email" := value "email" email]>
         (<["host" := value "host" host]> stored))))))).
  split; [|split].
  - unfold update_dns_soa_record. rewrite Hget. cbn [mbind result_bind].
    rewrite (getattr_lookup _ _ _ Hsoa). cbn [mbind result_bind].
    repeat (rewrite (keep_or_set_value _ _ _ stored);
            [ cbn [mbind result_bind]
            | rewrite ?lookup_insert_ne by discriminate; reflexivity
            | apply Hstored; unfold arguments, soa_arguments; cbn [In]; tauto ]).
    unfold _add_save_record. rewrite Hget. reflexivity.
  - intros field arg Hin. unfold arguments, soa_arguments in Hin. cbn [In] in Hin.
    assert (Hvalue : Some (value field arg)
                     = if truthy arg then Some arg else stored !! field).
    { unfold value. destruct (truthy arg) eqn:Harg; [reflexivity|].
      destruct (Hstored field arg) as [v Hv];
        [unfold arguments, soa_arguments; cbn [In]; tauto | exact Harg |].
      rewrite Hv. reflexivity. }
    rewrite <- Hvalue.
    repeat (destruct Hin as [[= <- <-]|Hin];
            [rewrite ?lookup_insert_ne by discriminate; apply lookup_insert_eq|]).
    contradiction.
  - intros other Hother.
    assert (Hne : forall field arg, In (field, arg) arguments -> field <> other).
    { intros field arg Hin ->. exact (Hother arg Hin). }
    unfold arguments, soa_arguments in Hne.
    rewrite !lookup_insert_ne; [reflexivity|..];
      eapply Hne; cbn [In]; eauto 10.
Qed.

Lemma update_dns_soa_record_fields_witness :
  exists record,
    update_dns_soa_record (Examples.dns_client_of Samples.soa_record_set)
      "rg" "contoso.com" (VStr "ns1.contoso.com") VNone VNone VNone VNone VNone (VInt 0)
      false
    = Ok (create_or_update "rg" "contoso.com" "@" "soa"
            (setattr Samples.soa_record_set "soa_record" (ROne record)) None)
    /\ record !! "host" = Some (VStr "ns1.contoso.com")
    /\ record !! "minimum_ttl" = Some (VInt 300).
Proof.
  destruct (update_dns_soa_record_fields (Examples.dns_client_of Samples.soa_record_set)
              "rg" "contoso.com" (VStr "ns1.contoso.com") VNone VNone VNone VNone VNone
              (VInt 0) false Samples.soa_record_set Samples.soa_record)
    as (record & Hrun & Hfields & _).
  - reflexivity.
  - reflexivity.
  - intros field arg Hin _. cbn [soa_arguments In] in Hin.
    repeat (destruct Hin as [[= <- <-]|Hin]; [eexists; reflexivity|]).
    contradiction.
  - exists record. split; [exact Hrun|]. split.
    + apply (Hfields "host" (VStr "ns1.contoso.com")). left. reflexivity.
    + apply (Hfields "minimum_ttl" (VInt 0)). cbn [soa_arguments In]. tauto.
Defined.

(** ** Adding a managed rule set *)

Section AddRuleSet.

Import WafAdd.

Variables rule_set_type_arg rule_set_version_arg : string.
Variable rule_group_name_arg : option string.
Variable rules_arg : option (list string).

Lemma groups_kept_refl (overrides : list RuleGroupOverride) :
  groups_kept overrides overrides.
Proof.
  unfold groups_kept. rewrite firstn_all.
  induction overrides as [|g rest IH]; constructor; [split; reflexivity | exact IH].
Qed.

Lemma groups_kept_app (overrides more : list RuleGroupOverride) :
  groups_kept overrides (overrides ++ more).
Proof.
  unfold groups_kept. rewrite take_app_length.
  pose proof (groups_kept_refl overrides) as H. unfold groups_kept in H.
  rewrite firstn_all in H. exact H.
Qed.

Lemma extend_rule_group_kept (overrides overrides' : list RuleGroupOverride) :
  extend_rule_group rule_group_name_arg rules_arg overrides = Some overrides' ->
  groups_kept overrides overrides'.
Proof.
  revert overrides'. induction overrides as [|g rest IH]; [discriminate|].
  intros overrides'. cbn [extend_rule_group].
  destruct (group_named rule_group_name_arg g).
  - intros [= <-]. unfold groups_kept. cbn [length take]. constructor.
    + split; [reflexivity|]. cbn [rules]. apply prefix_app_r. reflexivity.
    + pose proof (groups_kept_refl rest) as H. exact H.
  - destruct (extend_rule_group rule_group_name_arg rules_arg rest) as [rest'|];
      [|discriminate].
    intros [= <-]. unfold groups_kept. cbn [length take]. constructor.
    + split; reflexivity.
    + apply IH. reflexivity.
Qed.

Lemma add_to_rule_set_kept (rule_set : ManagedRuleSet) :
  groups_kept (rule_group_overrides rule_set)
    (rule_group_overrides
       (add_to_rule_set rule_group_name_arg rules_arg rule_set)).
Proof.
  unfold add_to_rule_set. cbn [rule_group_overrides].
  destruct (extend_rule_group _ _ _) as [overrides'|] eqn:Hext.
  - exact (extend_rule_group_kept _ _ Hext).
  - destruct (rule_group_override rule_group_name_arg rules_arg);
      [apply groups_kept_app | apply groups_kept_refl].
Qed.

(** Where the outer loop stops, if it does. *)
Lemma add_to_rule_sets_break (rule_sets : list ManagedRuleSet) :
  add_to_rule_sets rule_set_type_arg rule_set_version_arg rule_group_name_arg rules_arg
    rule_sets
  = match List.find (same_rule_set rule_set_type_arg rule_set_version_arg) rule_sets with
    | None => None
    | Some _ =>
        Some (pre_instance_update rule_set_type_arg rule_set_version_arg
                rule_group_name_arg rules_arg rule_sets)
    end.
Proof.
  unfold pre_instance_update.
  induction rule_sets as [|rule_set rest IH]; [reflexivity|].
  cbn [add_to_rule_sets List.find]. unfold same_rule_set at 1.
  destruct (String.eqb (rule_set_type rule_set) rule_set_type_arg
            && String.eqb (rule_set_version rule_set) rule_set_version_arg);
    [reflexivity|].
  rewrite IH.
  destruct (List.find (same_rule_set rule_set_type_arg rule_set_version_arg) rest);
    [|reflexivity].
  destruct (add_to_rule_sets _ _ _ _ rest); reflexivity.
Qed.

(** X12: adding never loses anything: every rule set of the policy is
    still there at its place with its type and version, every rule
    group of it under its name, every rule of a group at the front of
    the rules the group has now; one rule set is appended exactly when
    none had both the type and the version. *)
Theorem add_waf_managed_rule_set_keeps (managed_rule_sets : list ManagedRuleSet) :
  let updated := add_waf_managed_rule_set managed_rule_sets rule_set_type_arg
                   rule_set_version_arg rule_group_name_arg rules_arg in
  Forall2 (fun rule_set rule_set' =>
             rule_set_key rule_set' = rule_set_key rule_set
             /\ groups_kept (rule_group_overrides rule_set)
                  (rule_group_overrides rule_set'))
    managed_rule_sets (take (length managed_rule_sets) updated)
  /\ drop (length managed_rule_sets) updated
     = if existsb (same_rule_set rule_set_type_arg rule_set_version_arg) managed_rule_sets
       then []
       else [new_managed_rule_set rule_set_type_arg rule_set_version_arg
               rule_group_name_arg rules_arg].
Proof.
  cbv zeta. unfold add_waf_managed_rule_set, pre_instance_update.
  assert (Hrefl : forall l : list ManagedRuleSet,
            Forall2 (fun rule_set rule_set' =>
                       rule_set_key rule_set' = rule_set_key rule_set
                       /\ groups_kept (rule_group_overrides rule_set)
                            (rule_group_overrides rule_set')) l l).
  { induction l; constructor; [split; [reflexivity | apply groups_kept_refl] | assumption]. }
  induction managed_rule_sets as [|rule_set rest IH].
  - split; [constructor | reflexivity].
  - cbn [add_to_rule_sets existsb].
    fold (same_rule_set rule_set_type_arg rule_set_version_arg rule_set).
    destruct (same_rule_set rule_set_type_arg rule_set_version_arg rule_set) eqn:Hsame.
    + cbn [length take drop orb]. split.
      * constructor; [split; [reflexivity | apply add_to_rule_set_kept]|].
        rewrite firstn_all. apply Hrefl.
      * apply drop_all.
    + cbn [orb]. destruct IH as [IHkept IHnew].
      destruct (add_to_rule_sets _ _ _ _ rest) as [rest'|];
        cbn [length take drop app]; (split; [constructor;
          [split; [reflexivity | apply groups_kept_refl] | exact IHkept] | exact IHnew]).
Qed.

End AddRuleSet.

Lemma add_waf_managed_rule_set_fresh (managed_rule_sets : list ManagedRuleSet)
    (rule_set_type_arg rule_set_version_arg : string) (rule_group_name_arg : option string)
    (rules_arg : option (list string)) :
  List.find (same_rule_set rule_set_type_arg rule_set_version_arg) managed_rule_sets = None ->
  WafAdd.add_waf_managed_rule_set managed_rule_sets rule_set_type_arg rule_set_version_arg
    rule_group_name_arg rules_arg
  = (managed_rule_sets
       ++ [WafAdd.new_managed_rule_set rule_set_type_arg rule_set_version_arg
             rule_group_name_arg rules_arg])%list.
Proof.
  intros Hfresh. unfold WafAdd.add_waf_managed_rule_set, WafAdd.pre_instance_update.
  rewrite add_to_rule_sets_break, Hfresh. reflexivity.
Qed.

(** X13: adding a rule set and removing it again gives the policy
    back, provided no rule set of the policy has the type or the
    version: removal takes the first rule set that has either. *)
Theorem remove_after_add_waf_managed_rule_set (managed_rule_sets : list ManagedRuleSet)
    (rule_set_type_arg rule_set_version_arg : string) (rule_group_name_arg : option string)
    (rules_arg : option (list string)) :
  Forall (fun rule_set => rule_set_type rule_set <> rule_set_type_arg
                          /\ rule_set_version rule_set <> rule_set_version_arg)
    managed_rule_sets ->
  remove_waf_managed_rule_set
    (WafAdd.add_waf_managed_rule_set managed_rule_sets rule_set_type_arg
       rule_set_version_arg rule_group_name_arg rules_arg)
    rule_set_type_arg rule_set_version_arg None
  = Ok managed_rule_sets.
Proof.
  intros Hother.
  set (new := WafAdd.new_managed_rule_set rule_set_type_arg rule_set_version_arg
                rule_group_name_arg rules_arg).
  assert (Hfresh : List.find (same_rule_set rule_set_type_arg rule_set_version_arg)
                     managed_rule_sets = None).
  { induction Hother as [|rule_set rest [Htype _] _ IH]; [reflexivity|].
    cbn [List.find]. unfold same_rule_set at 1.
    apply String.eqb_neq in Htype. rewrite Htype. exact IH. }
  rewrite (add_waf_managed_rule_set_fresh _ _ _ _ _ Hfresh). fold new.
  rewrite remove_waf_managed_rule_set_first_match.
  assert (Hfind : List.find (fun rule_set =>
                    String.eqb (rule_set_type rule_set) rule_set_type_arg
                    || String.eqb (rule_set_version rule_set) rule_set_version_arg)
                    (managed_rule_sets ++ [new]) = Some new).
  { clear Hfresh. induction Hother as [|rule_set rest [Htype Hversion] _ IH].
    - cbn [app List.find]. unfold new. cbn [WafAdd.new_managed_rule_set rule_set_type].
      rewrite String.eqb_refl. reflexivity.
    - cbn [app List.find]. apply String.eqb_neq in Htype, Hversion.
      rewrite Htype, Hversion. exact IH. }
  rewrite Hfind. f_equal. rewrite List.filter_app. cbn [List.filter].
  rewrite bool_decide_eq_true_2 by reflexivity. cbn [negb]. rewrite app_nil_r.
  clear Hfresh Hfind. induction Hother as [|rule_set rest [Htype _] _ IH]; [reflexivity|].
  cbn [List.filter]. rewrite bool_decide_eq_false_2.
  - cbn [negb]. rewrite IH. reflexivity.
  - intros ->. apply Htype. reflexivity.
Qed.

Lemma remove_after_add_waf_managed_rule_set_witness :
  remove_waf_managed_rule_set
    (WafAdd.add_waf_managed_rule_set [Examples.bot_manager_1_0] "OWASP" "3.2"
       (Some "REQUEST-920-PROTOCOL-ENFORCEMENT") (Some ["920100"]))
    "OWASP" "3.2" None
  = Ok [Examples.bot_manager_1_0].
Proof.
  apply (remove_after_add_waf_managed_rule_set [Examples.bot_manager_1_0] "OWASP" "3.2"
           (Some "REQUEST-920-PROTOCOL-ENFORCEMENT") (Some ["920100"])).
  constructor; [|constructor].
  split; intros H; vm_compute in H; discriminate H.
Defined.

(** X14: adding the same rule group with the same rules twice is not
    the same as adding it once: the second call finds the group and
    extends it, so the group holds the rules twice. *)
Theorem add_waf_managed_rule_set_twice (managed_rule_sets : list ManagedRuleSet)
    (rule_set_type_arg rule_set_version_arg rule_group_name_arg : string)
    (rules_arg : list string) :
  List.find (same_rule_set rule_set_type_arg rule_set_version_arg) managed_rule_sets = None ->
  WafAdd.add_waf_managed_rule_set
    (WafAdd.add_waf_managed_rule_set managed_rule_sets rule_set_type_arg
       rule_set_version_arg (Some rule_group_name_arg) (Some rules_arg))
    rule_set_type_arg rule_set_version_arg (Some rule_group_name_arg) (Some rules_arg)
  = (managed_rule_sets
       ++ [{| rule_set_type := rule_set_type_arg;
              rule_set_version := rule_set_version_arg;
              rule_group_overrides :=
                [{| rule_group_name := rule_group_name_arg;
                    rules := (rules_arg ++ rules_arg)%list |}] |}])%list.
Proof.
  intros Hfresh. rewrite (add_waf_managed_rule_set_fresh _ _ _ _ _ Hfresh).
  unfold WafAdd.add_waf_managed_rule_set, WafAdd.pre_instance_update.
  assert (Hrun : forall l,
    List.find (same_rule_set rule_set_type_arg rule_set_version_arg) l = None ->
    WafAdd.add_to_rule_sets rule_set_type_arg rule_set_version_arg
      (Some rule_group_name_arg) (Some rules_arg)
      (l ++ [WafAdd.new_managed_rule_set rule_set_type_arg rule_set_version_arg
               (Some rule_group_name_arg) (Some rules_arg)])
    = Some (l ++ [{| rule_set_type := rule_set_type_arg;
                     rule_set_version := rule_set_version_arg;
                     rule_group_overrides :=
                       [{| rule_group_name := rule_group_name_arg;
                           rules := (rules_arg ++ rules_arg)%list |}] |}])%list).
  { induction l as [|rule_set rest IH].
    - intros _. unfold WafAdd.new_managed_rule_set, WafAdd.rule_group_override,
        WafAdd.managed_rule_overrides.
      cbn [app WafAdd.add_to_rule_sets rule_set_type rule_set_version].
      rewrite !String.eqb_refl. cbn [andb]. unfold WafAdd.add_to_rule_set.
      cbn [rule_group_overrides WafAdd.extend_rule_group WafAdd.group_named
           rule_group_name rule_set_type rule_set_version].
      rewrite String.eqb_refl. reflexivity.
    - cbn [List.find app WafAdd.add_to_rule_sets]. unfold same_rule_set at 1.
      destruct (String.eqb (rule_set_type rule_set) rule_set_type_arg
                && String.eqb (rule_set_version rule_set) rule_set_version_arg);
        [discriminate|].
      intros Hrest. rewrite (IH Hrest). reflexivity. }
  rewrite (Hrun _ Hfresh). reflexivity.
Qed.

Lemma add_waf_managed_rule_set_twice_witness :
  WafAdd.add_waf_managed_rule_set
    (WafAdd.add_waf_managed_rule_set [Examples.bot_manager_1_0] "OWASP" "3.2"
       (Some "REQUEST-920-PROTOCOL-ENFORCEMENT") (Some ["920100"]))
    "OWASP" "3.2" (Some "REQUEST-920-PROTOCOL-ENFORCEMENT") (Some ["920100"])
  = [Examples.bot_manager_1_0;
     {| rule_set_type := "OWASP"; rule_set_version := "3.2";
        rule_group_overrides :=
          [{| rule_group_name := "REQUEST-920-PROTOCOL-ENFORCEMENT";
              rules := ["920100"; "920100"] |}] |}].
Proof.
  exact (add_waf_managed_rule_set_twice [Examples.bot_manager_1_0] "OWASP" "3.2"
           "REQUEST-920-PROTOCOL-ENFORCEMENT" ["920100"] eq_refl).
Defined.

(** ** Removing a rule group *)

Lemma remove_rule_group_done (name : string) (overrides : list RuleGroupOverride) :
  remove_rule_group name true overrides = (overrides, true).
Proof.
  induction overrides as [|g rest IH]; [reflexivity|].
  cbn [remove_rule_group]. rewrite andb_false_r, IH. reflexivity.
Qed.

Lemma remove_rule_group_first (name : string) (overrides : list RuleGroupOverride) :
  match remove_rule_group name false overrides with
  | (kept, true) => first_group_removed name overrides kept
  | (kept, false) => kept = overrides /\ Forall (fun g => rule_group_name g <> name) overrides
  end.
Proof.
  induction overrides as [|g rest IH]; [split; [reflexivity | constructor]|].
  cbn [remove_rule_group]. destruct (String.eqb_spec (rule_group_name g) name) as [Hg|Hg].
  - cbn [andb negb]. rewrite remove_rule_group_done.
    exists [], g, rest. repeat split; [assumption | constructor].
  - cbn [andb]. destruct (remove_rule_group name false rest) as [kept [|]].
    + destruct IH as (front & group & back & -> & Hname & Hfront & ->).
      exists (g :: front), group, back.
      split; [reflexivity|]. split; [exact Hname|].
      split; [constructor; assumption | reflexivity].
    + destruct IH as [-> Hnone]. split; [reflexivity | constructor; assumption].
Qed.

(** X15: with a rule group name, removal leaves the rule sets, their
    types and versions as they are and takes the first group of the
    name out of every rule set that has the type or the version; it
    fails with [ResourceNotFoundError], and with nothing else, when one
    of those rule sets has no group of the name. *)
Theorem remove_waf_rule_group (managed_rule_sets : list ManagedRuleSet)
    (rule_set_type_arg rule_set_version_arg rule_group_name_arg : string) :
  match remove_waf_managed_rule_set managed_rule_sets rule_set_type_arg
          rule_set_version_arg (Some rule_group_name_arg) with
  | Ok updated =>
      Forall2 (fun rule_set rule_set' =>
                 rule_set_key rule_set' = rule_set_key rule_set
                 /\ if type_or_version rule_set_type_arg rule_set_version_arg rule_set
                    then first_group_removed rule_group_name_arg
                           (rule_group_overrides rule_set)
                           (rule_group_overrides rule_set')
                    else rule_set' = rule_set)
        managed_rule_sets updated
  | Raise e =>
      e = ResourceNotFoundError
      /\ Exists (fun rule_set =>
                   type_or_version rule_set_type_arg rule_set_version_arg rule_set = true
                   /\ Forall (fun g => rule_group_name g <> rule_group_name_arg)
                        (rule_group_overrides rule_set))
           managed_rule_sets
  end.
Proof.
  unfold remove_waf_managed_rule_set, pre_instance_update.
  assert (Hscan :
    match scan_rule_sets rule_set_type_arg rule_set_version_arg (Some rule_group_name_arg)
            managed_rule_sets with
    | Ok (delete_rule_set, updated) =>
        delete_rule_set = None
        /\ Forall2 (fun rule_set rule_set' =>
                     rule_set_key rule_set' = rule_set_key rule_set
                     /\ if type_or_version rule_set_type_arg rule_set_version_arg rule_set
                        then first_group_removed rule_group_name_arg
                               (rule_group_overrides rule_set)
                               (rule_group_overrides rule_set')
                        else rule_set' = rule_set)
             managed_rule_sets updated
    | Raise e =>
        e = ResourceNotFoundError
        /\ Exists (fun rule_set =>
                     type_or_version rule_set_type_arg rule_set_version_arg rule_set = true
                     /\ Forall (fun g => rule_group_name g <> rule_group_name_arg)
                          (rule_group_overrides rule_set))
             managed_rule_sets
    end).
  { induction managed_rule_sets as [|rule_set rest IH]; [split; [reflexivity | constructor]|].
    cbn [scan_rule_sets].
    fold (type_or_version rule_set_type_arg rule_set_version_arg rule_set).
    destruct (type_or_version rule_set_type_arg rule_set_version_arg rule_set) eqn:Hhit.
    - pose proof (remove_rule_group_first rule_group_name_arg
                    (rule_group_overrides rule_set)) as Hgroup.
      destruct (remove_rule_group rule_group_name_arg false (rule_group_overrides rule_set))
        as [kept [|]]; cbn [negb].
      + destruct (scan_rule_sets _ _ _ rest) as [[delete_rule_set rest']|e];
          cbn [mbind result_bind].
        * destruct IH as [-> IH]. split; [reflexivity|].
          constructor; [|exact IH]. split; [reflexivity|]. rewrite Hhit. exact Hgroup.
        * destruct IH as [-> IH]. split; [reflexivity|]. right. exact IH.
      + split; [reflexivity|]. left. split; [exact Hhit | apply Hgroup].
    - destruct (scan_rule_sets _ _ _ rest) as [[delete_rule_set rest']|e];
        cbn [mbind result_bind].
      + destruct IH as [-> IH]. split; [reflexivity|].
        constructor; [|exact IH]. split; [reflexivity|]. rewrite Hhit. reflexivity.
      + destruct IH as [-> IH]. split; [reflexivity|]. right. exact IH. }
  destruct (scan_rule_sets _ _ _ managed_rule_sets) as [[delete_rule_set updated]|e];
    cbn [mbind result_bind]; [|exact Hscan].
  destruct Hscan as [-> Hkept]. exact Hkept.
Qed.

(** ** Trusted client certificates *)

Section TrustedClientCertificateProperties.

Import TrustedClientCertificates.

Lemma find_certificate_first (client_cert_name : string)
    (certs : list ApplicationGatewayTrustedClientCertificate) :
  match find_certificate client_cert_name certs with
  | Some cert => exists front back, first_named client_cert_name certs front cert back
  | None => Forall (fun c => name c <> client_cert_name) certs
  end.
Proof.
  induction certs as [|c rest IH]; [constructor|].
  cbn [find_certificate]. destruct (String.eqb_spec (name c) client_cert_name) as [Hc|Hc].
  - exists [], rest. split; [reflexivity|]. split; [exact Hc | constructor].
  - destruct (find_certificate client_cert_name rest) as [cert|].
    + destruct IH as (front & back & -> & Hname & Hfront).
      exists (c :: front), back. split; [reflexivity|]. split; [exact Hname|].
      constructor; assumption.
    + constructor; assumption.
Qed.

Lemma find_certificate_app_fresh (client_cert_name : string)
    (certs more : list ApplicationGatewayTrustedClientCertificate) :
  find_certificate client_cert_name (certs ++ more)
  = match find_certificate client_cert_name certs with
    | Some cert => Some cert
    | None => find_certificate client_cert_name more
    end.
Proof.
  induction certs as [|c rest IH]; [reflexivity|].
  cbn [app find_certificate]. destruct (String.eqb (name c) client_cert_name);
    [reflexivity | exact IH].
Qed.

Lemma set_certificate_data_first (client_cert_name : string) (client_cert_data : pyval)
    (certs : list ApplicationGatewayTrustedClientCertificate) :
  match set_certificate_data client_cert_name client_cert_data certs with
  | Some certs' =>
      exists front cert back,
        first_named client_cert_name certs front cert back
        /\ certs' = (front ++ {| name := name cert; data := client_cert_data |} :: back)%list
  | None => Forall (fun c => name c <> client_cert_name) certs
  end.
Proof.
  induction certs as [|c rest IH]; [constructor|].
  cbn [set_certificate_data].
  destruct (String.eqb_spec (name c) client_cert_name) as [Hc|Hc].
  - exists [], c, rest. split; [|reflexivity].
    split; [reflexivity|]. split; [exact Hc | constructor].
  - destruct (set_certificate_data client_cert_name client_cert_data rest) as [rest'|].
    + destruct IH as (front & cert & back & (-> & Hname & Hfront) & ->).
      exists (c :: front), cert, back. split; [|reflexivity].
      split; [reflexivity|]. split; [exact Hname | constructor; assumption].
    + constructor; assumption.
Qed.

Lemma list_remove_first (client_cert_name : string)
    (front back : list ApplicationGatewayTrustedClientCertificate)
    (cert : ApplicationGatewayTrustedClientCertificate) :
  name cert = client_cert_name ->
  Forall (fun c => name c <> client_cert_name) front ->
  list_remove cert (front ++ cert :: back) = (front ++ back)%list.
Proof.
  intros Hname Hfront. induction Hfront as [|c front Hc _ IH]; cbn [app list_remove].
  - rewrite bool_decide_eq_true_2 by reflexivity. reflexivity.
  - rewrite bool_decide_eq_false_2; [rewrite IH; reflexivity|].
    intros ->. contradiction.
Qed.

Variable ncf : ApplicationGatewaysOperations.
Variables resource_group_name application_gateway_name : string.
Variable appgw : ApplicationGateway.
Variable certs : list ApplicationGatewayTrustedClientCertificate.

Hypothesis fetched : get ncf resource_group_name application_gateway_name = Ok appgw.
Hypothesis listed : trusted_client_certificates appgw = Some certs.

(** X16: update rewrites the data of the first certificate of the name
    and nothing else; without a certificate of the name it raises
    [ResourceNotFoundError] and submits nothing. *)
Theorem update_trusted_client_certificate_first (client_cert_name : string)
    (client_cert_data : pyval) (no_wait : bool) :
  match update_trusted_client_certificate ncf resource_group_name application_gateway_name
          client_cert_name client_cert_data no_wait with
  | Ok call =>
      exists front cert back,
        first_named client_cert_name certs front cert back
        /\ call = sdk_no_wait no_wait
                    (begin_create_or_update resource_group_name application_gateway_name
                       (set_trusted_client_certificates
                          (front ++ {| name := client_cert_name; data := client_cert_data |}
                             :: back) appgw))
  | Raise e =>
      e = ResourceNotFoundError /\ Forall (fun c => name c <> client_cert_name) certs
  end.
Proof.
  unfold update_trusted_client_certificate. rewrite fetched. cbn [mbind result_bind].
  rewrite listed.
  pose proof (set_certificate_data_first client_cert_name client_cert_data certs) as Hset.
  destruct (set_certificate_data client_cert_name client_cert_data certs) as [certs'|].
  - destruct Hset as (front & cert & back & Hfirst & ->).
    exists front, cert, back. split; [exact Hfirst|].
    destruct Hfirst as (_ & -> & _). reflexivity.
  - split; [reflexivity | exact Hset].
Qed.

(** X17: removal takes out the first certificate of the name and
    nothing else; without a certificate of the name it raises
    [ResourceNotFoundError] and submits nothing. *)
Theorem remove_trusted_client_certificate_first (client_cert_name : string)
    (no_wait : bool) :
  match remove_trusted_client_certificate ncf resource_group_name application_gateway_name
          client_cert_name no_wait with
  | Ok call =>
      exists front cert back,
        first_named client_cert_name certs front cert back
        /\ call = sdk_no_wait no_wait
                    (begin_create_or_update resource_group_name application_gateway_name
                       (set_trusted_client_certificates (front ++ back) appgw))
  | Raise e =>
      e = ResourceNotFoundError /\ Forall (fun c => name c <> client_cert_name) certs
  end.
Proof.
  unfold remove_trusted_client_certificate. rewrite fetched. cbn [mbind result_bind].
  rewrite listed.
  pose proof (find_certificate_first client_cert_name certs) as Hfind.
  destruct (find_certificate client_cert_name certs) as [cert|].
  - destruct Hfind as (front & back & Hfirst).
    exists front, cert, back. split; [exact Hfirst|].
    destruct Hfirst as (-> & Hname & Hfront).
    rewrite (list_remove_first client_cert_name front back cert Hname Hfront). reflexivity.
  - split; [reflexivity | exact Hfind].
Qed.

(** X18: adding appends without looking at the names there are: when
    the gateway already has a certificate of the name, the gateway that
    is submitted has two, and a [show] on it answers with the old one;
    it answers with the new one when the name was new. *)
Theorem show_after_add_trusted_client_certificate (client_cert_name : string)
    (client_cert_data : pyval) (no_wait : bool) :
  let cert := {| name := client_cert_name; data := client_cert_data |} in
  let submitted := set_trusted_client_certificates (certs ++ [cert]) appgw in
  add_trusted_client_certificate ncf resource_group_name application_gateway_name
    client_cert_name client_cert_data no_wait
  = Ok (sdk_no_wait no_wait
          (begin_create_or_update resource_group_name application_gateway_name submitted))
  /\ show_trusted_client_certificate {| get := fun _ _ => Ok submitted |}
       resource_group_name application_gateway_name client_cert_name
     = Ok (default cert (find_certificate client_cert_name certs))
  /\ (Forall (fun c => name c <> client_cert_name) certs ->
      find_certificate client_cert_name certs = None).
Proof.
  cbv zeta. split; [|split].
  - unfold add_trusted_client_certificate. rewrite fetched. cbn [mbind result_bind].
    rewrite listed. reflexivity.
  - unfold show_trusted_client_certificate. cbn [get mbind result_bind
      set_trusted_client_certificates trusted_client_certificates].
    rewrite find_certificate_app_fresh.
    destruct (find_certificate client_cert_name certs); [reflexivity|].
    cbn [find_certificate name]. rewrite String.eqb_refl. reflexivity.
  - intros Hfresh. pose proof (find_certificate_first client_cert_name certs) as Hfind.
    destruct (find_certificate client_cert_name certs) as [c|]; [|reflexivity].
    destruct Hfind as (front & back & -> & Hname & _).
    apply Forall_app in Hfresh as [_ Hfresh]. apply Forall_cons in Hfresh as [Hc _].
    contradiction.
Qed.

(** X19: removing a certificate from the gateway that adding it has
    submitted gives the certificate list back when the name was new;
    when it was not, the old certificate of the name goes and the new
    one stays. *)
Theorem remove_after_add_trusted_client_certificate (client_cert_name : string)
    (client_cert_data : pyval) (no_wait : bool) :
  let cert := {| name := client_cert_name; data := client_cert_data |} in
  let submitted := set_trusted_client_certificates (certs ++ [cert]) appgw in
  exists remaining,
    remove_trusted_client_certificate {| get := fun _ _ => Ok submitted |}
      resource_group_name application_gateway_name client_cert_name no_wait
    = Ok (sdk_no_wait no_wait
            (begin_create_or_update resource_group_name application_gateway_name
               (set_trusted_client_certificates remaining appgw)))
    /\ match find_certificate client_cert_name certs with
       | None => remaining = certs
       | Some old =>
           exists front back,
             first_named client_cert_name certs front old back
             /\ remaining = (front ++ back ++ [cert])%list
       end.
Proof.
  cbv zeta. unfold remove_trusted_client_certificate.
  cbn [get mbind result_bind set_trusted_client_certificates trusted_client_certificates].
  rewrite find_certificate_app_fresh.
  pose proof (find_certificate_first client_cert_name certs) as Hfind.
  destruct (find_certificate client_cert_name certs) as [old|].
  - destruct Hfind as (front & back & Hfirst).
    exists (front ++ back ++ [{| name := client_cert_name; data := client_cert_data |}])%list.
    split; [|exists front, back; split; [exact Hfirst | reflexivity]].
    destruct Hfirst as (Hcerts & Hname & Hfront).
    rewrite Hcerts, <- app_assoc. cbn [app].
    rewrite (list_remove_first client_cert_name front _ old Hname Hfront). reflexivity.
  - exists certs. split; [|reflexivity].
    cbn [find_certificate name]. rewrite String.eqb_refl.
    rewrite (list_remove_first client_cert_name certs []
               {| name := client_cert_name; data := client_cert_data |} eq_refl Hfind).
    rewrite app_nil_r. reflexivity.
Qed.

End TrustedClientCertificateProperties.

Lemma update_trusted_client_certificate_first_witness :
  match TrustedClientCertificates.update_trusted_client_certificate
          (Samples.appgw_client_of Samples.appgw) "rg" "gw" "cert2" (VStr "MIIE") false with
  | Ok call =>
      exists front cert back,
        first_named "cert2" [Samples.client_cert1; Samples.client_cert2] front cert back
        /\ call = TrustedClientCertificates.sdk_no_wait false
                    (TrustedClientCertificates.begin_create_or_update "rg" "gw"
                       (TrustedClientCertificates.set_trusted_client_certificates
                          (front
                             ++ {| TrustedClientCertificates.name := "cert2";
                                   TrustedClientCertificates.data := VStr "MIIE" |}
                             :: back) Samples.appgw))
  | Raise e =>
      e = ResourceNotFoundError
      /\ Forall (fun c => TrustedClientCertificates.name c <> "cert2")
           [Samples.client_cert1; Samples.client_cert2]
  end.
Proof.
  exact (update_trusted_client_certificate_first (Samples.appgw_client_of Samples.appgw)
           "rg" "gw" Samples.appgw [Samples.client_cert1; Samples.client_cert2]
           eq_refl eq_refl "cert2" (VStr "MIIE") false).
Defined.

Lemma remove_trusted_client_certificate_first_witness :
  match TrustedClientCertificates.remove_trusted_client_certificate
          (Samples.appgw_client_of Samples.appgw) "rg" "gw" "cert1" false with
  | Ok call =>
      exists front cert back,
        first_named "cert1" [Samples.client_cert1; Samples.client_cert2] front cert back
        /\ call = TrustedClientCertificates.sdk_no_wait false
                    (TrustedClientCertificates.begin_create_or_update "rg" "gw"
                       (TrustedClientCertificates.set_trusted_client_certificates
                          (front ++ back) Samples.appgw))
  | Raise e =>
      e = ResourceNotFoundError
      /\ Forall (fun c => TrustedClientCertificates.name c <> "cert1")
           [Samples.client_cert1; Samples.client_cert2]
  end.
Proof.
  exact (remove_trusted_client_certificate_first (Samples.appgw_client_of Samples.appgw)
           "rg" "gw" Samples.appgw [Samples.client_cert1; Samples.client_cert2]
           eq_refl eq_refl "cert1" false).
Defined.

Lemma show_after_add_trusted_client_certificate_witness :
  TrustedClientCertificates.show_trusted_client_certificate
    (Samples.appgw_client_of
       (TrustedClientCertificates.set_trusted_client_certificates
          [Samples.client_cert1; Samples.client_cert2;
           {| TrustedClientCertificates.name := "cert1";
              TrustedClientCertificates.data := VStr "MIIE" |}]
          Samples.appgw))
    "rg" "gw" "cert1"
  = Ok Samples.client_cert1.
Proof.
  destruct (show_after_add_trusted_client_certificate
              (Samples.appgw_client_of Samples.appgw) "rg" "gw" Samples.appgw
              [Samples.client_cert1; Samples.client_cert2] eq_refl eq_refl
              "cert1" (VStr "MIIE") false) as (_ & Hshow & _).
  exact Hshow.
Defined.

(** ** IP configurations of a network interface *)

Section NicProperties.

Import Nic.

Lemma find_same_name (name_arg : string) (configs : list IPConfiguration) :
  match List.find (same_name name_arg) configs with
  | Some config => exists front back, first_config name_arg configs front config back
  | None => Forall (fun x => lower (name x) <> lower name_arg) configs
  end.
Proof.
  induction configs as [|x rest IH]; [constructor|].
  cbn [List.find]. unfold same_name at 1.
  destruct (String.eqb_spec (lower (name x)) (lower name_arg)) as [Hx|Hx].
  - exists [], rest. split; [reflexivity|]. split; [exact Hx | constructor].
  - destruct (List.find (same_name name_arg) rest) as [config|].
    + destruct IH as (front & back & -> & Hname & Hfront).
      exists (x :: front), back. split; [reflexivity|]. split; [exact Hname|].
      constructor; assumption.
    + constructor; assumption.
Qed.

Lemma update_first_at (name_arg : string) (f : IPConfiguration -> IPConfiguration)
    (front back : list IPConfiguration) (config : IPConfiguration) :
  lower (name config) = lower name_arg ->
  Forall (fun x => lower (name x) <> lower name_arg) front ->
  update_first name_arg f (front ++ config :: back) = (front ++ f config :: back)%list.
Proof.
  intros Hname Hfront. induction Hfront as [|x front Hx _ IH]; cbn [app update_first].
  - unfold same_name. rewrite Hname, String.eqb_refl. reflexivity.
  - unfold same_name at 1. apply String.eqb_neq in Hx. rewrite Hx, IH. reflexivity.
Qed.

Lemma get_nic_ip_config_cases (nic : NetworkInterface) (name_arg : string) :
  match _get_nic_ip_config nic name_arg with
  | Ok config =>
      exists configs front back,
        ip_configurations nic = Some configs
        /\ first_config name_arg configs front config back
  | Raise e =>
      e = CLIError
      /\ Forall (fun x => lower (name x) <> lower name_arg)
           (default [] (ip_configurations nic))
  end.
Proof.
  unfold _get_nic_ip_config. destruct (ip_configurations nic) as [[|x rest]|].
  - split; [reflexivity | constructor].
  - pose proof (find_same_name name_arg (x :: rest)) as Hfind.
    destruct (List.find (same_name name_arg) (x :: rest)) as [config|].
    + destruct Hfind as (front & back & Hfirst).
      exists (x :: rest), front, back. split; [reflexivity | exact Hfirst].
    + split; [reflexivity | exact Hfind].
  - split; [reflexivity | constructor].
Qed.

Lemma find_first_config (name_arg : string) (front back : list IPConfiguration)
    (config : IPConfiguration) :
  lower (name config) = lower name_arg ->
  Forall (fun x => lower (name x) <> lower name_arg) front ->
  List.find (same_name name_arg) (front ++ config :: back) = Some config.
Proof.
  intros Hname Hfront. induction Hfront as [|x front Hx _ IH]; cbn [app List.find].
  - unfold same_name. rewrite Hname, String.eqb_refl. reflexivity.
  - unfold same_name at 1. apply String.eqb_neq in Hx. rewrite Hx. exact IH.
Qed.

Lemma get_nic_ip_config_found (nic : NetworkInterface) (name_arg : string)
    (configs front back : list IPConfiguration) (config : IPConfiguration) :
  ip_configurations nic = Some configs ->
  first_config name_arg configs front config back ->
  _get_nic_ip_config nic name_arg = Ok config.
Proof.
  intros Hconfigs (-> & Hname & Hfront).
  pose proof (find_first_config name_arg front back config Hname Hfront) as Hfind.
  unfold _get_nic_ip_config. rewrite Hconfigs.
  destruct (front ++ config :: back)%list as [|x rest] eqn:Hlist.
  - destruct front; discriminate Hlist.
  - rewrite Hfind. reflexivity.
Qed.

(** X20: [_get_nic_ip_config] answers with the first configuration
    whose name is the given one up to letter case, and with it whenever
    there is one; it raises [CLIError], and nothing else, exactly when
    the interface has no such configuration, be its list empty, [None]
    or without the name. *)
Theorem get_nic_ip_config_first (nic : NetworkInterface) (name_arg : string) :
  match _get_nic_ip_config nic name_arg with
  | Ok config =>
      exists configs front back,
        ip_configurations nic = Some configs
        /\ first_config name_arg configs front config back
  | Raise e =>
      e = CLIError
      /\ Forall (fun x => lower (name x) <> lower name_arg)
           (default [] (ip_configurations nic))
  end
  /\ forall configs front config back,
       ip_configurations nic = Some configs ->
       first_config name_arg configs front config back ->
       _get_nic_ip_config nic name_arg = Ok config.
Proof.
  split; [apply get_nic_ip_config_cases|].
  intros configs front config back Hconfigs Hfirst.
  exact (get_nic_ip_config_found nic name_arg configs front back config Hconfigs Hfirst).
Qed.

(** The run of the removal on an interface whose configurations are
    known. *)
Lemma remove_inbound_nat_rule_run (client : NetworkInterfacesOperations)
    (resource_group_name network_interface_name ip_config_name inbound_nat_rule : string)
    (load_balancer_name : option string) (nic : NetworkInterface)
    (configs front back : list IPConfiguration) (config : IPConfiguration) :
  get client resource_group_name network_interface_name = Ok nic ->
  ip_configurations nic = Some configs ->
  first_config ip_config_name configs front config back ->
  remove_nic_ip_config_inbound_nat_rule client resource_group_name network_interface_name
    ip_config_name inbound_nat_rule load_balancer_name
  = Ok (begin_create_or_update resource_group_name network_interface_name
          {| ip_configurations :=
               Some (front
                       ++ set_load_balancer_inbound_nat_rules
                            (keep_items (load_balancer_inbound_nat_rules config)
                               inbound_nat_rule)
                            config
                       :: back)%list |}).
Proof.
  intros Hget Hconfigs Hfirst. unfold remove_nic_ip_config_inbound_nat_rule.
  rewrite Hget. cbn [mbind result_bind].
  rewrite (get_nic_ip_config_found nic ip_config_name configs front back config
             Hconfigs Hfirst).
  cbn [mbind result_bind]. unfold update_ip_config. rewrite Hconfigs.
  destruct Hfirst as (-> & Hname & Hfront).
  rewrite (update_first_at _ _ front back config Hname Hfront). reflexivity.
Qed.

(** X21: removal of an inbound NAT rule rewrites the rule list of the
    first configuration of the name, dropping every rule of the given
    id and keeping the others in order, and leaves the other
    configurations alone; a rule id that is not there is no error, and
    the only error is the [CLIError] for a configuration that is not
    found. *)
Theorem remove_nic_ip_config_inbound_nat_rule_first (client : NetworkInterfacesOperations)
    (resource_group_name network_interface_name ip_config_name inbound_nat_rule : string)
    (load_balancer_name : option string) (nic : NetworkInterface) :
  get client resource_group_name network_interface_name = Ok nic ->
  match remove_nic_ip_config_inbound_nat_rule client resource_group_name
          network_interface_name ip_config_name inbound_nat_rule load_balancer_name with
  | Ok request =>
      exists configs front config back,
        ip_configurations nic = Some configs
        /\ first_config ip_config_name configs front config back
        /\ request
           = begin_create_or_update resource_group_name network_interface_name
               {| ip_configurations :=
                    Some (front
                            ++ set_load_balancer_inbound_nat_rules
                                 (List.filter
                                    (fun x => negb (String.eqb (id x) inbound_nat_rule))
                                    (default [] (load_balancer_inbound_nat_rules config)))
                                 config
                            :: back)%list |}
  | Raise e =>
      e = CLIError
      /\ Forall (fun x => lower (name x) <> lower ip_config_name)
           (default [] (ip_configurations nic))
  end.
Proof.
  intros Hget.
  pose proof (get_nic_ip_config_cases nic ip_config_name) as Hfound.
  destruct (_get_nic_ip_config nic ip_config_name) as [config|e] eqn:Hconfig.
  - destruct Hfound as (configs & front & back & Hconfigs & Hfirst).
    rewrite (remove_inbound_nat_rule_run client resource_group_name network_interface_name
               ip_config_name inbound_nat_rule load_balancer_name nic configs front back
               config Hget Hconfigs Hfirst).
    exists configs, front, config, back.
    split; [exact Hconfigs|]. split; [exact Hfirst | reflexivity].
  - unfold remove_nic_ip_config_inbound_nat_rule. rewrite Hget.
    cbn [mbind result_bind]. rewrite Hconfig. exact Hfound.
Qed.

Lemma filter_twice {A : Type} (f : A -> bool) (l : list A) :
  List.filter f (List.filter f l) = List.filter f l.
Proof.
  induction l as [|x l IH]; [reflexivity|].
  cbn [List.filter]. destruct (f x) eqn:Hx; [|exact IH].
  cbn [List.filter]. rewrite Hx, IH. reflexivity.
Qed.

Lemma keep_items_twice (items : option (list SubResource)) (value : string) :
  keep_items (Some (keep_items items value)) value = keep_items items value.
Proof. unfold keep_items. apply filter_twice. Qed.

(** X22: removing the rule a second time, from the interface the first
    removal has submitted, submits that interface again. *)
Theorem remove_nic_ip_config_inbound_nat_rule_twice (client : NetworkInterfacesOperations)
    (resource_group_name network_interface_name ip_config_name inbound_nat_rule : string)
    (load_balancer_name : option string) (submitted : NetworkInterface) :
  remove_nic_ip_config_inbound_nat_rule client resource_group_name network_interface_name
    ip_config_name inbound_nat_rule load_balancer_name
  = Ok (begin_create_or_update resource_group_name network_interface_name submitted) ->
  remove_nic_ip_config_inbound_nat_rule {| get := fun _ _ => Ok submitted |}
    resource_group_name network_interface_name ip_config_name inbound_nat_rule
    load_balancer_name
  = Ok (begin_create_or_update resource_group_name network_interface_name submitted).
Proof.
  intros Hrun.
  destruct (get client resource_group_name network_interface_name) as [nic|e] eqn:Hget;
    [|unfold remove_nic_ip_config_inbound_nat_rule in Hrun; rewrite Hget in Hrun;
      discriminate Hrun].
  pose proof (get_nic_ip_config_cases nic ip_config_name) as Hfound.
  destruct (_get_nic_ip_config nic ip_config_name) as [config|e] eqn:Hconfig;
    [|unfold remove_nic_ip_config_inbound_nat_rule in Hrun; rewrite Hget in Hrun;
      cbn [mbind result_bind] in Hrun; rewrite Hconfig in Hrun; discriminate Hrun].
  destruct Hfound as (configs & front & back & Hconfigs & Hfirst).
  rewrite (remove_inbound_nat_rule_run client resource_group_name network_interface_name
             ip_config_name inbound_nat_rule load_balancer_name nic configs front back
             config Hget Hconfigs Hfirst) in Hrun.
  injection Hrun as <-.
  destruct Hfirst as (_ & Hname & Hfront).
  set (config' := set_load_balancer_inbound_nat_rules
                    (keep_items (load_balancer_inbound_nat_rules config) inbound_nat_rule)
                    config).
  rewrite (remove_inbound_nat_rule_run {| get := fun _ _ => Ok _ |} resource_group_name
             network_interface_name ip_config_name inbound_nat_rule load_balancer_name
             {| ip_configurations := Some (front ++ config' :: back)%list |}
             (front ++ config' :: back)%list front back config' eq_refl eq_refl
             (conj eq_refl (conj Hname Hfront))).
  assert (Hsame : set_load_balancer_inbound_nat_rules
                    (keep_items (load_balancer_inbound_nat_rules config') inbound_nat_rule)
                    config' = config').
  { unfold config', set_load_balancer_inbound_nat_rules.
    cbn [name load_balancer_backend_address_pools application_gateway_backend_address_pools
         load_balancer_inbound_nat_rules].
    rewrite keep_items_twice. reflexivity. }
  rewrite Hsame. reflexivity.
Qed.

(** X23: removal of a backend address pool rewrites one pool list of
    the first configuration of the name and leaves everything else
    alone: the load balancer pools when a load balancer name is given,
    whatever the application gateway name; else the application gateway
    pools when that name is given; and nothing at all when both names
    are missing or empty.  The only error after the fetch is the
    [CLIError] for a configuration that is not found. *)
Theorem remove_nic_ip_config_address_pool_names (client : NetworkInterfacesOperations)
    (resource_group_name network_interface_name ip_config_name backend_address_pool : string)
    (load_balancer_name application_gateway_name : option string)
    (nic : NetworkInterface) :
  get client resource_group_name network_interface_name = Ok nic ->
  match remove_nic_ip_config_address_pool client resource_group_name network_interface_name
          ip_config_name backend_address_pool load_balancer_name application_gateway_name with
  | Ok request =>
      exists configs front config back,
        ip_configurations nic = Some configs
        /\ first_config ip_config_name configs front config back
        /\ request
           = begin_create_or_update resource_group_name network_interface_name
               {| ip_configurations :=
                    Some (front
                            ++ (if given load_balancer_name
                                then set_load_balancer_backend_address_pools
                                       (keep_items
                                          (load_balancer_backend_address_pools config)
                                          backend_address_pool)
                                       config
                                else if given application_gateway_name
                                then set_application_gateway_backend_address_pools
                                       (keep_items
                                          (application_gateway_backend_address_pools config)
                                          backend_address_pool)
                                       config
                                else config)
                            :: back)%list |}
  | Raise e =>
      e = CLIError
      /\ Forall (fun x => lower (name x) <> lower ip_config_name)
           (default [] (ip_configurations nic))
  end.
Proof.
  intros Hget. pose proof (get_nic_ip_config_cases nic ip_config_name) as Hfound.
  unfold remove_nic_ip_config_address_pool. rewrite Hget. cbn [mbind result_bind].
  destruct (_get_nic_ip_config nic ip_config_name) as [config|e]; cbn [mbind result_bind];
    [|exact Hfound].
  destruct Hfound as (configs & front & back & Hconfigs & Hfirst).
  exists configs, front, config, back. split; [exact Hconfigs|]. split; [exact Hfirst|].
  destruct Hfirst as (-> & Hname & Hfront).
  destruct nic as [listed]. cbn [ip_configurations] in Hconfigs. subst listed.
  unfold update_ip_config. cbn [ip_configurations].
  destruct (given load_balancer_name); [|destruct (given application_gateway_name)];
    try rewrite (update_first_at _ _ front back config Hname Hfront); reflexivity.
Qed.

End NicProperties.

Lemma get_nic_ip_config_first_witness :
  Nic._get_nic_ip_config Samples.nic1 "IPConfig2" = Ok Samples.ipconfig2.
Proof.
  destruct (get_nic_ip_config_first Samples.nic1 "IPConfig2") as [_ Hfound].
  apply (Hfound [Samples.ipconfig1; Samples.ipconfig2] [Samples.ipconfig1]
           Samples.ipconfig2 []).
  - reflexivity.
  - split; [reflexivity|]. split; [reflexivity|].
    constructor; [|constructor]. intros H. vm_compute in H. discriminate H.
Defined.

Lemma remove_nic_ip_config_inbound_nat_rule_first_witness :
  match Nic.remove_nic_ip_config_inbound_nat_rule (Samples.nic_client_of Samples.nic1)
          "rg" "nic1" "ipconfig1" "/lb/rules/r1" None with
  | Ok request =>
      exists configs front config back,
        Nic.ip_configurations Samples.nic1 = Some configs
        /\ first_config "ipconfig1" configs front config back
        /\ request
           = Nic.begin_create_or_update "rg" "nic1"
               {| Nic.ip_configurations :=
                    Some (front
                            ++ Nic.set_load_balancer_inbound_nat_rules
                                 (List.filter
                                    (fun x => negb (String.eqb (id x) "/lb/rules/r1"))
                                    (default [] (Nic.load_balancer_inbound_nat_rules config)))
                                 config
                            :: back)%list |}
  | Raise e =>
      e = CLIError
      /\ Forall (fun x => lower (Nic.name x) <> lower "ipconfig1")
           (default [] (Nic.ip_configurations Samples.nic1))
  end.
Proof.
  exact (remove_nic_ip_config_inbound_nat_rule_first (Samples.nic_client_of Samples.nic1)
           "rg" "nic1" "ipconfig1" "/lb/rules/r1" None Samples.nic1 eq_refl).
Defined.

Lemma remove_nic_ip_config_inbound_nat_rule_twice_witness :
  let submitted :=
    {| Nic.ip_configurations :=
         Some [Nic.set_load_balancer_inbound_nat_rules [ {| id := "/lb/rules/r2" |} ]
                 Samples.ipconfig1;
               Samples.ipconfig2] |} in
  Nic.remove_nic_ip_config_inbound_nat_rule (Samples.nic_client_of submitted)
    "rg" "nic1" "ipconfig1" "/lb/rules/r1" None
  = Ok (Nic.begin_create_or_update "rg" "nic1" submitted).
Proof.
  intros submitted.
  apply (remove_nic_ip_config_inbound_nat_rule_twice (Samples.nic_client_of Samples.nic1)
           "rg" "nic1" "ipconfig1" "/lb/rules/r1" None submitted).
  reflexivity.
Defined.

Lemma remove_nic_ip_config_address_pool_names_witness :
  Nic.remove_nic_ip_config_address_pool (Samples.nic_client_of Samples.nic1)
    "rg" "nic1" "ipconfig1" "/lb/pools/p1" None (Some "")
  = Ok (Nic.begin_create_or_update "rg" "nic1" Samples.nic1).
Proof.
  pose proof (remove_nic_ip_config_address_pool_names (Samples.nic_client_of Samples.nic1)
                "rg" "nic1" "ipconfig1" "/lb/pools/p1" None (Some "") Samples.nic1 eq_refl)
    as Hrun.
  destruct (Nic.remove_nic_ip_config_address_pool (Samples.nic_client_of Samples.nic1)
              "rg" "nic1" "ipconfig1" "/lb/pools/p1" None (Some "")) as [request|e].
  - destruct Hrun as (configs & front & config & back & Hconfigs & (Hlist & _ & _) & ->).
    injection Hconfigs as <-. cbn [Nic.given negb String.eqb]. rewrite <- Hlist. reflexivity.
  - destruct Hrun as [_ Hnone]. exfalso. apply Forall_cons in Hnone as [Hne _].
    apply Hne. reflexivity.
Defined.

(** ** Client certificates of a virtual network gateway *)

Section VnetGatewayProperties.

Import VnetGateway.

Lemma find_root_first (cert_name : string) (roots : list VpnClientRootCertificate) :
  match List.find (fun c => String.eqb (root_name c) cert_name) roots with
  | Some cert =>
      exists front back,
        roots = (front ++ cert :: back)%list
        /\ root_name cert = cert_name
        /\ Forall (fun c => root_name c <> cert_name) front
  | None => Forall (fun c => root_name c <> cert_name) roots
  end.
Proof.
  induction roots as [|c rest IH]; [constructor|].
  cbn [List.find]. destruct (String.eqb_spec (root_name c) cert_name) as [Hc|Hc].
  - exists [], rest. split; [reflexivity|]. split; [exact Hc | constructor].
  - destruct (List.find _ rest) as [cert|].
    + destruct IH as (front & back & -> & Hname & Hfront).
      exists (c :: front), back. split; [reflexivity|]. split; [exact Hname|].
      constructor; assumption.
    + constructor; assumption.
Qed.

Lemma root_list_remove_first (cert_name : string)
    (front back : list VpnClientRootCertificate) (cert : VpnClientRootCertificate) :
  root_name cert = cert_name ->
  Forall (fun c => root_name c <> cert_name) front ->
  list_remove cert (front ++ cert :: back) = (front ++ back)%list.
Proof.
  intros Hname Hfront. induction Hfront as [|c front Hc _ IH]; cbn [app list_remove].
  - rewrite bool_decide_eq_true_2 by reflexivity. reflexivity.
  - rewrite bool_decide_eq_false_2; [rewrite IH; reflexivity|].
    intros ->. contradiction.
Qed.

(** X24: deleting a root certificate takes the first certificate of
    the name out of the list and leaves the other root certificates and
    the revoked certificates alone.  Without a client configuration, or
    without a certificate of the name, it raises [CLIError]; with a
    configuration whose root certificate list is [None] it raises
    [TypeError]. *)
Theorem delete_vnet_gateway_root_cert_first (ncf : VirtualNetworkGatewaysOperations)
    (resource_group_name gateway_name cert_name : string)
    (gateway : VirtualNetworkGateway) :
  get ncf resource_group_name gateway_name = Ok gateway ->
  match delete_vnet_gateway_root_cert ncf resource_group_name gateway_name cert_name with
  | Ok request =>
      exists config front cert back,
        vpn_client_configuration gateway = Some config
        /\ vpn_client_root_certificates config = Some (front ++ cert :: back)%list
        /\ root_name cert = cert_name
        /\ Forall (fun c => root_name c <> cert_name) front
        /\ request
           = begin_create_or_update resource_group_name gateway_name
               {| vpn_client_configuration :=
                    Some {| vpn_client_root_certificates := Some (front ++ back)%list;
                            vpn_client_revoked_certificates :=
                              vpn_client_revoked_certificates config |} |}
  | Raise e =>
      match vpn_client_configuration gateway with
      | None => e = CLIError
      | Some config =>
          match vpn_client_root_certificates config with
          | None => e = TypeError
          | Some roots =>
              e = CLIError /\ Forall (fun c => root_name c <> cert_name) roots
          end
      end
  end.
Proof.
  intros Hget. unfold delete_vnet_gateway_root_cert. rewrite Hget.
  cbn [mbind result_bind].
  destruct (vpn_client_configuration gateway) as [config|]; [|reflexivity].
  destruct (vpn_client_root_certificates config) as [roots|] eqn:Hroots; [|reflexivity].
  pose proof (find_root_first cert_name roots) as Hfind.
  destruct (List.find _ roots) as [cert|].
  - destruct Hfind as (front & back & -> & Hname & Hfront).
    exists config, front, cert, back.
    split; [reflexivity|]. split; [exact Hroots|]. split; [exact Hname|].
    split; [exact Hfront|].
    rewrite (root_list_remove_first cert_name front back cert Hname Hfront). reflexivity.
  - split; [reflexivity | exact Hfind].
Qed.

Lemma find_revoked_first (cert_name : string) (revoked : list VpnClientRevokedCertificate) :
  match List.find (fun c => String.eqb (revoked_name c) cert_name) revoked with
  | Some cert =>
      exists front back,
        revoked = (front ++ cert :: back)%list
        /\ revoked_name cert = cert_name
        /\ Forall (fun c => revoked_name c <> cert_name) front
  | None => Forall (fun c => revoked_name c <> cert_name) revoked
  end.
Proof.
  induction revoked as [|c rest IH]; [constructor|].
  cbn [List.find]. destruct (String.eqb_spec (revoked_name c) cert_name) as [Hc|Hc].
  - exists [], rest. split; [reflexivity|]. split; [exact Hc | constructor].
  - destruct (List.find _ rest) as [cert|].
    + destruct IH as (front & back & -> & Hname & Hfront).
      exists (c :: front), back. split; [reflexivity|]. split; [exact Hname|].
      constructor; assumption.
    + constructor; assumption.
Qed.

Lemma revoked_list_remove_first (cert_name : string)
    (front back : list VpnClientRevokedCertificate) (cert : VpnClientRevokedCertificate) :
  revoked_name cert = cert_name ->
  Forall (fun c => revoked_name c <> cert_name) front ->
  list_remove cert (front ++ cert :: back) = (front ++ back)%list.
Proof.
  intros Hname Hfront. induction Hfront as [|c front Hc _ IH]; cbn [app list_remove].
  - rewrite bool_decide_eq_true_2 by reflexivity. reflexivity.
  - rewrite bool_decide_eq_false_2; [rewrite IH; reflexivity|].
    intros ->. contradiction.
Qed.

(** X30: deleting a revoked certificate takes the first revoked
    certificate of the name out of the list and leaves the other
    revoked certificates and the root certificates alone, with the
    errors of the root certificate handler: [CLIError] without a client
    configuration or without a certificate of the name, [TypeError]
    for a revoked certificate list that is [None]. *)
Theorem delete_vnet_gateway_revoked_cert_first (ncf : VirtualNetworkGatewaysOperations)
    (resource_group_name gateway_name cert_name : string)
    (gateway : VirtualNetworkGateway) :
  get ncf resource_group_name gateway_name = Ok gateway ->
  match delete_vnet_gateway_revoked_cert ncf resource_group_name gateway_name cert_name with
  | Ok request =>
      exists config front cert back,
        vpn_client_configuration gateway = Some config
        /\ vpn_client_revoked_certificates config = Some (front ++ cert :: back)%list
        /\ revoked_name cert = cert_name
        /\ Forall (fun c => revoked_name c <> cert_name) front
        /\ request
           = begin_create_or_update resource_group_name gateway_name
               {| vpn_client_configuration :=
                    Some {| vpn_client_root_certificates :=
                              vpn_client_root_certificates config;
                            vpn_client_revoked_certificates :=
                              Some (front ++ back)%list |} |}
  | Raise e =>
      match vpn_client_configuration gateway with
      | None => e = CLIError
      | Some config =>
          match vpn_client_revoked_certificates config with
          | None => e = TypeError
          | Some revoked =>
              e = CLIError /\ Forall (fun c => revoked_name c <> cert_name) revoked
          end
      end
  end.
Proof.
  intros Hget. unfold delete_vnet_gateway_revoked_cert. rewrite Hget.
  cbn [mbind result_bind].
  destruct (vpn_client_configuration gateway) as [config|]; [|reflexivity].
  destruct (vpn_client_revoked_certificates config) as [revoked|] eqn:Hrevoked;
    [|reflexivity].
  pose proof (find_revoked_first cert_name revoked) as Hfind.
  destruct (List.find _ revoked) as [cert|].
  - destruct Hfind as (front & back & -> & Hname & Hfront).
    exists config, front, cert, back.
    split; [reflexivity|]. split; [exact Hrevoked|]. split; [exact Hname|].
    split; [exact Hfront|].
    rewrite (revoked_list_remove_first cert_name front back cert Hname Hfront).
    reflexivity.
  - split; [reflexivity | exact Hfind].
Qed.

End VnetGatewayProperties.

Lemma delete_vnet_gateway_root_cert_first_witness :
  match VnetGateway.delete_vnet_gateway_root_cert
          (Samples.vnet_gateway_client_of Samples.vnet_gateway) "rg" "gw" "root2" with
  | Ok request =>
      exists config front cert back,
        VnetGateway.vpn_client_configuration Samples.vnet_gateway = Some config
        /\ VnetGateway.vpn_client_root_certificates config
           = Some (front ++ cert :: back)%list
        /\ VnetGateway.root_name cert = "root2"
        /\ Forall (fun c => VnetGateway.root_name c <> "root2") front
        /\ request
           = VnetGateway.begin_create_or_update "rg" "gw"
               {| VnetGateway.vpn_client_configuration :=
                    Some {| VnetGateway.vpn_client_root_certificates :=
                              Some (front ++ back)%list;
                            VnetGateway.vpn_client_revoked_certificates :=
                              VnetGateway.vpn_client_revoked_certificates config |} |}
  | Raise e =>
      match VnetGateway.vpn_client_configuration Samples.vnet_gateway with
      | None => e = CLIError
      | Some config =>
          match VnetGateway.vpn_client_root_certificates config with
          | None => e = TypeError
          | Some roots =>
              e = CLIError /\ Forall (fun c => VnetGateway.root_name c <> "root2") roots
          end
      end
  end.
Proof.
  exact (delete_vnet_gateway_root_cert_first
           (Samples.vnet_gateway_client_of Samples.vnet_gateway) "rg" "gw" "root2"
           Samples.vnet_gateway eq_refl).
Defined.

Lemma delete_vnet_gateway_revoked_cert_first_witness :
  VnetGateway.delete_vnet_gateway_revoked_cert
    (Samples.vnet_gateway_client_of Samples.vnet_gateway) "rg" "gw" "revoked1"
  = Raise CLIError.
Proof.
  pose proof (delete_vnet_gateway_revoked_cert_first
                (Samples.vnet_gateway_client_of Samples.vnet_gateway) "rg" "gw" "revoked1"
                Samples.vnet_gateway eq_refl) as Hrun.
  destruct (VnetGateway.delete_vnet_gateway_revoked_cert
              (Samples.vnet_gateway_client_of Samples.vnet_gateway) "rg" "gw" "revoked1")
    as [request|e].
  - destruct Hrun as (config & front & cert & back & Hconfig & Hlist & _).
    injection Hconfig as <-. destruct front; discriminate Hlist.
  - destruct Hrun as [-> _]. reflexivity.
Defined.

(** ** Address prefixes of one kind *)

Section PrefixProperties.

Import Prefixes.

Variable ip_network : string -> option network_class.

Lemma scan_prefixes_from (v : network_class) (prefixes : list string) :
  match scan_prefixes ip_network (Some v) prefixes with
  | Ok version => version = Some v /\ Forall (fun p => ip_network p = Some v) prefixes
  | Raise e => e = CLIError /\ Exists (fun p => ip_network p <> Some v) prefixes
  end.
Proof.
  induction prefixes as [|p rest IH]; [split; [reflexivity | constructor]|].
  cbn [scan_prefixes]. destruct (ip_network p) as [network|] eqn:Hp.
  - destruct (bool_decide_reflect (network = v)) as [->|Hne]; cbn [negb].
    + destruct (scan_prefixes ip_network (Some v) rest) as [version|e].
      * destruct IH as [-> IH]. split; [reflexivity | constructor; assumption].
      * destruct IH as [-> IH]. split; [reflexivity | right; exact IH].
    + split; [reflexivity|]. left. rewrite Hp. congruence.
  - split; [reflexivity|]. left. rewrite Hp. discriminate.
Qed.

(** X25: [_validate_ipv6_address_prefixes] answers [True] exactly for
    a non-empty list of IPv6 prefixes and [False] exactly for a list of
    IPv4 prefixes, the empty list among them; a prefix that is not
    recognized, or a mix of the two kinds, raises [CLIError].  A single
    prefix is treated as the list of it. *)
Theorem validate_ipv6_address_prefixes_kind (prefixes : list string) :
  match _validate_ipv6_address_prefixes ip_network (inr prefixes) with
  | Ok true => prefixes <> [] /\ Forall (fun p => ip_network p = Some IPv6Network) prefixes
  | Ok false => Forall (fun p => ip_network p = Some IPv4Network) prefixes
  | Raise e =>
      e = CLIError
      /\ (Exists (fun p => ip_network p = None) prefixes
          \/ (Exists (fun p => ip_network p = Some IPv4Network) prefixes
              /\ Exists (fun p => ip_network p = Some IPv6Network) prefixes))
  end
  /\ forall prefix,
       _validate_ipv6_address_prefixes ip_network (inl prefix)
       = _validate_ipv6_address_prefixes ip_network (inr [prefix]).
Proof.
  split; [|reflexivity].
  unfold _validate_ipv6_address_prefixes.
  destruct prefixes as [|p rest]; [constructor|].
  cbn [scan_prefixes]. destruct (ip_network p) as [v|] eqn:Hp.
  - pose proof (scan_prefixes_from v rest) as Hscan.
    destruct (scan_prefixes ip_network (Some v) rest) as [version|e];
      cbn [mbind result_bind].
    + destruct Hscan as [-> Hall]. destruct v.
      * rewrite bool_decide_eq_false_2 by discriminate. constructor; assumption.
      * rewrite bool_decide_eq_true_2 by reflexivity.
        split; [discriminate | constructor; assumption].
    + destruct Hscan as [-> Hex]. split; [reflexivity|].
      apply Exists_exists in Hex as (q & Hin & Hq).
      destruct (ip_network q) as [w|] eqn:Hw.
      * right. destruct v, w; try congruence.
        -- split; [left; exact Hp | right; apply Exists_exists; eauto].
        -- split; [right; apply Exists_exists; eauto | left; exact Hp].
      * left. right. apply Exists_exists. eauto.
  - cbn [mbind result_bind]. split; [reflexivity|]. left. left. exact Hp.
Qed.

End PrefixProperties.

(** ** Name of the only child resource *)

Lemma rsplit_last_parts (c : ascii) (s : string) :
  match rsplit_last c s with
  | Some (p, q) => s = (p ++ String c q)%string /\ contains c q = false
  | None => contains c s = false
  end.
Proof.
  induction s as [|a r IH]; [reflexivity|].
  cbn [rsplit_last contains]. destruct (rsplit_last c r) as [[p q]|].
  - destruct IH as [-> Hq]. split; [reflexivity | exact Hq].
  - destruct (Ascii.eqb_spec a c) as [->|Hne].
    + split; [reflexivity | exact IH].
    + exact IH.
Qed.

(** X26: the name [_get_default_name] returns for a single child
    resource is what follows the last slash of its id, and holds no
    slash; an id without a slash raises [IndexError]. *)
Theorem get_default_name_last_segment
    (balancer : gmap string (list SubResource)) (property_name option_name : string)
    (x : SubResource) :
  balancer !! property_name = Some [x] ->
  match _get_default_name balancer property_name option_name with
  | Ok name =>
      (exists parent, id x = (parent ++ "/" ++ name)%string) /\ contains "/" name = false
  | Raise e => e = IndexError /\ contains "/" (id x) = false
  end.
Proof.
  intros Hlookup. unfold _get_default_name, _get_default_value, Util.getattr.
  rewrite Hlookup. cbn [mbind result_bind map length Nat.ltb Nat.leb].
  rewrite bool_decide_eq_false_2 by discriminate.
  cbn [index nth_error mbind result_bind]. unfold rsplit1.
  pose proof (rsplit_last_parts "/" (id x)) as Hparts.
  destruct (rsplit_last "/" (id x)) as [[p q]|]; cbn [index nth_error].
  - destruct Hparts as [Hid Hq]. split; [exists p; exact Hid | exact Hq].
  - split; [reflexivity | exact Hparts].
Qed.

Lemma get_default_name_last_segment_witness :
  match _get_default_name {[ "frontend_ip_configurations" := [ {| id := "frontend1" |} ] ]}
          "frontend_ip_configurations" "--frontend-ip-name" with
  | Ok name =>
      (exists parent, "frontend1" = (parent ++ "/" ++ name)%string)
      /\ contains "/" name = false
  | Raise e => e = IndexError /\ contains "/" "frontend1" = false
  end.
Proof.
  exact (get_default_name_last_segment
           {[ "frontend_ip_configurations" := [ {| id := "frontend1" |} ] ]}
           "frontend_ip_configurations" "--frontend-ip-name" {| id := "frontend1" |}
           eq_refl).
Defined.

(** ** Bandwidth arguments that are no number and a unit *)

Section BandwidthErrors.

Variable float : string -> option PrimFloat.float.

Lemma length_split_pieces (c : ascii) (s : string) :
  length (split c s) = S (occurrences c s).
Proof.
  induction s as [|a r IH]; [reflexivity|].
  cbn [split occurrences]. destruct (Ascii.eqb a c).
  - cbn [length]. rewrite IH. reflexivity.
  - destruct (split c r) as [|p ps]; [discriminate IH|]. exact IH.
Qed.

(** X27: a single bandwidth text with two or more spaces in it, a
    number and a unit two spaces apart for one, raises
    [InvalidArgumentValueError] before the number is looked at. *)
Theorem validate_bandwidth_two_spaces (text : string) (mbps : bool) :
  (2 <= occurrences " " text)%nat ->
  _validate_bandwidth float (Some [text]) mbps = Raise InvalidArgumentValueError.
Proof.
  intros Hspaces. unfold _validate_bandwidth.
  cbn [length Nat.eqb index nth_error mbind result_bind].
  pose proof (length_split_pieces " " text) as Hlen.
  destruct (Nat.eqb_spec (length (split " " text)) 1) as [H1|_]; [lia|].
  destruct (Nat.ltb_spec 2 (length (split " " text))) as [_|H2]; [reflexivity | lia].
Qed.

(** X28: with one or two components, a first component that [float]
    rejects raises [ValueError], whatever the unit; a bandwidth
    argument without elements raises [IndexError]. *)
Theorem validate_bandwidth_not_a_number (bandwidth : list string) (mbps : bool)
    (v : string) (rest : list string) :
  bandwidth_components bandwidth = v :: rest ->
  (length rest <= 1)%nat ->
  float v = None ->
  _validate_bandwidth float (Some bandwidth) mbps = Raise ValueError
  /\ _validate_bandwidth float (Some []) mbps = Raise IndexError.
Proof.
  intros Hcomps Hlen Hfloat. split; [|reflexivity].
  rewrite validate_bandwidth_components, Hcomps.
  destruct rest as [|u [|u' rest]]; [| |cbn [length] in Hlen; lia];
    cbn [length Nat.eqb Nat.ltb Nat.leb app index nth_error mbind result_bind];
    unfold to_float; rewrite Hfloat; reflexivity.
Qed.

End BandwidthErrors.

Lemma validate_bandwidth_two_spaces_witness :
  _validate_bandwidth Examples.float_of_digits (Some ["10  Gbps"]) true
  = Raise InvalidArgumentValueError.
Proof.
  apply (validate_bandwidth_two_spaces Examples.float_of_digits "10  Gbps" true).
  vm_compute. lia.
Defined.

Lemma validate_bandwidth_not_a_number_witness :
  _validate_bandwidth Examples.float_of_digits (Some ["fast"; "Mbps"]) true
  = Raise ValueError
  /\ _validate_bandwidth Examples.float_of_digits (Some []) true = Raise IndexError.
Proof.
  apply (validate_bandwidth_not_a_number Examples.float_of_digits ["fast"; "Mbps"] true
           "fast" ["Mbps"]).
  - reflexivity.
  - simpl. lia.
  - reflexivity.
Defined.

(** ** Optional blocks of a flow log *)

(** X29: in the flow log that [create_nw_flow_log] submits, the
    location, storage account, enabled flag and tags are the arguments;
    a retention policy is present exactly for a positive [retention],
    and is then enabled with that many days; a format is present
    exactly when [log_format] or [log_version] is not [None]; and a
    traffic-analytics configuration exactly when a workspace is named,
    with the interval and enabled flag of the arguments and the id,
    region and customer id of the workspace. *)
Theorem create_nw_flow_log_payload
    (g : string -> result (option GenericResource))
    (location watcher_rg watcher_name flow_log_name : string) (a : Args)
    (rg wn fn : string) (fl : FlowLog.FlowLog) :
  create_nw_flow_log g location watcher_rg watcher_name flow_log_name a
  = Ok (begin_create_or_update rg wn fn fl) ->
  (rg, wn, fn) = (watcher_rg, watcher_name, flow_log_name)
  /\ FlowLog.location fl = location
  /\ storage_id fl = storage_account a
  /\ enabled fl = arg_enabled a
  /\ tags fl = arg_tags a
  /\ retention_policy fl
     = (if (0 <? retention a)%Z
        then Some {| days := retention a; retention_enabled := true |}
        else None)
  /\ format fl
     = (if is_not_None (log_format a) || is_not_None (log_version a)
        then Some {| format_type := log_format a; format_version := log_version a |}
        else None)
  /\ match traffic_analytics_workspace a with
     | None => flow_analytics_configuration fl = None
     | Some w =>
         exists ws customer_id,
           g w = Ok (Some ws)
           /\ properties ws !! "customerId" = Some customer_id
           /\ flow_analytics_configuration fl
              = Some {| network_watcher_flow_analytics_configuration :=
                          {| analytics_enabled := traffic_analytics_enabled a;
                             workspace_id := customer_id;
                             workspace_region := resource_location ws;
                             workspace_resource_id := resource_id ws;
                             analytics_interval := traffic_analytics_interval a |} |}
     end.
Proof.
  unfold create_nw_flow_log.
  destruct (sum_bool [vnet a; subnet a; nic a; nsg a] =? 0)%nat; [discriminate|].
  destruct (1 <? sum_bool [vnet a; nic a; nsg a])%nat; [discriminate|].
  cbv zeta.
  match goal with
  | |- context [mbind _ (if (0 <? retention a)%Z then mbind _ (bound ?sel) else _)] =>
      remember sel as selected eqn:Hsel
  end.
  destruct selected as [fl0|].
  - assert (Hfl0 : FlowLog.location fl0 = location /\ storage_id fl0 = storage_account a
                   /\ enabled fl0 = arg_enabled a /\ tags fl0 = arg_tags a
                   /\ retention_policy fl0 = None /\ format fl0 = None
                   /\ flow_analytics_configuration fl0 = None).
    { destruct (is_not_None (subnet a)); [injection Hsel as ->; repeat split|].
      destruct (is_not_None (vnet a) && negb false);
        [injection Hsel as ->; repeat split|].
      destruct (is_not_None (nic a)); [injection Hsel as ->; repeat split|].
      destruct (is_not_None (nsg a)); [injection Hsel as ->; repeat split|].
      discriminate. }
    clear Hsel. destruct Hfl0 as (Hl & Hs & He & Ht & Hr & Hf & Hc).
    destruct (0 <? retention a)%Z eqn:Hret,
      (is_not_None (log_format a) || is_not_None (log_version a)),
      (traffic_analytics_workspace a) as [w|];
      cbn [bound mbind result_bind];
      try (destruct (g w) as [[ws|]|e]; cbn [mbind result_bind]; try discriminate;
           destruct (properties ws !! "customerId") as [c|] eqn:Hcid;
           cbn [mbind result_bind bound]; try discriminate);
      intros [= <- <- <- <-];
      cbn [FlowLog.location storage_id enabled tags retention_policy format
           flow_analytics_configuration set_retention_policy set_format
           set_flow_analytics_configuration];
      (split; [reflexivity|]); (split; [exact Hl|]); (split; [exact Hs|]);
      (split; [exact He|]); (split; [exact Ht|]);
      (split; [first [exact Hr | reflexivity]|]);
      (split; [first [exact Hf | reflexivity]|]);
      first [exact Hc | exists ws, c; split; [reflexivity|]; split; [exact Hcid|reflexivity]].
  - clear Hsel.
    destruct (0 <? retention a)%Z,
      (is_not_None (log_format a) || is_not_None (log_version a)),
      (traffic_analytics_workspace a) as [w|];
      cbn [bound mbind result_bind];
      try (destruct (g w) as [[ws|]|e]; cbn [mbind result_bind]; try discriminate;
           destruct (properties ws !! "customerId") as [c|];
           cbn [mbind result_bind bound]; try discriminate);
      discriminate.
Qed.

Lemma create_nw_flow_log_payload_witness :
  exists fl,
    create_nw_flow_log Examples.no_workspace "westus" "rg" "watcher" "flowlog1"
      (Examples.args_with (Some Examples.nsg1) None None None)
    = Ok (begin_create_or_update "rg" "watcher" "flowlog1" fl)
    /\ retention_policy fl = Some {| days := 7; retention_enabled := true |}
    /\ format fl = None
    /\ flow_analytics_configuration fl = None.
Proof.
  set (fl := {| FlowLog.location := "westus"; target_resource_id := Some Examples.nsg1;
                storage_id := Some "sa1"; enabled := Some true; tags := None;
                retention_policy := Some {| days := 7; retention_enabled := true |};
                format := None; flow_analytics_configuration := None |}).
  exists fl.
  destruct (create_nw_flow_log_payload Examples.no_workspace "westus" "rg" "watcher"
              "flowlog1" (Examples.args_with (Some Examples.nsg1) None None None)
              "rg" "watcher" "flowlog1" fl eq_refl)
    as (_ & _ & _ & _ & _ & Hretention & Hformat & Hanalytics).
  split; [reflexivity|]. split; [exact Hretention|]. split; [exact Hformat|].
  exact Hanalytics.
Defined.
